(** * TMS-MCP-Server: request/response transformation, classification,
      endpoint selection, error taxonomy and workflow session.

    Shallow embedding of
      - src/utils/api-client.ts   (transformOmeletResponse, OmeletAPIClient)
      - src/config/api-config.ts  (selectEndpoint)
      - src/tools/solve-optimization.ts (the sync/async dispatch)
      - src/utils/session-manager.ts    (completeStep, getNextStep)

    JavaScript numbers are modelled as rationals extended with NaN and the
    two infinities (rounding of IEEE doubles and the sign of zero are not
    modelled).  An absent property ([undefined]) is [None]. *)

From Stdlib Require Import ZArith QArith Qround Bool List Lia Ascii String.
From stdpp Require Import base option list strings gmap pretty.

Local Open Scope string_scope.

(** ** JavaScript primitives used by the client *)

Module JS.

Inductive number : Type :=
| NaN
| NegInf
| Fin (q : Q)
| PosInf.

Definition num (z : Z) : number := Fin (inject_Z z).

(** [Number(x)] for a property that holds a number or is absent. *)
Definition Number (x : option number) : number :=
  match x with
  | Some n => n
  | None => NaN
  end.

Definition isNaN (n : number) : bool :=
  match n with NaN => true | _ => false end.

(** Truthiness of a number: everything but [0] and [NaN]. *)
Definition truthy (n : number) : bool :=
  match n with
  | NaN => false
  | Fin q => negb (Qeq_bool q 0)
  | NegInf | PosInf => true
  end.

(** [a || b] on numbers. *)
Definition or_else (a b : number) : number :=
  if truthy a then a else b.

(** Relational comparison; [None] when an operand is [NaN]. *)
Definition cmp (a b : number) : option comparison :=
  match a, b with
  | NaN, _ | _, NaN => None
  | NegInf, NegInf => Some Eq
  | NegInf, _ => Some Lt
  | _, NegInf => Some Gt
  | PosInf, PosInf => Some Eq
  | PosInf, _ => Some Gt
  | _, PosInf => Some Lt
  | Fin p, Fin q => Some (Qcompare p q)
  end.

Definition lt (a b : number) : bool :=
  match cmp a b with Some Lt => true | _ => false end.
Definition gt (a b : number) : bool := lt b a.
Definition ge (a b : number) : bool :=
  match cmp a b with Some Gt | Some Eq => true | _ => false end.

Definition add (a b : number) : number :=
  match a, b with
  | NaN, _ | _, NaN => NaN
  | PosInf, NegInf | NegInf, PosInf => NaN
  | PosInf, _ | _, PosInf => PosInf
  | NegInf, _ | _, NegInf => NegInf
  | Fin p, Fin q => Fin (p + q)
  end.

Definition div (a b : number) : number :=
  match a, b with
  | NaN, _ | _, NaN => NaN
  | Fin p, Fin q =>
      if Qeq_bool q 0 then
        match Qcompare p 0 with
        | Eq => NaN
        | Gt => PosInf
        | Lt => NegInf
        end
      else Fin (p / q)
  | Fin _, _ => Fin 0
  | _, Fin q =>
      match a, Qcompare q 0 with
      | PosInf, Lt => NegInf
      | PosInf, _ => PosInf
      | _, Lt => PosInf
      | _, _ => NegInf
      end
  | _, _ => NaN
  end.

(** [Math.max(a, b)]. *)
Definition Math_max (a b : number) : number :=
  match cmp a b with
  | None => NaN
  | Some Lt => b
  | Some _ => a
  end.

(** [Math.round]: nearest integer, halves towards plus infinity. *)
Definition Math_round (a : number) : number :=
  match a with
  | Fin q => Fin (inject_Z (Qfloor (q + (1 # 2))))
  | _ => a
  end.

(** Truthiness of an optional string property. *)
Definition truthy_str (s : option string) : bool :=
  match s with
  | Some s => negb (String.eqb s "")
  | None => false
  end.

(** [s.includes(sub)]. *)
Fixpoint includes (s sub : string) : bool :=
  String.prefix sub s ||
  match s with
  | EmptyString => false
  | String _ s' => includes s' sub
  end.

Definition is_space (c : ascii) : bool :=
  let n := nat_of_ascii c in
  (n =? 32)%nat || ((9 <=? n)%nat && (n <=? 13)%nat).

Fixpoint trim_start (s : string) : string :=
  match s with
  | String c s' => if is_space c then trim_start s' else s
  | EmptyString => EmptyString
  end.

(** [s.trim()] for ASCII white space. *)
Definition trim (s : string) : string :=
  String.rev (trim_start (String.rev (trim_start s))).

(** [a.slice(1, -1)] on an array. *)
Definition slice_1_m1 {A} (l : list A) : list A :=
  removelast (tail l).

(** [a * b]. *)
Definition mul (a b : number) : number :=
  match a, b with
  | NaN, _ | _, NaN => NaN
  | Fin p, Fin q => Fin (p * q)
  | Fin p, inf | inf, Fin p =>
      match Qcompare p 0, inf with
      | Eq, _ => NaN
      | Gt, _ => inf
      | Lt, PosInf => NegInf
      | Lt, _ => PosInf
      end
  | PosInf, PosInf | NegInf, NegInf => PosInf
  | _, _ => NegInf
  end.

End JS.

Export JS (number).

(** ** Data model (src/types/index.ts)

    The records list the schema's properties together with the further
    properties the client reads from a driver or an order
    ([volume_capacity], [vehicle_type], the cost and preference columns,
    [service_time]).  Identifiers that the client never reads are omitted. *)

Module Driver.
Record t : Type := mk {
  name : option string;
  start_location_lat : option number;
  start_location_lng : option number;
  capacity : option number;
  volume_capacity : option number;
  working_hours_start : option string;
  working_hours_end : option string;
  cost_per_km : option number;
  vehicle_type : option string;
  fixed_cost : option number;
  unit_distance_cost : option number;
  unit_duration_cost : option number;
  visit_preference_1 : option number;
  visit_preference_2 : option number;
  visit_preference_3 : option number;
  visit_preference_4 : option number
}.
End Driver.

Module Order.
Record t : Type := mk {
  order_id : string;
  delivery_lat : option number;
  delivery_lng : option number;
  weight : option number;
  volume : option number;
  time_window_start : option string;
  time_window_end : option string;
  priority : option number;
  service_time : option number
}.
End Order.

Module Depot.
Record t : Type := mk {
  name : option string;
  lat : option number;
  lng : option number
}.
End Depot.

Record Coordinate : Type := { lng : number; lat : number }.

Record OmeletDepot : Type := {
  depot_name : string;
  depot_coordinate : Coordinate
}.

Module Visit.
Record t : Type := mk {
  name : string;
  coordinate : Coordinate;
  weight : option number;
  volume : option number;
  unassigned_penalty : option number;
  time_window : option (string * string);
  service_time : option number
}.
End Visit.

Module Vehicle.
Record t : Type := mk {
  name : string;
  vehicle_type : string;
  weight_capacity : option number;
  volume_capacity : option number;
  fixed_cost : number;
  unit_distance_cost : number;
  unit_duration_cost : number;
  return_to_depot : bool;
  work_start_time : option string;
  work_end_time : option string;
  visit_preference : option (list number)
}.
End Vehicle.

Inductive Objective : Type := minsum | minmax.
Inductive DistanceType : Type := manhattan | euclidean | osrm.

Record ApiOption : Type := {
  objective_type : Objective;
  timelimit : number;
  distance_type : DistanceType;
  allow_unassigned_visits : bool;
  use_large_size_optimization_algorithm : bool;
  include_departure_cost_from_depot : bool;
  include_return_cost_to_depot : bool
}.

Module Request.
Record t : Type := mk {
  depot : OmeletDepot;
  visits : list Visit.t;
  vehicles : list Vehicle.t;
  delivery_start_time : option string;
  option : option ApiOption
}.
End Request.

(** The [options] argument of [transformToOmeletRequest]. *)
Module Options.
Record t : Type := mk {
  objective : option Objective;
  timeLimit : option number;
  enableCapacityConstraint : option bool;
  enableTimeWindowConstraint : option bool;
  allowUnassignedVisits : option bool;
  distanceType : option DistanceType;
  deliveryStartTime : option string
}.

Definition none : t := mk None None None None None None None.
End Options.

(** The object returned by [analyzeProblemType]. *)
Inductive ProblemType : Type :=
| TSP
| CVRP
| CVRPTW
| CVRP_Driver_Shifts
| CVRP_Preferences
| Multi_Objective_CVRP.

Inductive Complexity : Type := Low | Medium | High | Medium_High.

Module Analysis.
Record t : Type := mk {
  type : ProblemType;
  complexity : Complexity;
  hasCapacity : bool;
  hasTimeWindows : bool;
  hasWorkingHours : bool;
  hasPreferences : bool;
  hasMultiObjective : bool;
  hasDiverseVehicleTypes : bool;
  isLargeProblem : bool
}.

(** [problemAnalysis.hasTimeWindows = v] on the shared object. *)
Definition set_hasTimeWindows (v : bool) (a : t) : t :=
  mk (type a) (complexity a) (hasCapacity a) v (hasWorkingHours a)
     (hasPreferences a) (hasMultiObjective a) (hasDiverseVehicleTypes a)
     (isLargeProblem a).
End Analysis.

(** [TMSError]: the machine-readable code and the remediation suggestions
    (the message text and the details payload are not modelled). *)
Record TMSError : Type := {
  code : string;
  suggestions : option (list string)
}.

Inductive result (A : Type) : Type :=
| Ok (a : A)
| Err (e : TMSError).
Arguments Ok {A} a.
Arguments Err {A} e.

Definition bind {A B} (r : result A) (k : A -> result B) : result B :=
  match r with
  | Ok a => k a
  | Err e => Err e
  end.

Notation "x <- r ;; k" := (bind r (fun x => k))
  (at level 100, r at next level, right associativity).

Definition throw {A} (c : string) : result A :=
  Err {| code := c; suggestions := None |}.

(** [array.map(f)] where [f(element, index)] may throw. *)
Fixpoint map_indexed {A B} (f : A -> nat -> result B) (i : nat) (l : list A)
  : result (list B) :=
  match l with
  | [] => Ok []
  | x :: l' =>
      y <- f x i ;;
      ys <- map_indexed f (S i) l' ;;
      Ok (y :: ys)
  end.

(** ** Solver response and its normalized form *)

Inductive Status : Type :=
| feasible
| optimal
| infeasible
| feasible_with_unassigned_visits
| time_limit_exceeded.

Record RouteCostDetails : Type := {
  objective_cost : number;
  distance_cost : number;
  duration_cost : number;
  route_fixed_cost : number
}.

Record SolutionCostDetails : Type := {
  total_objective_cost : number;
  total_distance_cost : number;
  total_duration_cost : number;
  max_distance_cost : number;
  max_duration_cost : number;
  total_fixed_cost : number;
  unassigned_penalty_cost : number
}.

Module RawRoute.
Record t : Type := mk {
  vehicle_name : string;
  route_index : list number;
  route_name : list string;
  route_cost_details : RouteCostDetails
}.
End RawRoute.

Module EngineResult.
Record t : Type := mk {
  routes : list RawRoute.t;
  unassigned_visit_indices : list number;
  unassigned_visit_names : list string;
  solution_cost_details : SolutionCostDetails
}.
End EngineResult.

Module Response.
Record t : Type := mk {
  routing_engine_result : EngineResult.t;
  status : Status;
  detail : string;
  job_id : string
}.
End Response.

Record RouteVisit : Type := {
  visit_name : string;
  arrival_time : option string;
  departure_time : option string
}.

Module Route.
Record t : Type := mk {
  vehicle_name : string;
  visits : list RouteVisit;
  total_distance : number;
  total_duration : number;
  total_cost : number
}.
End Route.

Module Processed.
Record t : Type := mk {
  status : Status;
  routes : list Route.t;
  unassigned_visits : list string;
  total_distance : number;
  total_duration : number;
  total_cost : number;
  detail : string
}.
End Processed.

Definition transformOmeletResponse (response : Response.t) : Processed.t :=
  let result := Response.routing_engine_result response in
  let routes :=
    map (fun route =>
           let visits :=
             map (fun visitName =>
                    {| visit_name := visitName;
                       arrival_time := None;
                       departure_time := None |})
                 (JS.slice_1_m1 (RawRoute.route_name route)) in
           Route.mk (RawRoute.vehicle_name route)
                    visits
                    (distance_cost (RawRoute.route_cost_details route))
                    (duration_cost (RawRoute.route_cost_details route))
                    (objective_cost (RawRoute.route_cost_details route)))
        (EngineResult.routes result) in
  Processed.mk (Response.status response)
               routes
               (EngineResult.unassigned_visit_names result)
               (total_distance_cost (EngineResult.solution_cost_details result))
               (total_duration_cost (EngineResult.solution_cost_details result))
               (total_objective_cost (EngineResult.solution_cost_details result))
               (Response.detail response).

(** ** The API client (class [OmeletAPIClient]) *)

(** What [console.warn] receives from [validateRequest]. *)
Inductive Warning : Type :=
| DemandExceedsCapacity (totalDemand totalCapacity : number).

(** What [handleApiError] is given. *)
Inductive Failure : Type :=
| ThrownTMSError (e : TMSError)
| AxiosError (status : option Z)
| OtherError.

Module ApiClient.

Import JS.

Definition defined {A} (x : option A) : bool :=
  match x with Some _ => true | None => false end.

(** [s || d] on an optional string. *)
Definition str_or (s : option string) (d : string) : string :=
  match s with
  | Some s => if String.eqb s "" then d else s
  | None => d
  end.

(** [lng < -180 || lng > 180 || lat < -90 || lat > 90], after the
    [isNaN] tests. *)
Definition invalid_coordinates (lng lat : number) : bool :=
  isNaN lng || isNaN lat || lt lng (num (-180)) || gt lng (num 180)
  || lt lat (num (-90)) || gt lat (num 90).

Definition shouldEnableCapacityConstraintFromData
    (drivers : list Driver.t) (orders : list Order.t) : bool :=
  let hasOrderVolume :=
    existsb (fun order =>
               gt (or_else (Number (Order.volume order)) (num 0)) (num 0)
               || gt (or_else (Number (Order.weight order)) (num 0)) (num 0))
            orders in
  let hasDriverCapacity :=
    existsb (fun driver =>
               gt (or_else (Number (Driver.volume_capacity driver)) (num 0)) (num 0)
               || gt (or_else (Number (Driver.capacity driver)) (num 0)) (num 0))
            drivers in
  hasOrderVolume || hasDriverCapacity.

Definition analyzeProblemType
    (drivers : list Driver.t) (orders : list Order.t) (depots : list Depot.t)
    (options : option Options.t) : Analysis.t :=
  let hasCapacity :=
    match options ≫= Options.enableCapacityConstraint with
    | Some b => b
    | None =>
        existsb (fun d => gt (Number (Driver.capacity d)) (num 0)) drivers
        || existsb (fun o => gt (Number (Order.weight o)) (num 0)
                             || gt (Number (Order.volume o)) (num 0)) orders
    end in
  let hasTimeWindows :=
    match options ≫= Options.enableTimeWindowConstraint with
    | Some true => true
    | _ =>
        existsb (fun o => truthy_str (Order.time_window_start o)
                          && truthy_str (Order.time_window_end o)) orders
    end in
  let hasWorkingHours :=
    existsb (fun d => truthy_str (Driver.working_hours_start d)
                      || truthy_str (Driver.working_hours_end d)) drivers in
  let hasPreferences :=
    existsb (fun d => defined (Driver.visit_preference_1 d)
                      || defined (Driver.visit_preference_2 d)
                      || defined (Driver.visit_preference_3 d)
                      || defined (Driver.visit_preference_4 d)) drivers in
  let hasMultiObjective :=
    existsb (fun d => gt (Number (Driver.fixed_cost d)) (num 0)
                      || gt (Number (Driver.unit_distance_cost d)) (num 0)
                      || gt (Number (Driver.unit_duration_cost d)) (num 0)) drivers in
  let hasDiverseVehicleTypes :=
    (1 <? size (list_to_set
                  (map (fun d => str_or (Driver.vehicle_type d) "car") drivers)
                : gset string))%nat in
  let classification : ProblemType * Complexity :=
    if (length drivers =? 1)%nat && negb hasCapacity && negb hasTimeWindows
    then (TSP, Low)
    else if hasCapacity && negb hasTimeWindows && negb hasWorkingHours
            && negb hasPreferences
    then (CVRP, Medium)
    else if hasCapacity && hasTimeWindows then (CVRPTW, High)
    else if hasCapacity && hasWorkingHours then (CVRP_Driver_Shifts, Medium_High)
    else if hasPreferences || hasDiverseVehicleTypes then (CVRP_Preferences, Medium)
    else if hasMultiObjective then (Multi_Objective_CVRP, Medium_High)
    else if (1 <? length drivers)%nat then (CVRP, Medium)
    else (TSP, Low) in
  Analysis.mk classification.1 classification.2
              hasCapacity hasTimeWindows hasWorkingHours
              hasPreferences hasMultiObjective hasDiverseVehicleTypes
              ((1000 <? length orders)%nat || (50 <? length drivers)%nat).

Definition buildDepot (depots : list Depot.t) (drivers : list Driver.t)
  : result OmeletDepot :=
  match depots with
  | depot0 :: _ =>
      let depotLng := Number (Depot.lng depot0) in
      let depotLat := Number (Depot.lat depot0) in
      if invalid_coordinates depotLng depotLat
      then throw "INVALID_DEPOT_COORDINATES"
      else Ok {| depot_name := str_or (Depot.name depot0) "Main Depot";
                 depot_coordinate := {| lng := depotLng; lat := depotLat |} |}
  | [] =>
      match drivers with
      | driver0 :: _ =>
          let driverLng := Number (Driver.start_location_lng driver0) in
          let driverLat := Number (Driver.start_location_lat driver0) in
          if invalid_coordinates driverLng driverLat
          then throw "INVALID_DRIVER_COORDINATES"
          else Ok {| depot_name := "Default Depot";
                     depot_coordinate := {| lng := driverLng; lat := driverLat |} |}
      | [] => throw "INSUFFICIENT_DATA"
      end
  end.

Section WithClock.

(** [new Date().toISOString().split('T')[0]]: the current calendar
    date, as [YYYY-MM-DD]. *)
Variable today : string.

(** The time value of [new Date(s)]; [NaN] for an invalid date. *)
Variable dateValue : string -> number.

(** The body of the callback of [buildVisits]. *)
Definition buildVisit (problemAnalysis : Analysis.t) (order : Order.t)
    (index : nat) : result Visit.t :=
  let lng := Number (Order.delivery_lng order) in
  let lat := Number (Order.delivery_lat order) in
  if invalid_coordinates lng lat then throw "INVALID_COORDINATES"
  else
    let name :=
      if String.eqb (Order.order_id order) ""
      then "Order_" ++ pretty (index + 1)%nat
      else Order.order_id order in
    let weight :=
      if Analysis.hasCapacity problemAnalysis
      then Some (Math_max (num 0) (or_else (Number (Order.weight order)) (num 0)))
      else None in
    let volume :=
      if Analysis.hasCapacity problemAnalysis
      then Some (Math_max (num 0) (or_else (Number (Order.volume order)) (num 0)))
      else None in
    let unassigned_penalty :=
      if Analysis.hasPreferences problemAnalysis
         && truthy (Number (Order.priority order))
      then Some (Math_round (div (num 1000) (Number (Order.priority order))))
      else
        match Analysis.type problemAnalysis with
        | TSP => None
        | _ => Some (num 100)
        end in
    let windowed :=
      Analysis.hasTimeWindows problemAnalysis
      && truthy_str (Order.time_window_start order)
      && truthy_str (Order.time_window_end order) in
    let time_window :=
      if windowed then
        let time_window_start := default "" (Order.time_window_start order) in
        let time_window_end := default "" (Order.time_window_end order) in
        Some (if includes time_window_start "T"
              then (time_window_start, time_window_end)
              else (today ++ "T" ++ time_window_start ++ ":00Z",
                    today ++ "T" ++ time_window_end ++ ":00Z"))
      else None in
    let service_time :=
      if windowed
      then Some (or_else (Number (Order.service_time order)) (num 10))
      else None in
    Ok (Visit.mk name {| lng := lng; lat := lat |} weight volume
                 unassigned_penalty time_window service_time).

Definition buildVisits (orders : list Order.t) (problemAnalysis : Analysis.t)
  : result (list Visit.t) :=
  map_indexed (buildVisit problemAnalysis) 0%nat orders.

(** [working_hours_start]/[working_hours_end] of a driver, normalized. *)
Definition work_time (bound : option string) : option string :=
  match bound with
  | Some t =>
      if truthy_str (Some t) then
        if includes t "+" || includes t "Z" then Some t
        else if includes t "T" then Some t
        else Some (today ++ "T" ++ t ++ ":00Z")
      else None
  | None => None
  end.

(** The body of the callback of [buildVehicles]: it returns the vehicle
    and the shared [problemAnalysis] object as it leaves it. *)
Definition buildVehicle (driver : Driver.t) (index : nat)
    (problemAnalysis : Analysis.t) : Vehicle.t * Analysis.t :=
  let name := str_or (Driver.name driver) ("Vehicle_" ++ pretty (index + 1)%nat) in
  let vehicle_type := trim (str_or (Driver.vehicle_type driver) "car") in
  let weight_capacity :=
    Math_max (num 1) (or_else (Number (Driver.capacity driver)) (num 1000)) in
  let volume_capacity :=
    if gt (Number (Driver.volume_capacity driver)) (num 0)
    then Number (Driver.volume_capacity driver)
    else weight_capacity in
  let capacity_field (v : number) : option number :=
    if Analysis.hasCapacity problemAnalysis then Some v else None in
  let fixed_cost :=
    if Analysis.hasMultiObjective problemAnalysis
    then or_else (Number (Driver.fixed_cost driver)) (num 0)
    else num 0 in
  let unit_distance_cost :=
    if Analysis.hasMultiObjective problemAnalysis
    then or_else (Number (Driver.unit_distance_cost driver))
                 (or_else (Number (Driver.cost_per_km driver)) (num 1))
    else Math_max (num 0) (or_else (Number (Driver.cost_per_km driver)) (num 1)) in
  let unit_duration_cost :=
    if Analysis.hasMultiObjective problemAnalysis
    then or_else (Number (Driver.unit_duration_cost driver)) (num 0)
    else num 0 in
  let return_to_depot := true in
  let working := Analysis.hasWorkingHours problemAnalysis in
  let problemAnalysis :=
    if working then Analysis.set_hasTimeWindows true problemAnalysis
    else problemAnalysis in
  let work_start_time :=
    if working then work_time (Driver.working_hours_start driver) else None in
  let work_end_time :=
    if working then work_time (Driver.working_hours_end driver) else None in
  let visit_preference :=
    if Analysis.hasPreferences problemAnalysis then
      let preferences :=
        omap (fun p : option number => (fun n => Number (Some n)) <$> p)
             [Driver.visit_preference_1 driver;
              Driver.visit_preference_2 driver;
              Driver.visit_preference_3 driver;
              Driver.visit_preference_4 driver] in
      if (0 <? length preferences)%nat then Some preferences else None
    else None in
  (Vehicle.mk name vehicle_type
              (capacity_field weight_capacity) (capacity_field volume_capacity)
              fixed_cost unit_distance_cost unit_duration_cost
              return_to_depot work_start_time work_end_time visit_preference,
   problemAnalysis).

(** [drivers.map(...)], threading the shared object through the calls
    of the callback in array order. *)
Fixpoint buildVehicles_from (index : nat) (drivers : list Driver.t)
    (problemAnalysis : Analysis.t) : list Vehicle.t * Analysis.t :=
  match drivers with
  | [] => ([], problemAnalysis)
  | driver :: rest =>
      let '(vehicle, problemAnalysis) := buildVehicle driver index problemAnalysis in
      let '(vehicles, problemAnalysis) := buildVehicles_from (S index) rest problemAnalysis in
      (vehicle :: vehicles, problemAnalysis)
  end.

Definition buildVehicles (drivers : list Driver.t) (problemAnalysis : Analysis.t)
  : list Vehicle.t * Analysis.t :=
  buildVehicles_from 0 drivers problemAnalysis.

Definition buildApiOptions (problemAnalysis : Analysis.t)
    (visitCount vehicleCount : nat) (options : option Options.t) : ApiOption :=
  let timelimit :=
    match Analysis.type problemAnalysis with
    | TSP | CVRP => num 10
    | CVRP_Preferences => num 15
    | CVRP_Driver_Shifts | Multi_Objective_CVRP => num 20
    | CVRPTW => num 30
    end in
  let timelimit :=
    match options ≫= Options.timeLimit with
    | Some t => if truthy t then t else timelimit
    | None => timelimit
    end in
  let objective_type :=
    match Analysis.type problemAnalysis, (1 <? vehicleCount)%nat with
    | TSP, true => minmax
    | _, _ =>
        match options ≫= Options.objective with
        | Some minmax => minmax
        | _ => minsum
        end
    end in
  {| objective_type := objective_type;
     timelimit := timelimit;
     distance_type := default euclidean (options ≫= Options.distanceType);
     allow_unassigned_visits :=
       default (Analysis.isLargeProblem problemAnalysis)
               (options ≫= Options.allowUnassignedVisits);
     use_large_size_optimization_algorithm := Analysis.isLargeProblem problemAnalysis;
     include_departure_cost_from_depot := true;
     include_return_cost_to_depot := true |}.

Definition buildFinalRequest (depot : OmeletDepot) (visits : list Visit.t)
    (vehicles : list Vehicle.t) (apiOption : ApiOption)
    (problemAnalysis : Analysis.t) (options : option Options.t) : Request.t :=
  Request.mk depot visits vehicles
    (if Analysis.hasTimeWindows problemAnalysis
        && truthy_str (options ≫= Options.deliveryStartTime)
     then options ≫= Options.deliveryStartTime
     else None)
    (Some apiOption).

(** The two sums and the test of [validateRequest]. *)
Definition totalDemand (visits : list Visit.t) : number :=
  fold_left (fun sum visit =>
               add sum (or_else (Number (Visit.weight visit)) (num 0)))
            visits (num 0).

Definition totalCapacity (vehicles : list Vehicle.t) : number :=
  fold_left (fun sum vehicle =>
               add sum (or_else (Number (Vehicle.weight_capacity vehicle)) (num 0)))
            vehicles (num 0).

Definition invalid_time_window (visit : Visit.t) : bool :=
  match Visit.time_window visit with
  | Some (start, end_) => ge (dateValue start) (dateValue end_)
  | None => false
  end.

Definition validateRequest (request : Request.t) (problemAnalysis : Analysis.t)
  : list Warning * result unit :=
  match Request.option request with
  | None => ([], throw "INVALID_REQUEST")
  | Some _ =>
      if (length (Request.visits request) =? 0)%nat then ([], throw "NO_VISITS")
      else if (length (Request.vehicles request) =? 0)%nat
      then ([], throw "NO_VEHICLES")
      else
        let warnings :=
          if Analysis.hasCapacity problemAnalysis then
            let totalDemand := totalDemand (Request.visits request) in
            let totalCapacity := totalCapacity (Request.vehicles request) in
            if gt totalDemand totalCapacity
            then [DemandExceedsCapacity totalDemand totalCapacity]
            else []
          else [] in
        let hasInvalidTimeWindows :=
          existsb invalid_time_window (Request.visits request) in
        if Analysis.hasTimeWindows problemAnalysis && hasInvalidTimeWindows
        then (warnings, throw "INVALID_TIME_WINDOWS")
        else (warnings, Ok tt)
  end.

(** Step 2 of [transformToOmeletRequest]: the explicit option wins over
    the detection from the data. *)
Definition finalCapacityConstraint (drivers : list Driver.t)
    (orders : list Order.t) (options : option Options.t) : bool :=
  let capacityConstraintFromData :=
    shouldEnableCapacityConstraintFromData drivers orders in
  match options ≫= Options.enableCapacityConstraint with
  | Some b => b
  | None => capacityConstraintFromData
  end.

(** Step 3: [{...options, enableCapacityConstraint: finalCapacityConstraint}]. *)
Definition optionsWithCapacity (drivers : list Driver.t)
    (orders : list Order.t) (options : option Options.t) : Options.t :=
  let o := default Options.none options in
  Options.mk (Options.objective o) (Options.timeLimit o)
             (Some (finalCapacityConstraint drivers orders options))
             (Options.enableTimeWindowConstraint o)
             (Options.allowUnassignedVisits o) (Options.distanceType o)
             (Options.deliveryStartTime o).

Definition transformToOmeletRequest (drivers : list Driver.t)
    (orders : list Order.t) (depots : list Depot.t)
    (options : option Options.t) : list Warning * result Request.t :=
  let optionsWithCapacity := Some (optionsWithCapacity drivers orders options) in
  let problemAnalysis :=
    analyzeProblemType drivers orders depots optionsWithCapacity in
  match buildDepot depots drivers with
  | Err e => ([], Err e)
  | Ok depot =>
      match buildVisits orders problemAnalysis with
      | Err e => ([], Err e)
      | Ok visits =>
          let '(vehicles, problemAnalysis) := buildVehicles drivers problemAnalysis in
          let apiOption :=
            buildApiOptions problemAnalysis (length visits) (length vehicles)
                            optionsWithCapacity in
          let request :=
            buildFinalRequest depot visits vehicles apiOption problemAnalysis
                              optionsWithCapacity in
          let '(warnings, checked) := validateRequest request problemAnalysis in
          (warnings, _ <- checked ;; Ok request)
      end
  end.

End WithClock.

(** The character U+0022, for the one message that quotes a header value. *)
Definition double_quote : string := String (ascii_of_nat 34) EmptyString.

(** [handleApiError] always throws; this is the error it throws. *)
Definition handleApiError (error : Failure) : TMSError :=
  match error with
  | ThrownTMSError e => e
  | AxiosError status =>
      match status with
      | Some 400%Z =>
          {| code := "BAD_REQUEST";
             suggestions := Some ["요청 데이터 형식을 확인해주세요";
                                  "필수 필드가 모두 있는지 확인해주세요";
                                  "API 스펙에 맞는 데이터 타입인지 확인해주세요"] |}
      | Some 401%Z =>
          {| code := "UNAUTHORIZED";
             suggestions := Some ["API 키를 확인해주세요";
                                  ".env 파일의 OMELET_API_KEY를 확인해주세요";
                                  "X-API-KEY 헤더가 올바른지 확인해주세요"] |}
      | Some 403%Z =>
          {| code := "FORBIDDEN";
             suggestions := Some ["API 키 권한을 확인해주세요";
                                  "요청 제한이 있는지 확인해주세요"] |}
      | Some 404%Z =>
          {| code := "NOT_FOUND";
             suggestions := Some ["API 엔드포인트를 확인해주세요";
                                  "작업 ID가 올바른지 확인해주세요"] |}
      | Some 405%Z =>
          {| code := "METHOD_NOT_ALLOWED";
             suggestions := Some ["HTTP 메소드(GET/POST)를 확인해주세요"] |}
      | Some 406%Z =>
          {| code := "NOT_ACCEPTABLE";
             suggestions :=
               Some ["Accept 헤더를 " ++ double_quote
                     ++ "application/vnd.omelet.v2+json" ++ double_quote
                     ++ "으로 설정해주세요"] |}
      | Some 422%Z =>
          {| code := "UNPROCESSABLE_ENTITY";
             suggestions := Some ["요청 데이터의 유효성을 확인해주세요";
                                  "비즈니스 로직 제약조건을 확인해주세요"] |}
      | Some 429%Z =>
          {| code := "RATE_LIMIT";
             suggestions := Some ["잠시 후 다시 시도해주세요";
                                  "대규모 문제의 경우 vrp-long 엔드포인트를 사용하세요"] |}
      | Some 500%Z =>
          {| code := "SERVER_ERROR";
             suggestions := Some ["잠시 후 다시 시도해주세요";
                                  "문제가 계속되면 관리자에게 문의하세요"] |}
      | _ =>
          {| code := "HTTP_ERROR";
             suggestions := Some ["네트워크 연결을 확인해주세요";
                                  "API 서버 상태를 확인해주세요"] |}
      end
  | OtherError => {| code := "UNKNOWN_ERROR"; suggestions := None |}
  end.

(** The endpoints the two solve methods post to. *)
Inductive SolveCall : Type :=
| optimizeRoutes
| optimizeRoutesLong.

Definition endpoint (c : SolveCall) : string :=
  match c with
  | optimizeRoutes => "/api/vrp"
  | optimizeRoutesLong => "/api/vrp-long"
  end.

End ApiClient.

(** ** The API client: the remote calls and [validateResponse]

    What the server (or the transport) answers to a call is an argument:
    [Replied] with the HTTP status and the body, or [Failed] with what the
    HTTP library throws. *)

Module OmeletAPIClient.

Import JS.

Inductive Reply (A : Type) : Type :=
| Replied (httpStatus : Z) (data : A)
| Failed (error : Failure).
Arguments Replied {A} httpStatus data.
Arguments Failed {A} error.

Record LongApiOutput : Type := {
  long_job_id : string;
  long_status : string;
  long_message : option string
}.

Inductive JobStatus : Type := processing | completed | failed.

Record CheckRoutingEngineOutput : Type := {
  check_status : JobStatus;
  check_result : option Response.t;
  check_message : option string
}.

(** The error [optimizeRoutes] throws for an infeasible answer. *)
Definition OPTIMIZATION_FAILED : TMSError :=
  {| code := "OPTIMIZATION_FAILED";
     suggestions := Some ["차량 용량을 늘려보세요";
                          "작업 시간을 늘려보세요";
                          "일부 주문을 제외하고 다시 시도해보세요";
                          "allow_unassigned_visits 옵션을 활성화해보세요"] |}.

(** [optimizeRoutes]: an error thrown in the [try] block, the one for an
    infeasible answer included, goes through [handleApiError]. *)
Definition optimizeRoutes (reply : Reply Response.t) : result Processed.t :=
  match reply with
  | Replied _ data =>
      match Response.status data with
      | infeasible =>
          Err (ApiClient.handleApiError (ThrownTMSError OPTIMIZATION_FAILED))
      | _ => Ok (transformOmeletResponse data)
      end
  | Failed error => Err (ApiClient.handleApiError error)
  end.

Definition optimizeRoutesLong (reply : Reply LongApiOutput) : result string :=
  match reply with
  | Replied httpStatus data =>
      if (httpStatus =? 201)%Z then Ok (long_job_id data)
      else Err (ApiClient.handleApiError
                  (ThrownTMSError {| code := "LONG_REQUEST_FAILED";
                                     suggestions := None |}))
  | Failed error => Err (ApiClient.handleApiError error)
  end.

Definition checkResult (reply : Reply CheckRoutingEngineOutput)
  : result CheckRoutingEngineOutput :=
  match reply with
  | Replied _ data => Ok data
  | Failed error => Err (ApiClient.handleApiError error)
  end.

(** [waitForCompletion].  Each element of [polls] is one turn of the loop:
    the value of [Date.now() - startTime] at the loop test and what
    [checkResult] is answered if the body runs.  [None]: the loop is still
    running when the list ends. *)
Fixpoint waitForCompletion (maxWaitTime : number)
    (polls : list (number * Reply CheckRoutingEngineOutput))
  : option (result Processed.t) :=
  match polls with
  | [] => None
  | (elapsed, reply) :: rest =>
      if lt elapsed maxWaitTime then
        match checkResult reply with
        | Err e => Some (Err e)
        | Ok result =>
            match check_status result with
            | completed =>
                match check_result result with
                | Some r => Some (Ok (transformOmeletResponse r))
                | None => Some (throw "NO_RESULT")
                end
            | failed => Some (throw "JOB_FAILED")
            | processing => waitForCompletion maxWaitTime rest
            end
        end
      else Some (throw "TIMEOUT")
  end.

(** The default [maxWaitTime] of [waitForCompletion]. *)
Definition defaultMaxWaitTime : number := num 300000.

Record Validation : Type := {
  isValid : bool;
  issues : list string;
  warnings : list string
}.

(** [validateResponse].  The three tests that push an issue (a missing
    status, [routes] not an array, [total_cost] not a number) are false of
    every value of [Processed.t]. *)
Definition validateResponse (response : Processed.t) : Validation :=
  let issues : list string := [] in
  let warnings : list string :=
    ((match Processed.status response with
      | feasible_with_unassigned_visits =>
          [(pretty (length (Processed.unassigned_visits response))
            ++ "개의 주문이 할당되지 않았습니다")%string]
      | _ => []
      end)
     ++ (match Processed.status response with
         | time_limit_exceeded => ["시간 제한으로 인해 최적이 아닐 수 있습니다"]
         | _ => []
         end)
     ++ (if (length (Processed.routes response) =? 0)%nat
         then ["생성된 경로가 없습니다"] else []))%list in
  {| isValid := (length issues =? 0)%nat; issues := issues; warnings := warnings |}.

End OmeletAPIClient.

(** ** src/config/api-config.ts *)

Module ApiConfig.

Definition VRP : string := "/api/vrp".
Definition VRP_LONG : string := "/api/vrp-long".

Definition selectEndpoint (orderCount vehicleCount : Z) : string :=
  if ((100 <=? orderCount) || (20 <=? vehicleCount))%Z then VRP_LONG else VRP.

Definition STANDARD : Z := 30000.
Definition LONG_RUNNING : Z := 300000.

Definition selectTimeout (orderCount : Z) : Z :=
  if (100 <=? orderCount)%Z then LONG_RUNNING else STANDARD.

End ApiConfig.

(** ** src/tools/solve-optimization.ts: which client method the tool calls *)

Module SolveOptimization.

Definition isLargeProblem (omeletRequest : Request.t) : bool :=
  ((50 <? length (Request.visits omeletRequest))
   || (5 <? length (Request.vehicles omeletRequest)))%nat.

Definition handleSolveOptimization_call (omeletRequest : Request.t)
  : ApiClient.SolveCall :=
  if isLargeProblem omeletRequest
  then ApiClient.optimizeRoutesLong
  else ApiClient.optimizeRoutes.

End SolveOptimization.

(** ** src/utils/session-manager.ts *)

Inductive WorkflowStep : Type :=
| start_project
| prepare_data
| configure_problem
| solve_optimization
| analyze_results
| refine_solution
| export_results.

Global Instance WorkflowStep_eq_dec : EqDecision WorkflowStep.
Proof. solve_decision. Defined.

Record StepGuide : Type := {
  step : WorkflowStep;
  title : string;
  description : string;
  next_step : option WorkflowStep;
  required_data : option (list string);
  estimated_time : option string
}.

Record OptimizationConfig : Type := {
  config_objective : string;
  vehicle_capacity : bool;
  time_windows : bool;
  working_hours : bool;
  max_vehicles : option number
}.

Record DataStatus : Type := {
  drivers_loaded : bool;
  orders_loaded : bool;
  depots_loaded : bool;
  validation_passed : bool
}.

Module ProjectSession.
Record t : Type := mk {
  id : string;
  name : string;
  created_at : string;
  updated_at : string;
  current_step : Z;
  steps_completed : list WorkflowStep;
  data_status : DataStatus;
  config : option OptimizationConfig;
  last_result : option Processed.t;
  files_processed : list string
}.
End ProjectSession.

Module SessionManager.

Import ProjectSession.

(** The object literal [WORKFLOW_GUIDES], in the order of its keys. *)
Definition WORKFLOW_GUIDES : list (WorkflowStep * StepGuide) :=
  [ (start_project,
     {| step := start_project;
        title := "🚀 프로젝트 시작";
        description := "새로운 배송 최적화 프로젝트를 시작하고 작업 환경을 준비합니다.";
        next_step := Some prepare_data;
        required_data := None;
        estimated_time := Some "1분" |});
    (prepare_data,
     {| step := prepare_data;
        title := "📊 데이터 준비";
        description := "CSV 파일을 검증하고 최적화에 필요한 데이터를 준비합니다.";
        next_step := Some configure_problem;
        required_data := Some ["drivers.csv"; "orders.csv"];
        estimated_time := Some "2-3분" |});
    (configure_problem,
     {| step := configure_problem;
        title := "⚙️ 문제 설정";
        description := "비즈니스 목표와 제약 조건을 설정하여 최적화 문제를 정의합니다.";
        next_step := Some solve_optimization;
        required_data := None;
        estimated_time := Some "3-5분" |});
    (solve_optimization,
     {| step := solve_optimization;
        title := "🧮 최적화 실행";
        description := "OMELET API를 사용하여 배송 경로 최적화를 수행합니다.";
        next_step := Some analyze_results;
        required_data := None;
        estimated_time := Some "30초-5분" |});
    (analyze_results,
     {| step := analyze_results;
        title := "📈 결과 분석";
        description := "최적화 결과를 분석하고 시각화합니다.";
        next_step := Some refine_solution;
        required_data := None;
        estimated_time := Some "2-3분" |});
    (refine_solution,
     {| step := refine_solution;
        title := "🔧 해결책 개선";
        description := "피드백을 바탕으로 해결책을 반복적으로 개선합니다.";
        next_step := Some export_results;
        required_data := None;
        estimated_time := Some "5-10분" |});
    (export_results,
     {| step := export_results;
        title := "📤 결과 내보내기";
        description := "최종 결과를 Excel, PDF 등으로 내보내어 실제 업무에 활용합니다.";
        next_step := None;
        required_data := None;
        estimated_time := Some "2-3분" |}) ].

(** [Object.keys(WORKFLOW_GUIDES)]. *)
Definition keys : list WorkflowStep := WORKFLOW_GUIDES.*1.

(** [array.indexOf(x)]: the first position of [x], or [-1]. *)
Fixpoint indexOf (l : list WorkflowStep) (x : WorkflowStep) : Z :=
  match l with
  | [] => -1
  | y :: l' =>
      if decide (y = x) then 0
      else let i := indexOf l' x in if (i <? 0)%Z then -1 else i + 1
  end%Z.

(** [array[i]] for a number [i]. *)
Definition at_index {A} (l : list A) (i : Z) : option A :=
  if (i <? 0)%Z then None else l !! Z.to_nat i.

(** [WORKFLOW_GUIDES[key]]. *)
Definition guide (key : WorkflowStep) : option StepGuide :=
  snd <$> find (fun kv => bool_decide (kv.1 = key)) WORKFLOW_GUIDES.

Section WithStore.

(** [new Date().toISOString()] at the time of a save. *)
Variable now : string.

(** The session files, keyed by session id. *)
Definition saveSession (session : ProjectSession.t)
    (files : gmap string ProjectSession.t) : gmap string ProjectSession.t :=
  let session :=
    mk (id session) (name session) (created_at session) now
       (current_step session) (steps_completed session) (data_status session)
       (config session) (last_result session) (files_processed session) in
  <[id session := session]> files.

Definition loadSession (sessionId : string)
    (files : gmap string ProjectSession.t) : option ProjectSession.t :=
  files !! sessionId.

(** [completeStep]: [None] is the thrown "Session not found". *)
Definition completeStep (sessionId : string) (step : WorkflowStep)
    (files : gmap string ProjectSession.t)
  : option (gmap string ProjectSession.t) :=
  match loadSession sessionId files with
  | None => None
  | Some session =>
      let steps_completed :=
        if bool_decide (step ∈ steps_completed session)
        then steps_completed session
        else (steps_completed session ++ [step])%list in
      let stepIndex := indexOf keys step in
      let current_step :=
        if (current_step session <=? stepIndex)%Z
        then (stepIndex + 1)%Z
        else current_step session in
      Some (saveSession
              (mk (id session) (name session) (created_at session)
                  (updated_at session) current_step steps_completed
                  (data_status session) (config session)
                  (last_result session) (files_processed session))
              files)
  end.

End WithStore.

(** [getNextStep]; [None] stands for both [null] and [undefined]. *)
Definition getNextStep (session : ProjectSession.t) : option StepGuide :=
  let totalSteps := Z.of_nat (length keys) in
  if (totalSteps <=? current_step session)%Z then None
  else
    nextStepKey ← at_index keys (current_step session);
    guide nextStepKey.

Record Progress : Type := {
  completed : nat;
  total : nat;
  percentage : number
}.

Definition getProgress (session : ProjectSession.t) : Progress :=
  let total := length keys in
  let completed := length (steps_completed session) in
  let percentage :=
    JS.Math_round
      (JS.mul (JS.div (JS.num (Z.of_nat completed)) (JS.num (Z.of_nat total)))
              (JS.num 100)) in
  {| completed := completed; total := total; percentage := percentage |}.

(** [deleteSession]: whether a file was removed, and the files left. *)
Definition deleteSession (sessionId : string)
    (files : gmap string ProjectSession.t)
  : bool * gmap string ProjectSession.t :=
  match files !! sessionId with
  | Some _ => (true, delete sessionId files)
  | None => (false, files)
  end.

(** The session directory: the session files and the content of
    [active_session.json], when that file exists. *)
Record Store : Type := {
  session_files : gmap string ProjectSession.t;
  activeSessionId : option string
}.

Definition setActiveSession (sessionId : string) (store : Store) : Store :=
  {| session_files := session_files store; activeSessionId := Some sessionId |}.

Definition getActiveSession (store : Store) : option ProjectSession.t :=
  match activeSessionId store with
  | None => None
  | Some sessionId =>
      if String.eqb sessionId "" then None
      else session_files store !! sessionId
  end.

Definition clearActiveSession (store : Store) : Store :=
  {| session_files := session_files store; activeSessionId := None |}.

(** [createSession]: [uuid] is the value of [uuidv4()], [localDate] the
    value of [new Date().toLocaleDateString('ko-KR')], [createdAt] the
    value of [new Date().toISOString()] when the object is made and [now]
    its value when [saveSession] runs.  [saveSession] overwrites
    [updated_at] on the object itself, so the session returned is the one
    written to the file. *)
Definition createSession (uuid : string) (name : option string)
    (localDate createdAt now : string) (store : Store)
  : ProjectSession.t * Store :=
  let session :=
    mk uuid (ApiClient.str_or name ("프로젝트_" ++ localDate)) createdAt createdAt
       0 []
       {| drivers_loaded := false; orders_loaded := false;
          depots_loaded := false; validation_passed := false |}
       None None [] in
  let files := saveSession now session (session_files store) in
  let session :=
    mk (id session) (ProjectSession.name session) (created_at session) now
       (current_step session) (steps_completed session) (data_status session)
       (config session) (last_result session) (files_processed session) in
  (session,
   setActiveSession (id session)
     {| session_files := files; activeSessionId := activeSessionId store |}).

End SessionManager.

(** ** src/tools/solve-optimization.ts: the options, the run, the result *)

Module SolveTool.

(** [advanced_options.optimization_intensity] of the session's config. *)
Inductive Intensity : Type := fast | balanced | thorough.

Definition getTimeLimit (intensity : Intensity) : number :=
  match intensity with
  | fast => JS.num 30
  | balanced => JS.num 60
  | thorough => JS.num 120
  end.

(** The [optimizationOptions] object of [handleSolveOptimization]:
    [config] is [session.config], [optimization_intensity] its
    [advanced_options.optimization_intensity], [time_limit] is
    [custom_options.time_limit] and [now] is [new Date().toISOString()]. *)
Definition optimizationOptions (config : option OptimizationConfig)
    (optimization_intensity : option Intensity) (time_limit : option number)
    (now : string) : Options.t :=
  Options.mk
    (Some minsum)
    (Some (JS.or_else (JS.Number time_limit)
                      (getTimeLimit (default balanced optimization_intensity))))
    (Some (default true (vehicle_capacity <$> config)))
    (Some (default true (time_windows <$> config)))
    (Some false)
    (Some euclidean)
    (Some now).



(** Step 10 of [handleSolveOptimization]: the result is put on the loaded
    session, the session is saved, and the step is completed. *)
Definition storeResult (now session_id : string) (session : ProjectSession.t)
    (optimizationResult : Processed.t) (files : gmap string ProjectSession.t)
  : option (gmap string ProjectSession.t) :=
  let session :=
    ProjectSession.mk
      (ProjectSession.id session) (ProjectSession.name session)
      (ProjectSession.created_at session) (ProjectSession.updated_at session)
      (ProjectSession.current_step session)
      (ProjectSession.steps_completed session)
      (ProjectSession.data_status session) (ProjectSession.config session)
      (Some optimizationResult) (ProjectSession.files_processed session) in
  SessionManager.completeStep now session_id solve_optimization
    (SessionManager.saveSession now session files).

End SolveTool.

(** ** A Date that reads the ECMAScript date-time format

    [IsoDate.dateValue] gives the time value of [YYYY-MM-DDTHH:mm:ssZ]
    strings, in milliseconds since the epoch, and treats every other string
    as an invalid date.  It is one possible instance of the [dateValue]
    parameter of the client; [ClockTime.hhmm] writes a time of day the way
    the sample data does. *)

Module ClockTime.



End ClockTime.

Module IsoDate.

Local Open Scope Z_scope.

Definition digit (c : ascii) : option Z :=
  let n := Z.of_nat (nat_of_ascii c) in
  if (48 <=? n) && (n <=? 57) then Some (n - 48) else None.

(** Read exactly [n] decimal digits. *)
Fixpoint digits (n : nat) (acc : Z) (s : string) : option (Z * string) :=
  match n with
  | O => Some (acc, s)
  | S n' =>
      match s with
      | String c s' => d ← digit c; digits n' (10 * acc + d) s'
      | EmptyString => None
      end
  end.

Definition expect (c : ascii) (s : string) : option string :=
  match s with
  | String c' s' => if Ascii.eqb c c' then Some s' else None
  | EmptyString => None
  end.

Definition is_leap (y : Z) : bool :=
  ((y mod 4 =? 0) && negb (y mod 100 =? 0)) || (y mod 400 =? 0).

Definition days_in_month (y m : Z) : Z :=
  if m =? 2 then (if is_leap y then 29 else 28)
  else if (m =? 4) || (m =? 6) || (m =? 9) || (m =? 11) then 30
  else 31.

(** Days from 1970-01-01 to the given civil date. *)
Definition days_from_civil (y m d : Z) : Z :=
  let y := if m <=? 2 then y - 1 else y in
  let era := y / 400 in
  let yoe := y - era * 400 in
  let doy := (153 * (if 2 <? m then m - 3 else m + 9) + 2) / 5 + d - 1 in
  let doe := yoe * 365 + yoe / 4 - yoe / 100 + doy in
  era * 146097 + doe - 719468.

Definition parse (s : string) : option Z :=
  '(y, s) ← digits 4 0 s;
  s ← expect "-" s;
  '(mo, s) ← digits 2 0 s;
  s ← expect "-" s;
  '(d, s) ← digits 2 0 s;
  s ← expect "T" s;
  '(h, s) ← digits 2 0 s;
  s ← expect ":" s;
  '(mi, s) ← digits 2 0 s;
  s ← expect ":" s;
  '(sec, s) ← digits 2 0 s;
  s ← expect "Z" s;
  if String.eqb s ""
     && (1 <=? mo) && (mo <=? 12) && (1 <=? d) && (d <=? days_in_month y mo)
     && (h <? 24) && (mi <? 60) && (sec <? 60)
  then Some (((days_from_civil y mo d * 24 + h) * 60 + mi) * 60000 + sec * 1000)
  else None.

Definition dateValue (s : string) : number :=
  match parse s with
  | Some ms => JS.num ms
  | None => JS.NaN
  end.

End IsoDate.

(** ** Vocabulary of the statements below *)

(** The visit names of a normalized route. *)
Definition route_names (r : Route.t) : list string :=
  map visit_name (Route.visits r).



(** [x > 0] for an optional numeric property. *)
Definition positive (x : option number) : bool :=
  JS.gt (JS.Number x) (JS.num 0).






(** Orders without a complete time window. *)
Definition no_time_window (o : Order.t) : bool :=
  negb (JS.truthy_str (Order.time_window_start o)
        && JS.truthy_str (Order.time_window_end o)).

(** A visit is built exactly when the delivery coordinates are valid. *)
Definition valid_delivery (o : Order.t) : bool :=
  negb (ApiClient.invalid_coordinates (JS.Number (Order.delivery_lng o))
                                      (JS.Number (Order.delivery_lat o))).

(** Step 4 of [transformToOmeletRequest]: the classification the builder
    works with, before [buildVehicles] touches it. *)
Definition initialAnalysis (drivers : list Driver.t) (orders : list Order.t)
    (depots : list Depot.t) (options : option Options.t) : Analysis.t :=
  ApiClient.analyzeProblemType drivers orders depots
    (Some (ApiClient.optionsWithCapacity drivers orders options)).

(** Sample records for the scenarios: a driver with the given capacity, an
    order with the given weight, an order with a priority, a driver with one
    preference value. *)
Definition sample_driver (capacity : option number) : Driver.t :=
  Driver.mk (Some "D001") (Some (JS.Fin (375665 # 10000)))
            (Some (JS.Fin (1269780 # 10000))) capacity None None None None None
            None None None None None None None.

Definition sample_order (weight priority : option number) : Order.t :=
  Order.mk "O001" (Some (JS.Fin (375172 # 10000))) (Some (JS.Fin (1270473 # 10000)))
           weight None None None priority None.

Definition preferring_driver : Driver.t :=
  Driver.mk (Some "D002") (Some (JS.Fin (375505 # 10000)))
            (Some (JS.Fin (1269882 # 10000))) (Some (JS.num 0)) None None None
            None None None None None (Some (JS.num 1)) None None None.





Definition shift_driver (start end_ : string) : Driver.t :=
  Driver.mk (Some "D003") (Some (JS.Fin (375642 # 10000)))
            (Some (JS.Fin (1269734 # 10000))) (Some (JS.num 0)) None
            (Some start) (Some end_) None None None None None None None None None.

Definition sample_visit : Visit.t :=
  Visit.mk "O001" {| lng := JS.Fin (1270473 # 10000); lat := JS.Fin (375172 # 10000) |}
           None None None None None.

Definition sample_vehicle : Vehicle.t :=
  Vehicle.mk "D001" "car" None None (JS.num 0) (JS.num 1) (JS.num 0) true
             None None None.

Definition sample_option : ApiOption :=
  {| objective_type := minsum;
     timelimit := JS.num 10;
     distance_type := euclidean;
     allow_unassigned_visits := false;
     use_large_size_optimization_algorithm := false;
     include_departure_cost_from_depot := true;
     include_return_cost_to_depot := true |}.

Definition sample_request (visits vehicles : nat) : Request.t :=
  Request.mk {| depot_name := "Main Depot";
                depot_coordinate := {| lng := JS.Fin (1269780 # 10000);
                                       lat := JS.Fin (375665 # 10000) |} |}
             (replicate visits sample_visit) (replicate vehicles sample_vehicle)
             None (Some sample_option).

Definition sample_session (current_step : Z) : ProjectSession.t :=
  ProjectSession.mk "s1" "project" "2026-11-03T00:00:00.000Z"
                    "2026-11-03T00:00:00.000Z" current_step [start_project]
                    {| drivers_loaded := false; orders_loaded := false;
                       depots_loaded := false; validation_passed := false |}
                    None None [].

(** ** Vocabulary of the further properties *)

(** A coordinate inside [-180, 180] x [-90, 90]. *)
Definition in_range (c : Coordinate) : bool :=
  JS.ge (lng c) (JS.num (-180)) && JS.ge (JS.num 180) (lng c)
  && JS.ge (lat c) (JS.num (-90)) && JS.ge (JS.num 90) (lat c).

(** A number that is not NaN and is at least [b]. *)
Definition at_least (b : Z) (x : option number) : bool :=
  match x with
  | Some n => JS.ge n (JS.num b)
  | None => false
  end.

(** The name [buildVisits] gives the order at position [i]. *)
Definition visit_name_at (i : nat) (o : Order.t) : string :=
  if String.eqb (Order.order_id o) ""
  then "Order_" ++ pretty (i + 1)%nat
  else Order.order_id o.

(** The error codes of [transformToOmeletRequest]. *)
Definition builder_codes : list string :=
  ["INVALID_DEPOT_COORDINATES"; "INVALID_DRIVER_COORDINATES"; "INSUFFICIENT_DATA";
   "INVALID_COORDINATES"; "NO_VISITS"; "NO_VEHICLES"; "INVALID_TIME_WINDOWS"].

(** A turn of the polling loop that is answered "processing" in time. *)
Definition still_processing (maxWaitTime : number)
    (poll : number
            * OmeletAPIClient.Reply OmeletAPIClient.CheckRoutingEngineOutput)
  : Prop :=
  JS.lt poll.1 maxWaitTime = true
  /\ exists s out, poll.2 = OmeletAPIClient.Replied s out
                  /\ OmeletAPIClient.check_status out
                     = OmeletAPIClient.processing.

(** What [saveSession] writes for a session it saves at [now]. *)
Definition saved_at (now : string) (s : ProjectSession.t) : ProjectSession.t :=
  ProjectSession.mk
    (ProjectSession.id s) (ProjectSession.name s) (ProjectSession.created_at s)
    now (ProjectSession.current_step s) (ProjectSession.steps_completed s)
    (ProjectSession.data_status s) (ProjectSession.config s)
    (ProjectSession.last_result s) (ProjectSession.files_processed s).

(** A session whose record of completed steps is coherent: no step twice,
    every completed step before the current one, and the current step
    between 0 and the number of steps. *)
Definition consistent (s : ProjectSession.t) : Prop :=
  NoDup (ProjectSession.steps_completed s)
  /\ (forall st, st ∈ ProjectSession.steps_completed s ->
                 (SessionManager.indexOf SessionManager.keys st
                  < ProjectSession.current_step s)%Z)
  /\ (0 <= ProjectSession.current_step s <= 7)%Z.

(** A session directory where every file holds a coherent session with
    the id the file is named after. *)
Definition store_ok (files : gmap string ProjectSession.t) : Prop :=
  forall k s, files !! k = Some s -> ProjectSession.id s = k /\ consistent s.

(** Sample records for the further properties. *)
Definition sample_depot : Depot.t :=
  Depot.mk (Some "DC") (Some (JS.Fin (375665 # 10000)))
           (Some (JS.Fin (1269780 # 10000))).

Definition misplaced_order : Order.t :=
  Order.mk "O009" (Some (JS.num 95)) (Some (JS.num 0))
           None None None None None None.

Definition sample_response (status : Status) : Response.t :=
  Response.mk
    (EngineResult.mk
       [RawRoute.mk "D001" [JS.num 0; JS.num 1; JS.num 0]
                    ["Depot"; "O001"; "Depot"]
                    {| objective_cost := JS.num 12;
                       distance_cost := JS.num 12;
                       duration_cost := JS.num 0;
                       route_fixed_cost := JS.num 0 |}]
       [] []
       {| total_objective_cost := JS.num 12;
          total_distance_cost := JS.num 12;
          total_duration_cost := JS.num 0;
          max_distance_cost := JS.num 12;
          max_duration_cost := JS.num 0;
          total_fixed_cost := JS.num 0;
          unassigned_penalty_cost := JS.num 0 |})
    status "" "job-1".


Definition sample_files : gmap string ProjectSession.t :=
  {[ "s1" := sample_session 1 ]}.

(** * Properties *)

(** ** Numbers *)

Section NumberFacts.

Import JS.

Lemma lt_Fin p q : lt (Fin p) (Fin q) = true <-> (p < q)%Q.
Proof.
  unfold lt; simpl. rewrite Qlt_alt.
  destruct (p ?= q)%Q; split; congruence.
Qed.

Lemma ge_Fin p q : ge (Fin p) (Fin q) = true <-> (q <= p)%Q.
Proof.
  unfold ge; simpl. rewrite Qle_alt, <- Qcompare_antisym.
  destruct (q ?= p)%Q; simpl; split; congruence.
Qed.





End NumberFacts.

(** ** Result transformer *)

Section ResultTransformer.

Lemma slice_strips_both_ends {A} (first last : A) (mid : list A) :
  JS.slice_1_m1 (first :: mid ++ [last])%list = mid.
Proof. unfold JS.slice_1_m1. simpl. apply removelast_last. Qed.



(** C4.  The result transformer keeps one route per raw route, in order,
    each with the raw route's vehicle; the visit names of a route are the
    raw name list without its first and last entry (for a list bracketed
    by the depot, exactly the entries in between); the unassigned names
    are passed through; the aggregate distance, duration and cost are the
    solution-level cost details.  A response with the single route
    [depot, "A", "B", depot] gives exactly one route, with visits
    ["A", "B"]. *)
Theorem C4_result_transformer :
  forall response : Response.t,
    let raw := Response.routing_engine_result response in
    let out := transformOmeletResponse response in
    map (fun r => (Route.vehicle_name r, route_names r)) (Processed.routes out)
    = map (fun r => (RawRoute.vehicle_name r,
                     JS.slice_1_m1 (RawRoute.route_name r)))
          (EngineResult.routes raw)
    /\ (forall (first last : string) (mid : list string),
           JS.slice_1_m1 (first :: mid ++ [last])%list = mid)
    /\ Processed.unassigned_visits out = EngineResult.unassigned_visit_names raw
    /\ Processed.total_distance out
       = total_distance_cost (EngineResult.solution_cost_details raw)
    /\ Processed.total_duration out
       = total_duration_cost (EngineResult.solution_cost_details raw)
    /\ Processed.total_cost out
       = total_objective_cost (EngineResult.solution_cost_details raw)
    /\ (forall depot vehicle costs indices unassigned_indices unassigned
               solution_costs status detail job,
           map route_names
               (Processed.routes
                  (transformOmeletResponse
                     (Response.mk
                        (EngineResult.mk
                           [RawRoute.mk vehicle indices
                                        [depot; "A"; "B"; depot] costs]
                           unassigned_indices unassigned solution_costs)
                        status detail job)))
           = [["A"; "B"]]).
Proof.
  intros response raw out. repeat split.
  - subst raw out. unfold transformOmeletResponse; simpl.
    induction (EngineResult.routes (Response.routing_engine_result response))
      as [|r rs IH]; simpl; [reflexivity|].
    f_equal; [|exact IH].
    unfold route_names; simpl. rewrite map_map. simpl. now rewrite map_id.
  - intros. apply slice_strips_both_ends.
Qed.

End ResultTransformer.

(** ** Error taxonomy *)

Section ErrorTaxonomy.

Import ApiClient.

Lemma network_failure_shares_fallback_kind :
  code (handleApiError (AxiosError None))
  = code (handleApiError (AxiosError (Some 503%Z))).
Proof. reflexivity. Qed.


End ErrorTaxonomy.

(** ** Endpoint selection *)

Section EndpointSelection.

Import ApiConfig SolveOptimization.

Lemma selectEndpoint_small :
  selectEndpoint 99 19 = VRP.
Proof. reflexivity. Qed.

Lemma selectEndpoint_large (orderCount vehicleCount : Z) :
  (100 <= orderCount \/ 20 <= vehicleCount)%Z ->
  selectEndpoint orderCount vehicleCount = VRP_LONG.
Proof.
  unfold selectEndpoint. intros [H|H].
  - apply Z.leb_le in H. now rewrite H.
  - apply Z.leb_le in H. rewrite H. now rewrite orb_true_r.
Qed.

Lemma tool_dispatch_large (omeletRequest : Request.t) :
  (100 <= length (Request.visits omeletRequest)
   \/ 20 <= length (Request.vehicles omeletRequest))%nat ->
  handleSolveOptimization_call omeletRequest = ApiClient.optimizeRoutesLong.
Proof.
  unfold handleSolveOptimization_call, isLargeProblem. intros [H|H].
  - assert ((50 <? length (Request.visits omeletRequest))%nat = true) as ->
      by (apply Nat.ltb_lt; lia).
    reflexivity.
  - assert ((5 <? length (Request.vehicles omeletRequest))%nat = true) as ->
      by (apply Nat.ltb_lt; lia).
    now rewrite orb_true_r.
Qed.

(** C7.  [selectEndpoint] sends 99 orders and 19 vehicles to the
    synchronous endpoint, but the solve tool does not call it: for a
    built request with 99 visits and 19 vehicles the tool takes the
    asynchronous path ([optimizeRoutesLong], which posts to
    [/api/vrp-long]), because its own test is more than 50 visits or more
    than 5 vehicles. *)
Theorem C7_tool_sends_99_19_to_async :
  forall omeletRequest : Request.t,
    length (Request.visits omeletRequest) = 99%nat ->
    length (Request.vehicles omeletRequest) = 19%nat ->
    selectEndpoint (Z.of_nat (length (Request.visits omeletRequest)))
                   (Z.of_nat (length (Request.vehicles omeletRequest)))
    = "/api/vrp"
    /\ ApiClient.endpoint (handleSolveOptimization_call omeletRequest)
       = "/api/vrp-long".
Proof.
  intros omeletRequest Hv Hc.
  unfold handleSolveOptimization_call, isLargeProblem.
  rewrite Hv, Hc. split; reflexivity.
Qed.

End EndpointSelection.

(** ** Workflow session *)

Section WorkflowSession.

Import ProjectSession SessionManager.

Lemma indexOf_keys (k : nat) (step : WorkflowStep) :
  keys !! k = Some step -> indexOf keys step = Z.of_nat k.
Proof.
  do 7 (destruct k as [|k]; [intros [= <-]; reflexivity|]).
  discriminate.
Qed.


Lemma completeStep_current_step (now sessionId : string) (step : WorkflowStep)
    (files : gmap string ProjectSession.t) (session : ProjectSession.t) :
  files !! sessionId = Some session ->
  exists files' session',
    completeStep now sessionId step files = Some files'
    /\ files' !! id session = Some session'
    /\ current_step session'
       = Z.max (current_step session) (indexOf keys step + 1).
Proof.
  intros Hload. unfold completeStep, loadSession. rewrite Hload.
  generalize (indexOf keys step) as stepIndex. intros stepIndex.
  eexists _, _. split; [reflexivity|].
  unfold saveSession. cbn [id]. rewrite lookup_insert_eq.
  split; [reflexivity|]. cbn [current_step].
  destruct (Z.leb_spec (current_step session) stepIndex); lia.
Qed.

Lemma getNextStep_at (session : ProjectSession.t) (k : nat) :
  current_step session = Z.of_nat k ->
  getNextStep session
  = if (7 <=? k)%nat then None else snd <$> WORKFLOW_GUIDES !! k.
Proof.
  intros Hk. unfold getNextStep. rewrite Hk.
  do 7 (destruct k as [|k]; [reflexivity|]).
  change (Z.of_nat (length keys)) with 7%Z.
  destruct (Z.leb_spec 7 (Z.of_nat (S (S (S (S (S (S (S k))))))))); [|lia].
  reflexivity.
Qed.

(** C8.  Completing the step at index [k] of a stored session sets
    [current_step] to [max(current_step, k+1)], so it never decreases;
    from step 1, completing index 3 gives 4, and completing index 0
    afterwards leaves 4.  The advertised next step of a session is the
    guide at index [current_step], and none from 7 on. *)
Theorem C8_complete_step :
  forall (now sessionId : string) (files : gmap string ProjectSession.t)
         (session : ProjectSession.t) (k : nat) (step : WorkflowStep),
    files !! sessionId = Some session ->
    id session = sessionId ->
    keys !! k = Some step ->
    (exists files' session',
        completeStep now sessionId step files = Some files'
        /\ files' !! sessionId = Some session'
        /\ current_step session'
           = Z.max (current_step session) (Z.of_nat k + 1)
        /\ (current_step session <= current_step session')%Z
        /\ (current_step session = 1%Z ->
            exists files3 session3 files0 session0,
              completeStep now sessionId solve_optimization files = Some files3
              /\ files3 !! sessionId = Some session3
              /\ current_step session3 = 4%Z
              /\ completeStep now sessionId start_project files3 = Some files0
              /\ files0 !! sessionId = Some session0
              /\ current_step session0 = 4%Z))
    /\ (forall (s : ProjectSession.t) (i : nat),
           current_step s = Z.of_nat i ->
           getNextStep s
           = if (7 <=? i)%nat then None else snd <$> WORKFLOW_GUIDES !! i).
Proof.
  intros now sessionId files session k step Hload Hid Hk.
  split; [|intros s i; apply getNextStep_at].
  destruct (completeStep_current_step now sessionId step files session Hload)
    as (files' & session' & Hrun & Hget & Hcur).
  rewrite (indexOf_keys k step Hk) in Hcur. rewrite Hid in Hget.
  exists files', session'. repeat (split; [assumption || lia|]).
  intros H1.
  destruct (completeStep_current_step now sessionId solve_optimization
              files session Hload)
    as (files3 & session3 & Hrun3 & Hget3 & Hcur3).
  assert (Hid3 : id session3 = sessionId).
  { unfold completeStep, loadSession in Hrun3. rewrite Hload in Hrun3.
    injection Hrun3 as <-. unfold saveSession in Hget3. simpl in Hget3.
    rewrite lookup_insert_eq in Hget3. injection Hget3 as <-. exact Hid. }
  rewrite Hid in Hget3.
  destruct (completeStep_current_step now sessionId start_project
              files3 session3 Hget3)
    as (files0 & session0 & Hrun0 & Hget0 & Hcur0).
  rewrite Hid3 in Hget0.
  exists files3, session3, files0, session0.
  change (indexOf keys solve_optimization) with 3%Z in Hcur3.
  change (indexOf keys start_project) with 0%Z in Hcur0.
  repeat (split; [assumption || lia|]). lia.
Qed.

End WorkflowSession.

(** ** Problem classifier *)

Section Classifier.

Import JS ApiClient.


Lemma existsb_false {A} (f : A -> bool) (l : list A) :
  Forall (fun x => f x = false) l -> existsb f l = false.
Proof.
  induction 1 as [|x l Hx _ IH]; simpl; [reflexivity|].
  now rewrite Hx, IH.
Qed.

Lemma existsb_false_on {A} (P : A -> Prop) (f : A -> bool) (l : list A) :
  Forall P l -> (forall x, P x -> f x = false) -> existsb f l = false.
Proof.
  intros HP Hf. apply existsb_false. eapply Forall_impl; eauto.
Qed.

Lemma existsb_true {A} (f : A -> bool) (l : list A) :
  Exists (fun x => f x = true) l -> existsb f l = true.
Proof.
  induction 1 as [x l Hx|x l _ IH]; simpl.
  - now rewrite Hx.
  - rewrite IH. apply orb_true_r.
Qed.

Lemma existsb_pointwise {A} (f g : A -> bool) (l : list A) :
  (forall x, f x = g x) -> existsb f l = existsb g l.
Proof.
  intros E. induction l as [|x l IH]; simpl; [reflexivity|].
  now rewrite E, IH.
Qed.


End Classifier.

Section ClassifierClaims.

Import JS ApiClient.



Lemma hasTimeWindows_from_data drivers orders depots options :
  options ≫= Options.enableTimeWindowConstraint <> Some true ->
  Analysis.hasTimeWindows (analyzeProblemType drivers orders depots options)
  = existsb (fun o => negb (no_time_window o)) orders.
Proof.
  intros H. unfold analyzeProblemType. simpl.
  assert (E : forall o, negb (no_time_window o)
                        = truthy_str (Order.time_window_start o)
                          && truthy_str (Order.time_window_end o))
    by (intros o; unfold no_time_window; apply negb_involutive).
  rewrite (existsb_pointwise _ _ _ E).
  destruct (options ≫= Options.enableTimeWindowConstraint) as [[]|];
    congruence.
Qed.





End ClassifierClaims.

(** ** Request builder: the steps *)

Section BuilderSteps.

Import JS ApiClient.

Variable today : string.
Variable dateValue : string -> number.

Lemma map_indexed_Forall2 {A B} (f : A -> nat -> result B) (l : list A) :
  forall (i : nat) (l' : list B),
    map_indexed f i l = Ok l' ->
    Forall2 (fun x y => exists j, f x j = Ok y) l l'.
Proof.
  induction l as [|x l IH]; simpl; intros i l' H.
  - injection H as <-. constructor.
  - destruct (f x i) as [y|e] eqn:Hy; simpl in H; [|discriminate].
    destruct (map_indexed f (S i) l) as [ys|e] eqn:Hys; simpl in H; [|discriminate].
    injection H as <-. constructor; [exists i; exact Hy|].
    eapply IH; exact Hys.
Qed.

Lemma map_indexed_total {A B} (f : A -> nat -> result B) (l : list A) :
  Forall (fun x => forall j, exists y, f x j = Ok y) l ->
  forall i, exists l', map_indexed f i l = Ok l'.
Proof.
  induction 1 as [|x l Hx _ IH]; intros i; simpl.
  - now exists [].
  - destruct (Hx i) as [y ->]. destruct (IH (S i)) as [ys ->].
    simpl. now exists (y :: ys).
Qed.

Lemma buildVisits_total (orders : list Order.t) (pa : Analysis.t) :
  Forall (fun o => valid_delivery o = true) orders ->
  exists visits, buildVisits today orders pa = Ok visits.
Proof.
  intros H. apply map_indexed_total.
  eapply Forall_impl; [exact H|]. intros o Ho j.
  unfold buildVisit. unfold valid_delivery in Ho.
  apply negb_true_iff in Ho. rewrite Ho. eauto.
Qed.

Lemma buildVisits_length (orders : list Order.t) (pa : Analysis.t) visits :
  buildVisits today orders pa = Ok visits -> length visits = length orders.
Proof.
  intros H. apply map_indexed_Forall2 in H.
  symmetry. eapply Forall2_length. exact H.
Qed.

(** The fields of a built visit that the properties below are about. *)
Lemma buildVisit_fields (pa : Analysis.t) (o : Order.t) (j : nat) (v : Visit.t) :
  buildVisit today pa o j = Ok v ->
  let windowed :=
    Analysis.hasTimeWindows pa && truthy_str (Order.time_window_start o)
    && truthy_str (Order.time_window_end o) in
  Visit.unassigned_penalty v
  = (if Analysis.hasPreferences pa && truthy (Number (Order.priority o))
     then Some (Math_round (div (num 1000) (Number (Order.priority o))))
     else match Analysis.type pa with TSP => None | _ => Some (num 100) end)
  /\ Visit.time_window v
     = (if windowed then
          Some (if includes (default "" (Order.time_window_start o)) "T"
                then (default "" (Order.time_window_start o),
                      default "" (Order.time_window_end o))
                else (today ++ "T" ++ default "" (Order.time_window_start o) ++ ":00Z",
                      today ++ "T" ++ default "" (Order.time_window_end o) ++ ":00Z"))
        else None)
  /\ Visit.service_time v
     = (if windowed
        then Some (or_else (Number (Order.service_time o)) (num 10))
        else None).
Proof.
  unfold buildVisit.
  destruct (invalid_coordinates _ _); [discriminate|].
  intros [= <-]. simpl. auto.
Qed.

(** [buildVehicles] can only switch [hasTimeWindows] on, and does so as
    soon as there is a driver and the classification has working hours. *)
Lemma buildVehicle_analysis (d : Driver.t) (i : nat) (pa : Analysis.t) :
  (buildVehicle today d i pa).2
  = if Analysis.hasWorkingHours pa
    then Analysis.set_hasTimeWindows true pa else pa.
Proof. reflexivity. Qed.

Lemma buildVehicles_from_analysis (drivers : list Driver.t) :
  forall (i : nat) (pa : Analysis.t),
    (buildVehicles_from today i drivers pa).2
    = match drivers with
      | [] => pa
      | _ :: _ =>
          if Analysis.hasWorkingHours pa
          then Analysis.set_hasTimeWindows true pa else pa
      end
    /\ length (buildVehicles_from today i drivers pa).1 = length drivers.
Proof.
  induction drivers as [|d ds IH]; intros i pa; simpl; [auto|].
  pose proof (buildVehicle_analysis d i pa) as Hd.
  destruct (buildVehicle today d i pa) as [v pa1]. simpl in Hd. subst pa1.
  specialize (IH (S i) (if Analysis.hasWorkingHours pa
                        then Analysis.set_hasTimeWindows true pa else pa)).
  destruct (buildVehicles_from today (S i) ds _) as [vs pa2].
  simpl in *. destruct IH as [-> ->]. split; [|reflexivity].
  destruct ds; [reflexivity|].
  destruct (Analysis.hasWorkingHours pa) eqn:E; simpl; now rewrite E.
Qed.

Lemma buildVehicles_flags (drivers : list Driver.t) (pa : Analysis.t) :
  let pa' := (buildVehicles today drivers pa).2 in
  Analysis.hasCapacity pa' = Analysis.hasCapacity pa
  /\ (Analysis.hasTimeWindows pa = true -> Analysis.hasTimeWindows pa' = true)
  /\ (drivers <> [] -> Analysis.hasWorkingHours pa = true ->
      Analysis.hasTimeWindows pa' = true)
  /\ (Analysis.hasWorkingHours pa = false ->
      Analysis.hasTimeWindows pa' = Analysis.hasTimeWindows pa)
  /\ length (buildVehicles today drivers pa).1 = length drivers.
Proof.
  unfold buildVehicles.
  destruct (buildVehicles_from_analysis drivers 0 pa) as [-> ->].
  destruct drivers as [|d ds], (Analysis.hasWorkingHours pa); simpl;
    repeat split; auto; congruence.
Qed.

Lemma validateRequest_reached (request : Request.t) (pa : Analysis.t) :
  Request.option request <> None ->
  Request.visits request <> [] ->
  Request.vehicles request <> [] ->
  validateRequest dateValue request pa
  = ((if Analysis.hasCapacity pa then
        if gt (totalDemand (Request.visits request))
              (totalCapacity (Request.vehicles request))
        then [DemandExceedsCapacity (totalDemand (Request.visits request))
                                    (totalCapacity (Request.vehicles request))]
        else []
      else []),
     if Analysis.hasTimeWindows pa
        && existsb (invalid_time_window dateValue) (Request.visits request)
     then throw "INVALID_TIME_WINDOWS" else Ok tt).
Proof.
  intros Ho Hv Hc. unfold validateRequest.
  destruct (Request.option request); [|congruence].
  destruct (Request.visits request); [congruence|].
  destruct (Request.vehicles request); [congruence|].
  simpl.
  destruct (Analysis.hasTimeWindows pa && _); reflexivity.
Qed.

(** The run of [transformToOmeletRequest] once the depot and the visits
    are built. *)
Lemma transform_run drivers orders depots options depot visits :
  buildDepot depots drivers = Ok depot ->
  buildVisits today orders (initialAnalysis drivers orders depots options)
  = Ok visits ->
  let pa := initialAnalysis drivers orders depots options in
  let options' := Some (optionsWithCapacity drivers orders options) in
  let vehicles := (buildVehicles today drivers pa).1 in
  let pa' := (buildVehicles today drivers pa).2 in
  let request :=
    buildFinalRequest depot visits vehicles
      (buildApiOptions pa' (length visits) (length vehicles) options')
      pa' options' in
  transformToOmeletRequest today dateValue drivers orders depots options
  = ((validateRequest dateValue request pa').1,
     _ <- (validateRequest dateValue request pa').2 ;; Ok request).
Proof.
  intros Hdepot Hvisits. unfold transformToOmeletRequest, initialAnalysis in *.
  rewrite Hdepot, Hvisits.
  destruct (buildVehicles today drivers _) as [vehicles pa']. simpl.
  destruct (validateRequest dateValue _ pa') as [w r]. reflexivity.
Qed.

(** What a successful run tells about its steps. *)
Lemma transform_ok drivers orders depots options warnings request :
  transformToOmeletRequest today dateValue drivers orders depots options
  = (warnings, Ok request) ->
  buildVisits today orders (initialAnalysis drivers orders depots options)
  = Ok (Request.visits request)
  /\ Request.vehicles request
     = (buildVehicles today drivers
          (initialAnalysis drivers orders depots options)).1.
Proof.
  unfold transformToOmeletRequest, initialAnalysis.
  destruct (buildDepot depots drivers) as [depot|]; [|discriminate].
  destruct (buildVisits today orders _) as [visits|]; [|discriminate].
  destruct (buildVehicles today drivers _) as [vehicles pa'].
  destruct (validateRequest dateValue _ pa') as [w [[]|e]]; simpl; [|discriminate].
  intros [= _ <-]. simpl. auto.
Qed.



(** Without such a visit, and with at least one visit and one vehicle,
    the run succeeds. *)
Lemma transform_accepts drivers orders depots options depot visits :
  buildDepot depots drivers = Ok depot ->
  buildVisits today orders (initialAnalysis drivers orders depots options)
  = Ok visits ->
  drivers <> [] ->
  orders <> [] ->
  existsb (invalid_time_window dateValue) visits = false ->
  exists request,
    (transformToOmeletRequest today dateValue drivers orders depots options).2
    = Ok request
    /\ Request.visits request = visits.
Proof.
  intros Hdepot Hvisits Hdrivers Horders Hgood.
  rewrite (transform_run _ _ _ _ _ _ Hdepot Hvisits). cbn zeta.
  set (pa := initialAnalysis drivers orders depots options) in *.
  destruct (buildVehicles_flags drivers pa) as (_ & _ & _ & _ & Hlen).
  rewrite validateRequest_reached; simpl.
  - rewrite Hgood, andb_false_r. simpl. eauto.
  - discriminate.
  - intros ->. apply buildVisits_length in Hvisits.
    destruct orders; [congruence|discriminate].
  - intros E. rewrite E in Hlen. destruct drivers; [congruence|discriminate].
Qed.

End BuilderSteps.

(** ** Request builder: visits *)

Section VisitPenalty.

Import JS ApiClient.

(** C3, at priority 0.  Two drivers, one of them with a preference, and
    an order whose priority is the number 0: the classification has
    preferences and is not TSP, and the built visit gets the default
    penalty 100, not round(1000/0). *)
Lemma C3_priority_zero_counterexample :
  let drivers := [preferring_driver; sample_driver (Some (num 0))] in
  let orders := [sample_order None (Some (num 0))] in
  let pa := initialAnalysis drivers orders [] None in
  Analysis.hasPreferences pa = true
  /\ Analysis.type pa = CVRP_Preferences
  /\ exists v,
       buildVisits "2026-11-03" orders pa = Ok [v]
       /\ Visit.unassigned_penalty v = Some (num 100)
       /\ Math_round (div (num 1000) (num 0)) = PosInf
       /\ Visit.unassigned_penalty v
          <> Some (Math_round (div (num 1000) (num 0))).
Proof.
  vm_compute. repeat split. eexists. repeat split. discriminate.
Qed.

(** C3, amended.  Visits are built for all orders with valid delivery
    coordinates, one per order and in order.  In a built visit, when the
    classification has preferences and the priority of the order is a
    number other than 0 (and not NaN), the penalty is
    round(1000/priority); in every other case (no preferences, or the
    priority absent or 0) it is 100 when the variant is not TSP and it is
    not set when the variant is TSP. *)
Theorem C3_unassigned_penalty :
  forall (today : string) (orders : list Order.t) (pa : Analysis.t),
    (Forall (fun o => valid_delivery o = true) orders ->
     exists visits, buildVisits today orders pa = Ok visits)
    /\ (forall visits,
           buildVisits today orders pa = Ok visits ->
           Forall2
             (fun o v =>
                (Analysis.hasPreferences pa = true ->
                 forall p, Order.priority o = Some p -> truthy p = true ->
                   Visit.unassigned_penalty v
                   = Some (Math_round (div (num 1000) p)))
                /\ (Analysis.hasPreferences pa = false
                    \/ truthy (Number (Order.priority o)) = false ->
                    Analysis.type pa <> TSP ->
                    Visit.unassigned_penalty v = Some (num 100))
                /\ (Analysis.hasPreferences pa = false
                    \/ truthy (Number (Order.priority o)) = false ->
                    Analysis.type pa = TSP ->
                    Visit.unassigned_penalty v = None))
             orders visits).
Proof.
  intros today orders pa. split; [apply buildVisits_total|].
  intros visits Hb. apply map_indexed_Forall2 in Hb.
  eapply Forall2_impl; [exact Hb|].
  intros o v [j Hv]. destruct (buildVisit_fields today pa o j v Hv) as (-> & _).
  repeat split.
  - intros -> p -> Hp. simpl. now rewrite Hp.
  - intros Hno Hty.
    assert (Analysis.hasPreferences pa && truthy (Number (Order.priority o))
            = false) as ->
      by (destruct Hno as [-> | ->]; [reflexivity|apply andb_false_r]).
    destruct (Analysis.type pa); congruence.
  - intros Hno ->.
    assert (Analysis.hasPreferences pa && truthy (Number (Order.priority o))
            = false) as ->
      by (destruct Hno as [-> | ->]; [reflexivity|apply andb_false_r]).
    reflexivity.
Qed.

End VisitPenalty.

(** ** Request builder: visits are built before vehicles *)

Section VisitsBeforeVehicles.

Import JS ApiClient.

Lemma initial_hasTimeWindows drivers orders depots options :
  options ≫= Options.enableTimeWindowConstraint <> Some true ->
  Analysis.hasTimeWindows (initialAnalysis drivers orders depots options)
  = existsb (fun o => negb (no_time_window o)) orders.
Proof.
  intros H. unfold initialAnalysis. apply hasTimeWindows_from_data.
  destruct options as [o|]; simpl in *; [exact H|discriminate].
Qed.

Lemma no_window_without_flag today orders pa visits :
  Analysis.hasTimeWindows pa = false ->
  buildVisits today orders pa = Ok visits ->
  Forall (fun v => Visit.time_window v = None /\ Visit.service_time v = None)
         visits.
Proof.
  intros Hflag Hb. apply map_indexed_Forall2 in Hb.
  induction Hb as [|o v os vs [j Hv] _ IH]; constructor; [|exact IH].
  destruct (buildVisit_fields today pa o j v Hv) as (_ & -> & ->).
  rewrite Hflag. auto.
Qed.

(** C10.  When some driver has a working-hours bound, no order has both
    time-window bounds and the caller gives no time-window option: the
    classification the visits are built from has [hasTimeWindows] false,
    so no built visit has a [time_window] or a [service_time]; building
    the vehicles afterwards leaves the shared classification with
    [hasTimeWindows] true; the visits of the returned request are the
    ones built before, still without those fields; and with a depot,
    valid delivery coordinates and at least one order the run succeeds. *)
Theorem C10_visits_built_before_vehicles :
  forall (today : string) (dateValue : string -> number)
         (drivers : list Driver.t) (orders : list Order.t)
         (depots : list Depot.t) (options : option Options.t),
    Exists (fun d => truthy_str (Driver.working_hours_start d)
                     || truthy_str (Driver.working_hours_end d) = true) drivers ->
    Forall (fun o => no_time_window o = true) orders ->
    options ≫= Options.enableTimeWindowConstraint = None ->
    let pa := initialAnalysis drivers orders depots options in
    Analysis.hasTimeWindows pa = false
    /\ Analysis.hasTimeWindows (buildVehicles today drivers pa).2 = true
    /\ (forall visits,
           buildVisits today orders pa = Ok visits ->
           Forall (fun v => Visit.time_window v = None
                            /\ Visit.service_time v = None) visits)
    /\ (forall warnings request,
           transformToOmeletRequest today dateValue drivers orders depots options
           = (warnings, Ok request) ->
           Forall (fun v => Visit.time_window v = None
                            /\ Visit.service_time v = None)
                  (Request.visits request))
    /\ (forall depot,
           buildDepot depots drivers = Ok depot ->
           Forall (fun o => valid_delivery o = true) orders ->
           orders <> [] ->
           exists request,
             (transformToOmeletRequest today dateValue drivers orders depots
                                       options).2 = Ok request).
Proof.
  intros today dateValue drivers orders depots options Hwork Horders Hopt pa.
  assert (Hflag : Analysis.hasTimeWindows pa = false).
  { subst pa. rewrite initial_hasTimeWindows by (rewrite Hopt; discriminate).
    apply (existsb_false_on _ _ _ Horders). intros o ->. reflexivity. }
  assert (Hne : drivers <> []) by (intros ->; inversion Hwork).
  assert (Hwh : Analysis.hasWorkingHours pa = true).
  { subst pa. unfold initialAnalysis, analyzeProblemType. simpl.
    apply existsb_true. exact Hwork. }
  split; [exact Hflag|].
  split; [apply (buildVehicles_flags today drivers pa); assumption|].
  split; [intros visits; apply no_window_without_flag; exact Hflag|].
  split.
  - intros warnings request Hrun.
    apply transform_ok in Hrun. destruct Hrun as [Hb _].
    eapply no_window_without_flag; [exact Hflag|exact Hb].
  - intros depot Hdepot Hvalid Hnonempty.
    destruct (buildVisits_total today orders pa Hvalid) as [visits Hb].
    destruct (transform_accepts today dateValue drivers orders depots options
                depot visits Hdepot Hb Hne Hnonempty) as (request & Hr & _).
    + apply existsb_false.
      eapply Forall_impl; [exact (no_window_without_flag _ _ _ _ Hflag Hb)|].
      intros v [Hv _]. unfold invalid_time_window. now rewrite Hv.
    + eauto.
Qed.

End VisitsBeforeVehicles.

(** ** Request builder: the capacity check *)

Section CapacityCheck.

Import JS ApiClient.

(** C6.  The outcome of [validateRequest] does not depend on the capacity
    flag or on the two sums: two classifications that agree on
    [hasTimeWindows] give the same outcome.  For a request that has its
    option bag, a visit and a vehicle, with the capacity flag set, the
    log is the single over-capacity warning when the total demand
    exceeds the total capacity, and empty otherwise; and the request is
    accepted unless a time window is invalid.  Three drivers of capacity
    1000 and 20 orders of weight 100 build without warning; with 40 such
    orders (demand 4000) the request is built and the warning logged. *)
Theorem C6_capacity_soft_check :
  forall (today : string) (dateValue : string -> number)
         (request : Request.t) (pa : Analysis.t),
    (forall pa',
        Analysis.hasTimeWindows pa' = Analysis.hasTimeWindows pa ->
        (validateRequest dateValue request pa').2
        = (validateRequest dateValue request pa).2)
    /\ (Analysis.hasCapacity pa = true ->
        Request.option request <> None ->
        Request.visits request <> [] ->
        Request.vehicles request <> [] ->
        (validateRequest dateValue request pa).1
        = (if gt (totalDemand (Request.visits request))
                 (totalCapacity (Request.vehicles request))
           then [DemandExceedsCapacity
                   (totalDemand (Request.visits request))
                   (totalCapacity (Request.vehicles request))]
           else [])
        /\ (existsb (invalid_time_window dateValue) (Request.visits request)
            = false ->
            (validateRequest dateValue request pa).2 = Ok tt))
    /\ (exists built,
           transformToOmeletRequest today dateValue
             (replicate 3 (sample_driver (Some (num 1000))))
             (replicate 20 (sample_order (Some (num 100)) None)) [] None
           = ([], Ok built)
           /\ Analysis.hasCapacity
                (initialAnalysis (replicate 3 (sample_driver (Some (num 1000))))
                   (replicate 20 (sample_order (Some (num 100)) None)) [] None)
              = true
           /\ totalDemand (Request.visits built) = num 2000
           /\ totalCapacity (Request.vehicles built) = num 3000)
    /\ (exists built,
           transformToOmeletRequest today dateValue
             (replicate 3 (sample_driver (Some (num 1000))))
             (replicate 40 (sample_order (Some (num 100)) None)) [] None
           = ([DemandExceedsCapacity (num 4000) (num 3000)], Ok built)).
Proof.
  intros today dateValue request pa. split; [|split; [|split]].
  - intros pa' Hflag. unfold validateRequest. rewrite Hflag.
    destruct (Request.option request); [|reflexivity].
    destruct (_ =? 0)%nat; [reflexivity|].
    destruct (_ =? 0)%nat; [reflexivity|].
    destruct (Analysis.hasTimeWindows pa && _); reflexivity.
  - intros Hcap Ho Hv Hc.
    rewrite (validateRequest_reached dateValue request pa Ho Hv Hc).
    rewrite Hcap. simpl. split; [reflexivity|].
    intros ->. now rewrite andb_false_r.
  - eexists. vm_compute. repeat split.
  - eexists. vm_compute. reflexivity.
Qed.

End CapacityCheck.

(** ** Request builder: time windows *)

Section TimeWindows.

Import JS ApiClient ClockTime.

Variable today : string.
Variable dateValue : string -> number.









End TimeWindows.

(** ** Instances

    The statements above, applied to concrete data; the clock is
    [IsoDate.dateValue] on 2026-11-03. *)

Section Instances.

Import JS ApiClient.




Lemma C3_witness :
  let drivers := [preferring_driver; sample_driver (Some (num 0))] in
  let orders := [sample_order None (Some (num 3)); sample_order None None] in
  let pa := initialAnalysis drivers orders [] None in
  exists v1 v2,
    buildVisits "2026-11-03" orders pa = Ok [v1; v2]
    /\ Visit.unassigned_penalty v1 = Some (num 333)
    /\ Visit.unassigned_penalty v2 = Some (num 100).
Proof.
  cbv zeta.
  set (orders := [sample_order None (Some (num 3)); sample_order None None]).
  set (pa := initialAnalysis [preferring_driver; sample_driver (Some (num 0))]
                             orders [] None).
  destruct (C3_unassigned_penalty "2026-11-03" orders pa) as [Htotal Hfields].
  destruct Htotal as [visits Hvisits]; [repeat constructor|].
  specialize (Hfields visits Hvisits).
  destruct visits as [|v1 [|v2 [|v3 visits]]];
    try (apply Forall2_length in Hfields; discriminate).
  exists v1, v2. split; [exact Hvisits|].
  apply Forall2_cons_1 in Hfields. destruct Hfields as [(H1 & _ & _) Hrest].
  apply Forall2_cons_1 in Hrest. destruct Hrest as [(_ & H2 & _) _].
  split.
  - apply (H1 eq_refl (num 3) eq_refl eq_refl).
  - apply H2; [right; reflexivity|discriminate].
Defined.


Lemma C6_witness :
  (validateRequest IsoDate.dateValue (sample_request 2 1)
     (initialAnalysis [sample_driver (Some (num 1000))]
                      [sample_order (Some (num 100)) None] [] None)).1 = []
  /\ (validateRequest IsoDate.dateValue (sample_request 2 1)
        (initialAnalysis [sample_driver (Some (num 1000))]
                         [sample_order (Some (num 100)) None] [] None)).2 = Ok tt.
Proof.
  destruct (proj1 (proj2 (C6_capacity_soft_check "2026-11-03" IsoDate.dateValue
                            (sample_request 2 1)
                            (initialAnalysis [sample_driver (Some (num 1000))]
                               [sample_order (Some (num 100)) None] [] None))))
    as [Hlog Hok].
  - reflexivity.
  - discriminate.
  - discriminate.
  - discriminate.
  - split; [exact Hlog|]. apply Hok. reflexivity.
Defined.

Lemma C7_witness :
  ApiConfig.selectEndpoint
    (Z.of_nat (length (Request.visits (sample_request 99 19))))
    (Z.of_nat (length (Request.vehicles (sample_request 99 19)))) = "/api/vrp"
  /\ endpoint (SolveOptimization.handleSolveOptimization_call
                 (sample_request 99 19)) = "/api/vrp-long".
Proof.
  apply (C7_tool_sends_99_19_to_async (sample_request 99 19)).
  - reflexivity.
  - reflexivity.
Defined.

Lemma C8_witness :
  exists files' session',
    SessionManager.completeStep "2026-11-03T10:00:00.000Z" "s1"
      solve_optimization {[ "s1" := sample_session 1 ]} = Some files'
    /\ files' !! "s1" = Some session'
    /\ ProjectSession.current_step session' = 4%Z.
Proof.
  assert (Hload : ({[ "s1" := sample_session 1 ]}
                   : gmap string ProjectSession.t) !! "s1"
                  = Some (sample_session 1)) by (vm_compute; reflexivity).
  destruct (proj1 (C8_complete_step "2026-11-03T10:00:00.000Z" "s1"
                     {[ "s1" := sample_session 1 ]}
                     (sample_session 1) 3 solve_optimization
                     Hload eq_refl eq_refl))
    as (files' & session' & Hrun & Hget & Hcur & _).
  exists files', session'. repeat split; [exact Hrun|exact Hget|].
  rewrite Hcur. reflexivity.
Defined.

Lemma C10_witness :
  let drivers := [shift_driver "09:00" "18:00"] in
  let orders := [sample_order None None] in
  Analysis.hasTimeWindows (initialAnalysis drivers orders [] None) = false
  /\ Analysis.hasTimeWindows
       (buildVehicles "2026-11-03" drivers
          (initialAnalysis drivers orders [] None)).2 = true
  /\ exists request,
       (transformToOmeletRequest "2026-11-03" IsoDate.dateValue drivers orders
          [] None).2 = Ok request.
Proof.
  cbv zeta.
  destruct (C10_visits_built_before_vehicles "2026-11-03" IsoDate.dateValue
              [shift_driver "09:00" "18:00"] [sample_order None None] [] None)
    as (Hflag & Hflip & _ & _ & Hrun).
  - constructor. reflexivity.
  - repeat constructor.
  - reflexivity.
  - split; [exact Hflag|]. split; [exact Hflip|].
    eapply Hrun; [vm_compute; reflexivity|repeat constructor|discriminate].
Defined.

End Instances.


(** * Further properties of the request builder *)

Section DepotAndVisits.

Import JS ApiClient.

Variable today : string.

Lemma not_lt_ge (a : number) (b : Z) :
  isNaN a = false -> lt a (num b) = false -> ge a (num b) = true.
Proof.
  unfold lt, ge. destruct a; simpl; try discriminate; try reflexivity.
  intros _. destruct (q ?= inject_Z b)%Q; congruence.
Qed.

Lemma not_gt_ge (a : number) (b : Z) :
  isNaN a = false -> gt a (num b) = false -> ge (num b) a = true.
Proof.
  unfold gt, lt, ge. destruct a; simpl; try discriminate; try reflexivity.
  intros _. destruct (inject_Z b ?= q)%Q; congruence.
Qed.

Lemma valid_in_range (x y : number) :
  invalid_coordinates x y = false -> in_range {| lng := x; lat := y |} = true.
Proof.
  unfold invalid_coordinates, in_range. simpl. intros H.
  repeat (apply orb_false_iff in H; destruct H as [H ?]).
  rewrite !not_lt_ge, !not_gt_ge by assumption. reflexivity.
Qed.

(** X1.  The depot is the first depot record when there is one, whatever the
    drivers are and even when its coordinates are invalid (no later depot
    and no driver is tried); a built depot is inside the valid range; and
    the only way to have INSUFFICIENT_DATA is to have neither a depot nor
    a driver. *)
Theorem buildDepot_outcome :
  forall (depots : list Depot.t) (drivers : list Driver.t),
    (forall depot0 rest drivers',
        depots = depot0 :: rest ->
        buildDepot depots drivers = buildDepot [depot0] drivers')
    /\ (forall depot,
           buildDepot depots drivers = Ok depot ->
           in_range (depot_coordinate depot) = true)
    /\ (buildDepot depots drivers = throw "INSUFFICIENT_DATA"
        <-> depots = [] /\ drivers = []).
Proof.
  intros depots drivers. split; [|split].
  - intros depot0 rest drivers' ->. reflexivity.
  - intros depot. unfold buildDepot.
    destruct depots as [|d0 ?]; [destruct drivers as [|d0 ?]; [discriminate|]|];
      destruct (invalid_coordinates _ _) eqn:E; try discriminate;
      intros [= <-]; simpl; now apply valid_in_range.
  - unfold buildDepot. split.
    + destruct depots as [|d0 ?]; [destruct drivers as [|d0 ?]; [auto|]|];
        destruct (invalid_coordinates _ _); discriminate.
    + intros [-> ->]. reflexivity.
Qed.

Lemma map_indexed_lookup {A B} (f : A -> nat -> result B) (l : list A) :
  forall (i : nat) (l' : list B) (j : nat) (x : A) (y : B),
    map_indexed f i l = Ok l' ->
    l !! j = Some x -> l' !! j = Some y -> f x (i + j)%nat = Ok y.
Proof.
  induction l as [|a l IH]; intros i l' j x y H Hx Hy; [discriminate|].
  simpl in H.
  destruct (f a i) as [b|e] eqn:Hb; simpl in H; [|discriminate].
  destruct (map_indexed f (S i) l) as [bs|e] eqn:Hbs; simpl in H; [|discriminate].
  injection H as <-. destruct j as [|j]; simpl in *.
  - injection Hx as <-. injection Hy as <-. now rewrite Nat.add_0_r.
  - rewrite Nat.add_succ_r. eapply (IH (S i)); eauto.
Qed.

Lemma map_indexed_error {A B} (f : A -> nat -> result B) (l : list A) :
  forall (i : nat) (e : TMSError),
    map_indexed f i l = Err e -> exists x j, x ∈ l /\ f x j = Err e.
Proof.
  induction l as [|a l IH]; intros i e H; [discriminate|].
  simpl in H. destruct (f a i) as [b|e'] eqn:Hb; simpl in H.
  - destruct (map_indexed f (S i) l) as [bs|e'] eqn:Hbs; simpl in H; [discriminate|].
    injection H as <-. destruct (IH _ _ Hbs) as (x & j & Hin & Hx).
    exists x, j. split; [now right|exact Hx].
  - injection H as <-. exists a, i. split; [now left|exact Hb].
Qed.

(** X2.  [buildVisits] fails exactly when some order has invalid delivery
    coordinates, and then with INVALID_COORDINATES; otherwise it gives one
    visit per order, in order, with the order's own coordinates (inside
    the valid range, never adjusted) and, as name, the order id or
    [Order_<position>] for an empty id. *)
Theorem buildVisits_outcome :
  forall (orders : list Order.t) (pa : Analysis.t),
    (buildVisits today orders pa = throw "INVALID_COORDINATES"
     <-> Exists (fun o => valid_delivery o = false) orders)
    /\ (forall e, buildVisits today orders pa = Err e ->
                  e = {| code := "INVALID_COORDINATES"; suggestions := None |})
    /\ (forall visits,
           buildVisits today orders pa = Ok visits ->
           length visits = length orders
           /\ forall i o v,
                orders !! i = Some o -> visits !! i = Some v ->
                Visit.coordinate v
                = {| lng := Number (Order.delivery_lng o);
                     lat := Number (Order.delivery_lat o) |}
                /\ in_range (Visit.coordinate v) = true
                /\ Visit.name v = visit_name_at i o).
Proof.
  intros orders pa.
  assert (Herr : forall e, buildVisits today orders pa = Err e ->
                   e = {| code := "INVALID_COORDINATES"; suggestions := None |}
                   /\ Exists (fun o => valid_delivery o = false) orders).
  { intros e H. apply map_indexed_error in H.
    destruct H as (o & j & Hin & Ho). unfold buildVisit in Ho.
    destruct (invalid_coordinates _ _) eqn:E; [|discriminate].
    injection Ho as <-. split; [reflexivity|].
    apply Exists_exists. exists o. split; [exact Hin|].
    unfold valid_delivery. now rewrite E. }
  split; [|split].
  - split; [intros H; now apply Herr in H|].
    intros Hex. destruct (buildVisits today orders pa) as [visits|e] eqn:Hb.
    + exfalso. apply map_indexed_Forall2 in Hb.
      apply Exists_exists in Hex. destruct Hex as (o & Hin & Ho).
      apply list_elem_of_lookup in Hin. destruct Hin as [i Hi].
      destruct (Forall2_lookup_l _ _ _ _ _ Hb Hi) as (v & _ & j & Hv).
      unfold buildVisit in Hv. unfold valid_delivery in Ho.
      apply negb_false_iff in Ho. rewrite Ho in Hv. discriminate.
    + destruct (Herr e eq_refl) as [-> _]. reflexivity.
  - intros e H. now apply Herr.
  - intros visits Hb. split; [eapply buildVisits_length; eauto|].
    intros i o v Ho Hv.
    pose proof (map_indexed_lookup _ _ _ _ _ _ _ Hb Ho Hv) as H.
    simpl in H. unfold buildVisit in H.
    destruct (invalid_coordinates _ _) eqn:E; [discriminate|].
    injection H as <-. simpl. repeat split.
    now apply valid_in_range.
Qed.

(** X3.  Demand fields of a built visit: with the capacity constraint both
    [weight] and [volume] are present, are numbers (never NaN) and are at
    least 0, whatever the order holds; without it both are absent. *)
Theorem visit_demand_clamped :
  forall (orders : list Order.t) (pa : Analysis.t) (visits : list Visit.t),
    buildVisits today orders pa = Ok visits ->
    Forall (fun v =>
              if Analysis.hasCapacity pa
              then at_least 0 (Visit.weight v) = true
                   /\ at_least 0 (Visit.volume v) = true
              else Visit.weight v = None /\ Visit.volume v = None)
           visits.
Proof.
  intros orders pa visits Hb. apply map_indexed_Forall2 in Hb.
  assert (Hmax : forall x, at_least 0 (Some (Math_max (num 0) (or_else x (num 0))))
                           = true).
  { intros x. unfold or_else, at_least.
    destruct x as [| |q|]; simpl; try reflexivity.
    destruct (negb (Qeq_bool q 0)); simpl; [|reflexivity].
    unfold Math_max, ge; simpl.
    destruct (inject_Z 0 ?= q)%Q eqn:E; simpl; rewrite ?E; try reflexivity.
    rewrite <- Qcompare_antisym, E. reflexivity. }
  induction Hb as [|o v os vs [j Hv] _ IH]; constructor; [|exact IH].
  unfold buildVisit in Hv. destruct (invalid_coordinates _ _); [discriminate|].
  injection Hv as <-. simpl. destruct (Analysis.hasCapacity pa); auto.
Qed.

End DepotAndVisits.

Section Vehicles.

Import JS ApiClient.

Variable today : string.

Lemma buildVehicle_ignores_flag (d : Driver.t) (i : nat) (b : bool)
    (pa : Analysis.t) :
  (buildVehicle today d i (Analysis.set_hasTimeWindows b pa)).1
  = (buildVehicle today d i pa).1.
Proof. destruct pa as [? ? ? ? [] ? ? ? ?]; reflexivity. Qed.

Lemma buildVehicles_from_cons (i : nat) (d : Driver.t) (ds : list Driver.t)
    (pa : Analysis.t) :
  buildVehicles_from today i (d :: ds) pa
  = ((buildVehicle today d i pa).1
       :: (buildVehicles_from today (S i) ds (buildVehicle today d i pa).2).1,
     (buildVehicles_from today (S i) ds (buildVehicle today d i pa).2).2).
Proof.
  cbn [buildVehicles_from].
  destruct (buildVehicle today d i pa) as [v pa1].
  cbn [fst snd]. destruct (buildVehicles_from today (S i) ds pa1). reflexivity.
Qed.

Lemma buildVehicles_from_lookup (drivers : list Driver.t) :
  forall (i : nat) (pa : Analysis.t) (j : nat),
    (buildVehicles_from today i drivers pa).1 !! j
    = (fun d => (buildVehicle today d (i + j) pa).1) <$> drivers !! j.
Proof.
  induction drivers as [|d ds IH]; intros i pa j; [reflexivity|].
  rewrite buildVehicles_from_cons. cbn [fst].
  destruct j as [|j].
  - cbn [lookup list_lookup fmap option_fmap option_map]. now rewrite Nat.add_0_r.
  - cbn [lookup list_lookup]. rewrite IH, Nat.add_succ_r, buildVehicle_analysis.
    destruct (ds !! j) as [d'|]; [|reflexivity].
    cbn [fmap option_fmap option_map]. f_equal.
    destruct (Analysis.hasWorkingHours pa); [apply buildVehicle_ignores_flag|reflexivity].
Qed.

Lemma buildVehicles_lookup (drivers : list Driver.t) (pa : Analysis.t) (j : nat) :
  (buildVehicles today drivers pa).1 !! j
  = (fun d => (buildVehicle today d j pa).1) <$> drivers !! j.
Proof. apply buildVehicles_from_lookup. Qed.

Lemma Math_max_at_least (b : Z) (x : number) :
  isNaN x = false -> at_least b (Some (Math_max (num b) x)) = true.
Proof.
  intros Hx. unfold at_least, Math_max, num.
  destruct x as [| |q|]; try discriminate; simpl.
  - apply ge_Fin. apply Qle_refl.
  - destruct (Qcompare_spec (inject_Z b) q) as [E|E|E]; apply ge_Fin.
    + apply Qle_refl.
    + now apply Qlt_le_weak.
    + apply Qle_refl.
  - reflexivity.
Qed.

Lemma or_else_not_NaN (x d : number) :
  isNaN d = false -> isNaN (or_else x d) = false.
Proof.
  intros Hd. unfold or_else. destruct x as [| |q|]; simpl; auto.
  destruct (negb (Qeq_bool q 0)); auto.
Qed.

Lemma floor_at_one (x : number) :
  at_least 1 (Some (Math_max (num 1) (or_else x (num 1000)))) = true.
Proof. apply Math_max_at_least, or_else_not_NaN. reflexivity. Qed.

Lemma ge_one_gt_zero (w : number) :
  ge w (num 1) = true -> gt w (num 0) = true.
Proof.
  destruct w as [| |q|]; try discriminate; [|reflexivity].
  unfold num. rewrite ge_Fin. intros H. apply lt_Fin.
  eapply Qlt_le_trans; [|exact H]. reflexivity.
Qed.

Lemma capacity_floor_value (x : number) :
  gt x (num 0) = false ->
  Math_max (num 1) (or_else x (num 1000))
  = if truthy x then num 1 else num 1000.
Proof.
  intros Hpos. unfold or_else.
  destruct x as [| |q|]; try reflexivity; try discriminate.
  cbn [truthy]. destruct (Qeq_bool q 0) eqn:Ez; cbn [negb]; [reflexivity|].
  unfold Math_max, num. cbn [cmp].
  destruct (Qcompare_spec (inject_Z 1) q) as [E|E|E]; [| |reflexivity]; exfalso.
  - assert (H : gt (Fin q) (num 0) = true)
      by (apply lt_Fin; rewrite <- E; reflexivity).
    congruence.
  - assert (H : gt (Fin q) (num 0) = true)
      by (apply lt_Fin; eapply Qlt_trans; [|exact E]; reflexivity).
    congruence.
Qed.

(** X4.  [buildVehicles] gives one vehicle per driver, in order, named after the
    driver or [Vehicle_<position>], always returning to the depot.  With
    the capacity constraint every vehicle has a weight capacity of at
    least 1 (a capacity of 0, a missing one or NaN becomes 1000, a
    negative one becomes 1) and a volume capacity greater than 0; without
    it both fields are absent. *)
Theorem buildVehicles_capacity :
  forall (drivers : list Driver.t) (pa : Analysis.t),
    let vehicles := (buildVehicles today drivers pa).1 in
    length vehicles = length drivers
    /\ (forall j d v,
          drivers !! j = Some d -> vehicles !! j = Some v ->
          Vehicle.name v
          = str_or (Driver.name d) ("Vehicle_" ++ pretty (j + 1)%nat)
          /\ Vehicle.return_to_depot v = true
          /\ if Analysis.hasCapacity pa
             then at_least 1 (Vehicle.weight_capacity v) = true
                  /\ (exists c, Vehicle.volume_capacity v = Some c
                                /\ gt c (num 0) = true)
                  /\ (positive (Driver.capacity d) = false ->
                      Vehicle.weight_capacity v
                      = Some (if truthy (Number (Driver.capacity d))
                              then num 1 else num 1000))
             else Vehicle.weight_capacity v = None
                  /\ Vehicle.volume_capacity v = None).
Proof.
  intros drivers pa vehicles. split.
  - apply (buildVehicles_flags today drivers pa).
  - intros j d v Hd Hv. subst vehicles.
    rewrite buildVehicles_lookup, Hd in Hv. injection Hv as <-.
    unfold buildVehicle. cbn [fst Vehicle.name Vehicle.return_to_depot
      Vehicle.weight_capacity Vehicle.volume_capacity].
    split; [reflexivity|]. split; [reflexivity|].
    destruct (Analysis.hasCapacity pa); [|auto].
    split; [apply floor_at_one|]. split.
    + destruct (gt (Number (Driver.volume_capacity d)) (num 0)) eqn:E; [eauto|].
      eexists. split; [reflexivity|]. apply ge_one_gt_zero.
      apply (floor_at_one (Number (Driver.capacity d))).
    + intros Hpos. f_equal. now apply capacity_floor_value.
Qed.

(** X5.  Cost fields.  Without multi-objective costs a vehicle has no fixed
    and no duration cost and a distance cost of at least 0 (a negative
    [cost_per_km] becomes 0, a missing one or 0 becomes 1).  With them the
    distance cost is never 0 or NaN: it falls back to [cost_per_km], then
    to 1. *)
Theorem buildVehicles_costs :
  forall (drivers : list Driver.t) (pa : Analysis.t),
    Forall (fun v =>
              if Analysis.hasMultiObjective pa
              then truthy (Vehicle.unit_distance_cost v) = true
                   /\ isNaN (Vehicle.fixed_cost v) = false
                   /\ isNaN (Vehicle.unit_duration_cost v) = false
              else Vehicle.fixed_cost v = num 0
                   /\ Vehicle.unit_duration_cost v = num 0
                   /\ ge (Vehicle.unit_distance_cost v) (num 0) = true)
           (buildVehicles today drivers pa).1.
Proof.
  intros drivers pa. apply Forall_lookup. intros j v Hv.
  rewrite buildVehicles_lookup in Hv.
  destruct (drivers !! j) as [d|]; [|discriminate]. injection Hv as <-.
  assert (Htruthy : forall a b, truthy b = true -> truthy (or_else a b) = true).
  { intros a b Hb. unfold or_else. destruct (truthy a) eqn:E; assumption. }
  assert (Hnan : forall a, isNaN (or_else a (num 0)) = false).
  { intros a. unfold or_else. destruct a; reflexivity || (simpl; destruct (negb _); reflexivity). }
  unfold buildVehicle. simpl. destruct (Analysis.hasMultiObjective pa).
  - repeat split; [|apply Hnan|apply Hnan].
    apply Htruthy, Htruthy. reflexivity.
  - repeat split.
    apply (Math_max_at_least 0), or_else_not_NaN. reflexivity.
Qed.

End Vehicles.

(** * Further properties of the classifier *)

Section ClassifierShape.

Import JS ApiClient.

(** The tag and the complexity, in terms of the flags of the returned
    classification. *)
Lemma type_by_flags drivers orders depots options :
  let a := analyzeProblemType drivers orders depots options in
  (Analysis.type a, Analysis.complexity a)
  = if (length drivers =? 1)%nat && negb (Analysis.hasCapacity a)
       && negb (Analysis.hasTimeWindows a)
    then (TSP, Low)
    else if Analysis.hasCapacity a && negb (Analysis.hasTimeWindows a)
            && negb (Analysis.hasWorkingHours a)
            && negb (Analysis.hasPreferences a)
    then (CVRP, Medium)
    else if Analysis.hasCapacity a && Analysis.hasTimeWindows a
    then (CVRPTW, High)
    else if Analysis.hasCapacity a && Analysis.hasWorkingHours a
    then (CVRP_Driver_Shifts, Medium_High)
    else if Analysis.hasPreferences a || Analysis.hasDiverseVehicleTypes a
    then (CVRP_Preferences, Medium)
    else if Analysis.hasMultiObjective a then (Multi_Objective_CVRP, Medium_High)
    else if (1 <? length drivers)%nat then (CVRP, Medium)
    else (TSP, Low).
Proof.
  unfold analyzeProblemType.
  cbn [Analysis.type Analysis.complexity Analysis.hasCapacity
       Analysis.hasTimeWindows Analysis.hasWorkingHours Analysis.hasPreferences
       Analysis.hasMultiObjective Analysis.hasDiverseVehicleTypes].
  exact (eq_sym (surjective_pairing _)).
Qed.

Lemma TSP_at_most_one_driver drivers orders depots options :
  Analysis.type (analyzeProblemType drivers orders depots options) = TSP ->
  (length drivers <= 1)%nat.
Proof.
  intros Ht.
  pose proof (type_by_flags drivers orders depots options) as H.
  cbv zeta in H. rewrite Ht in H.
  destruct (Nat.eqb_spec (length drivers) 1) as [E1|E1]; [lia|].
  destruct (Nat.ltb_spec 1 (length drivers)) as [E2|E2]; [|lia].
  cbn in H.
  repeat match type of H with
         | context [if ?b then _ else _] => destruct b; cbn in H
         end; discriminate.
Qed.

(** X6.  What the tag of a classification tells about its flags.  [TSP] is
    only given without the capacity constraint and to at most one driver;
    [CVRPTW] is given exactly when capacity and time windows are both on;
    [CVRP_Driver_Shifts] exactly when capacity and working hours are on
    and time windows are off; [Multi_Objective_CVRP] is never given with
    the capacity constraint; with the capacity constraint the tag is one
    of the four capacitated ones; and the complexity is a function of the
    tag. *)
Theorem classification_consequences :
  forall drivers orders depots options,
    let a := analyzeProblemType drivers orders depots options in
    (Analysis.type a = TSP ->
     Analysis.hasCapacity a = false /\ (length drivers <= 1)%nat)
    /\ (Analysis.type a = CVRPTW
        <-> Analysis.hasCapacity a = true /\ Analysis.hasTimeWindows a = true)
    /\ (Analysis.type a = CVRP_Driver_Shifts
        <-> Analysis.hasCapacity a = true /\ Analysis.hasTimeWindows a = false
            /\ Analysis.hasWorkingHours a = true)
    /\ (Analysis.type a = Multi_Objective_CVRP ->
        Analysis.hasCapacity a = false /\ Analysis.hasMultiObjective a = true
        /\ Analysis.hasPreferences a = false)
    /\ (Analysis.hasCapacity a = true ->
        Analysis.type a ∈ [CVRP; CVRPTW; CVRP_Driver_Shifts; CVRP_Preferences])
    /\ Analysis.complexity a
       = match Analysis.type a with
         | TSP => Low
         | CVRP | CVRP_Preferences => Medium
         | CVRPTW => High
         | CVRP_Driver_Shifts | Multi_Objective_CVRP => Medium_High
         end.
Proof.
  intros drivers orders depots options a.
  pose proof (type_by_flags drivers orders depots options) as H.
  cbv zeta in H. fold a in H. clearbody a.
  destruct (Nat.eqb_spec (length drivers) 1) as [E1|E1];
    destruct (Nat.ltb_spec 1 (length drivers)) as [E2|E2];
    destruct (Analysis.hasCapacity a), (Analysis.hasTimeWindows a),
      (Analysis.hasWorkingHours a), (Analysis.hasPreferences a),
      (Analysis.hasDiverseVehicleTypes a), (Analysis.hasMultiObjective a);
    cbn in H; injection H as -> ->;
    repeat split; intros; try discriminate; try lia; try tauto;
      try (repeat (try (left; reflexivity); right); fail);
      try (destruct_and?; discriminate).
Qed.

End ClassifierShape.

(** * Further properties of the whole transformation *)

Section Pipeline.

Import JS ApiClient.

Variable today : string.
Variable dateValue : string -> number.

Lemma initial_hasCapacity drivers orders depots options :
  Analysis.hasCapacity (initialAnalysis drivers orders depots options)
  = finalCapacityConstraint drivers orders options.
Proof. reflexivity. Qed.

(** The classification as [buildVehicles] leaves it. *)
Lemma buildVehicles_final_analysis (drivers : list Driver.t) (pa : Analysis.t) :
  drivers <> [] ->
  (buildVehicles today drivers pa).2
  = if Analysis.hasWorkingHours pa
    then Analysis.set_hasTimeWindows true pa else pa.
Proof.
  intros Hd. unfold buildVehicles.
  destruct (buildVehicles_from_analysis today drivers 0 pa) as [-> _].
  destruct drivers; [congruence|reflexivity].
Qed.

(** What a successful run is made of. *)
Lemma transform_success drivers orders depots options warnings request :
  transformToOmeletRequest today dateValue drivers orders depots options
  = (warnings, Ok request) ->
  let pa := initialAnalysis drivers orders depots options in
  let pa' := if Analysis.hasWorkingHours pa
             then Analysis.set_hasTimeWindows true pa else pa in
  let options' := Some (optionsWithCapacity drivers orders options) in
  drivers <> [] /\ orders <> []
  /\ buildDepot depots drivers = Ok (Request.depot request)
  /\ buildVisits today orders pa = Ok (Request.visits request)
  /\ Request.vehicles request = (buildVehicles today drivers pa).1
  /\ Request.option request
     = Some (buildApiOptions pa' (length orders) (length drivers) options')
  /\ Request.delivery_start_time request
     = (if Analysis.hasTimeWindows pa'
           && truthy_str (options ≫= Options.deliveryStartTime)
        then options ≫= Options.deliveryStartTime else None)
  /\ warnings
     = (if Analysis.hasCapacity pa then
          if gt (totalDemand (Request.visits request))
                (totalCapacity (Request.vehicles request))
          then [DemandExceedsCapacity (totalDemand (Request.visits request))
                                      (totalCapacity (Request.vehicles request))]
          else []
        else [])
  /\ Analysis.hasTimeWindows pa'
     && existsb (invalid_time_window dateValue) (Request.visits request) = false.
Proof.
  intros Hrun pa pa' options'.
  destruct (buildDepot depots drivers) as [depot|e] eqn:Hdepot;
    [|unfold transformToOmeletRequest in Hrun; rewrite Hdepot in Hrun;
      discriminate].
  destruct (buildVisits today orders pa) as [visits|e] eqn:Hvisits;
    [|unfold transformToOmeletRequest in Hrun; fold pa in Hvisits;
      unfold pa, initialAnalysis in Hvisits;
      rewrite Hdepot, Hvisits in Hrun; discriminate].
  rewrite (transform_run today dateValue _ _ _ _ _ _ Hdepot Hvisits) in Hrun.
  cbv zeta in Hrun. fold pa in Hrun. fold options' in Hrun.
  pose proof (buildVisits_length today _ _ _ Hvisits) as Hlen.
  destruct (buildVehicles_flags today drivers pa) as (Hcap & _ & _ & _ & Hlen').
  cbv zeta in Hcap.
  assert (Horders : orders <> []).
  { intros ->. destruct visits; [|discriminate].
    unfold validateRequest in Hrun. cbn in Hrun. discriminate. }
  assert (Hdrivers : drivers <> []).
  { intros ->. unfold validateRequest in Hrun.
    cbn [buildFinalRequest Request.option Request.visits Request.vehicles]
      in Hrun.
    destruct visits; [destruct orders; [congruence|discriminate]|].
    cbn in Hrun. discriminate. }
  rewrite (buildVehicles_final_analysis drivers pa Hdrivers) in Hrun, Hcap.
  fold pa' in Hrun, Hcap.
  rewrite validateRequest_reached in Hrun.
  - cbn [fst snd buildFinalRequest Request.visits Request.vehicles] in Hrun.
    destruct (Analysis.hasTimeWindows pa'
              && existsb (invalid_time_window dateValue) visits) eqn:Hbad;
      [discriminate|].
    cbn [bind] in Hrun. injection Hrun as <- <-.
    cbn [buildFinalRequest Request.depot Request.visits Request.vehicles
         Request.option Request.delivery_start_time].
    rewrite Hcap, Hlen, Hlen'. repeat split; auto.
    destruct options; reflexivity.
  - discriminate.
  - cbn. intros ->. destruct orders; [congruence|discriminate].
  - cbn. intros E. rewrite E in Hlen'. destruct drivers; [congruence|discriminate].
Qed.

Lemma buildDepot_in_range depots drivers depot :
  buildDepot depots drivers = Ok depot ->
  in_range (depot_coordinate depot) = true.
Proof.
  unfold buildDepot.
  destruct depots as [|d0 ?]; [destruct drivers as [|d0 ?]; [discriminate|]|];
    destruct (invalid_coordinates _ _) eqn:E; try discriminate;
    intros [= <-]; simpl; now apply valid_in_range.
Qed.

Lemma buildDepot_error depots drivers e :
  buildDepot depots drivers = Err e ->
  code e ∈ builder_codes /\ suggestions e = None.
Proof.
  unfold buildDepot.
  destruct depots as [|d0 ?]; [destruct drivers as [|d0 ?]|];
    try destruct (invalid_coordinates _ _); try discriminate;
    intros [= <-]; cbn; (split; [|reflexivity]);
    apply (bool_decide_unpack _); vm_compute; exact I.
Qed.

Lemma buildVisits_error orders pa e :
  buildVisits today orders pa = Err e ->
  e = {| code := "INVALID_COORDINATES"; suggestions := None |}.
Proof.
  intros H. apply map_indexed_error in H.
  destruct H as (o & j & _ & Ho). unfold buildVisit in Ho.
  destruct (invalid_coordinates _ _); [|discriminate].
  now injection Ho as <-.
Qed.

Lemma buildVisits_fails orders pa :
  Exists (fun o => valid_delivery o = false) orders ->
  buildVisits today orders pa = throw "INVALID_COORDINATES".
Proof.
  intros Hex. destruct (buildVisits today orders pa) as [visits|e] eqn:Hb.
  - exfalso. apply map_indexed_Forall2 in Hb.
    apply Exists_exists in Hex. destruct Hex as (o & Hin & Ho).
    apply list_elem_of_lookup in Hin. destruct Hin as [i Hi].
    destruct (Forall2_lookup_l _ _ _ _ _ Hb Hi) as (v & _ & j & Hv).
    unfold buildVisit in Hv. unfold valid_delivery in Ho.
    apply negb_false_iff in Ho. rewrite Ho in Hv. discriminate.
  - now rewrite (buildVisits_error _ _ _ Hb).
Qed.

Lemma buildVisits_in_range orders pa visits :
  buildVisits today orders pa = Ok visits ->
  Forall (fun v => in_range (Visit.coordinate v) = true) visits.
Proof.
  intros Hb. apply map_indexed_Forall2 in Hb.
  induction Hb as [|o v os vs [j Hv] _ IH]; constructor; [|exact IH].
  unfold buildVisit in Hv.
  destruct (invalid_coordinates _ _) eqn:E; [discriminate|].
  injection Hv as <-. cbn. now apply valid_in_range.
Qed.

Lemma existsb_Forall_false {A} (f : A -> bool) (l : list A) :
  existsb f l = false -> Forall (fun x => f x = false) l.
Proof.
  induction l as [|x l IH]; cbn; intros H; constructor.
  - now apply orb_false_iff in H.
  - apply IH. now apply orb_false_iff in H.
Qed.

(** X7.  A request that [transformToOmeletRequest] returns has at least one
    visit and one vehicle, one visit per order and one vehicle per
    driver, a depot and visits inside the valid coordinate range, no
    visit whose time window has start >= end, an option object with both
    depot-cost switches on, and came with at most one warning. *)
Theorem transform_success_shape :
  forall drivers orders depots options warnings request,
    transformToOmeletRequest today dateValue drivers orders depots options
    = (warnings, Ok request) ->
    drivers <> [] /\ orders <> []
    /\ length (Request.visits request) = length orders
    /\ length (Request.vehicles request) = length drivers
    /\ in_range (depot_coordinate (Request.depot request)) = true
    /\ Forall (fun v => in_range (Visit.coordinate v) = true)
              (Request.visits request)
    /\ Forall (fun v => invalid_time_window dateValue v = false)
              (Request.visits request)
    /\ (exists o, Request.option request = Some o
                  /\ include_departure_cost_from_depot o = true
                  /\ include_return_cost_to_depot o = true)
    /\ (length warnings <= 1)%nat.
Proof.
  intros drivers orders depots options warnings request Hrun.
  destruct (transform_success _ _ _ _ _ _ Hrun)
    as (Hd & Ho & Hdepot & Hvisits & Hveh & Hopt & _ & Hw & Hbad).
  cbv zeta in *.
  set (pa := initialAnalysis drivers orders depots options) in *.
  repeat split; try assumption.
  - eapply buildVisits_length; eassumption.
  - rewrite Hveh. apply (buildVehicles_flags today drivers pa).
  - eapply buildDepot_in_range; eassumption.
  - eapply buildVisits_in_range; eassumption.
  - destruct (Analysis.hasTimeWindows pa) eqn:Htw.
    + apply existsb_Forall_false.
      destruct (Analysis.hasWorkingHours pa);
        [exact Hbad|rewrite Htw in Hbad; exact Hbad].
    + eapply Forall_impl;
        [exact (no_window_without_flag today orders pa _ Htw Hvisits)|].
      intros v [Hv _]. unfold invalid_time_window. now rewrite Hv.
  - eexists. split; [exact Hopt|]. split; reflexivity.
  - rewrite Hw. destruct (Analysis.hasCapacity pa); [|cbn; lia].
    destruct (gt _ _); cbn; lia.
Qed.

(** X8.  How [transformToOmeletRequest] fails.  Its error has one of seven
    codes (never INVALID_REQUEST) and no suggestions, and a warning is
    only printed before INVALID_TIME_WINDOWS.  The steps fail in order: a
    depot error wins over everything; with a depot, an order with invalid
    delivery coordinates gives INVALID_COORDINATES; no order at all gives
    NO_VISITS, also when there is no driver either; valid orders without
    any driver give NO_VEHICLES. *)
Theorem transform_failure_codes :
  forall drivers orders depots options,
    let run :=
      transformToOmeletRequest today dateValue drivers orders depots options in
    (forall warnings e,
        run = (warnings, Err e) ->
        code e ∈ builder_codes /\ suggestions e = None
        /\ (code e <> "INVALID_TIME_WINDOWS" -> warnings = []))
    /\ (forall e, buildDepot depots drivers = Err e -> run = ([], Err e))
    /\ (forall depot,
           buildDepot depots drivers = Ok depot ->
           (Exists (fun o => valid_delivery o = false) orders ->
            run = ([], throw "INVALID_COORDINATES"))
           /\ (orders = [] -> run = ([], throw "NO_VISITS"))
           /\ (Forall (fun o => valid_delivery o = true) orders ->
               orders <> [] -> drivers = [] ->
               run = ([], throw "NO_VEHICLES"))).
Proof.
  intros drivers orders depots options run. subst run.
  split; [|split].
  - intros warnings e Hrun. unfold transformToOmeletRequest in Hrun.
    destruct (buildDepot depots drivers) as [depot|e'] eqn:Hdepot.
    2:{ injection Hrun as <- <-.
        destruct (buildDepot_error _ _ _ Hdepot) as [Hc Hs]. auto. }
    destruct (buildVisits today orders _) as [visits|e'] eqn:Hvisits.
    2:{ injection Hrun as <- <-. rewrite (buildVisits_error _ _ _ Hvisits).
        cbn. split; [|auto]. apply (bool_decide_unpack _); vm_compute; exact I. }
    destruct (buildVehicles today drivers _) as [vehicles pa'].
    unfold validateRequest in Hrun.
    cbn [buildFinalRequest Request.option Request.visits Request.vehicles]
      in Hrun.
    destruct (length visits =? 0)%nat.
    { injection Hrun as <- <-. cbn. split; [|auto].
      apply (bool_decide_unpack _); vm_compute; exact I. }
    destruct (length vehicles =? 0)%nat.
    { injection Hrun as <- <-. cbn. split; [|auto].
      apply (bool_decide_unpack _); vm_compute; exact I. }
    destruct (Analysis.hasTimeWindows pa' && _); cbn [bind] in Hrun;
      [|discriminate].
    injection Hrun as <- <-. cbn. split; [|split; [reflexivity|congruence]].
    apply (bool_decide_unpack _); vm_compute; exact I.
  - intros e Hdepot. unfold transformToOmeletRequest. now rewrite Hdepot.
  - intros depot Hdepot. split; [|split].
    + intros Hex. unfold transformToOmeletRequest. rewrite Hdepot.
      now rewrite (buildVisits_fails _ _ Hex).
    + intros ->. unfold transformToOmeletRequest. rewrite Hdepot. cbn.
      destruct (buildVehicles today drivers _) as [vehicles pa']. reflexivity.
    + intros Hvalid Horders ->.
      destruct (buildVisits_total today orders
                  (initialAnalysis [] orders depots options) Hvalid)
        as [visits Hvisits].
      rewrite (transform_run today dateValue _ _ _ _ _ _ Hdepot Hvisits).
      cbv zeta. unfold validateRequest.
      cbn [buildFinalRequest Request.option Request.visits Request.vehicles
           buildVehicles buildVehicles_from fst snd].
      apply buildVisits_length in Hvisits.
      destruct visits; [destruct orders; [congruence|discriminate]|].
      reflexivity.
Qed.

Lemma buildVisits_capacity_fields orders pa visits :
  buildVisits today orders pa = Ok visits ->
  Forall (fun v => defined (Visit.weight v) = Analysis.hasCapacity pa
                   /\ defined (Visit.volume v) = Analysis.hasCapacity pa)
         visits.
Proof.
  intros Hb. apply map_indexed_Forall2 in Hb.
  induction Hb as [|o v os vs [j Hv] _ IH]; constructor; [|exact IH].
  unfold buildVisit in Hv. destruct (invalid_coordinates _ _); [discriminate|].
  injection Hv as <-. cbn. destruct (Analysis.hasCapacity pa); auto.
Qed.

(** X9.  Capacity fields are all-or-nothing across a returned request: every
    visit carries [weight] and [volume] and every vehicle carries
    [weight_capacity] and [volume_capacity] when the final capacity
    switch (the caller's explicit option, else the detection from the
    data) is on, and none of them does when it is off; a capacity warning
    is only printed when it is on. *)
Theorem transform_capacity_fields :
  forall drivers orders depots options warnings request,
    transformToOmeletRequest today dateValue drivers orders depots options
    = (warnings, Ok request) ->
    let on := finalCapacityConstraint drivers orders options in
    Forall (fun v => defined (Visit.weight v) = on
                     /\ defined (Visit.volume v) = on)
           (Request.visits request)
    /\ Forall (fun v => defined (Vehicle.weight_capacity v) = on
                        /\ defined (Vehicle.volume_capacity v) = on)
              (Request.vehicles request)
    /\ (warnings <> [] -> on = true).
Proof.
  intros drivers orders depots options warnings request Hrun on.
  destruct (transform_success _ _ _ _ _ _ Hrun)
    as (_ & _ & _ & Hvisits & Hveh & _ & _ & Hw & _).
  cbv zeta in *.
  set (pa := initialAnalysis drivers orders depots options) in *.
  assert (Hon : Analysis.hasCapacity pa = on) by reflexivity.
  split; [|split].
  - rewrite <- Hon. eapply buildVisits_capacity_fields; eassumption.
  - rewrite Hveh. apply Forall_lookup. intros j v Hv.
    rewrite buildVehicles_lookup in Hv.
    destruct (drivers !! j) as [d|]; [|discriminate]. injection Hv as <-.
    unfold buildVehicle.
    cbn [fst Vehicle.weight_capacity Vehicle.volume_capacity].
    fold on. destruct on; auto.
  - rewrite Hw, Hon. destruct on; [reflexivity|congruence].
Qed.

(** X10.  A returned request has a [delivery_start_time] exactly when the
    caller gave a non-empty one and the problem is time-constrained: the
    time-window option is on, or some order has both window bounds, or
    some driver has a working-hours bound (which alone gives no visit a
    time window). *)
Theorem transform_delivery_start_time :
  forall drivers orders depots options warnings request,
    transformToOmeletRequest today dateValue drivers orders depots options
    = (warnings, Ok request) ->
    Request.delivery_start_time request
    = if (bool_decide (options ≫= Options.enableTimeWindowConstraint = Some true)
          || existsb (fun o => negb (no_time_window o)) orders
          || existsb (fun d => truthy_str (Driver.working_hours_start d)
                               || truthy_str (Driver.working_hours_end d))
                     drivers)
         && truthy_str (options ≫= Options.deliveryStartTime)
      then options ≫= Options.deliveryStartTime
      else None.
Proof.
  intros drivers orders depots options warnings request Hrun.
  destruct (transform_success _ _ _ _ _ _ Hrun)
    as (_ & _ & _ & _ & _ & _ & -> & _). cbv zeta.
  set (pa := initialAnalysis drivers orders depots options).
  assert (Hwh : Analysis.hasWorkingHours pa
                = existsb (fun d => truthy_str (Driver.working_hours_start d)
                                    || truthy_str (Driver.working_hours_end d))
                          drivers) by reflexivity.
  assert (Htw : Analysis.hasTimeWindows pa
                = bool_decide (options ≫= Options.enableTimeWindowConstraint
                               = Some true)
                  || existsb (fun o => negb (no_time_window o)) orders).
  { destruct (decide (options ≫= Options.enableTimeWindowConstraint = Some true))
      as [E|E].
    - rewrite (bool_decide_eq_true_2 _ E). unfold pa, initialAnalysis.
      unfold analyzeProblemType. cbn [Analysis.hasTimeWindows].
      destruct options as [o|]; [|discriminate]. cbn in E |- *. now rewrite E.
    - rewrite (bool_decide_eq_false_2 _ E). now apply initial_hasTimeWindows. }
  rewrite <- Hwh, <- Htw.
  destruct (Analysis.hasWorkingHours pa) eqn:E; cbn [Analysis.hasTimeWindows
    Analysis.set_hasTimeWindows]; [now rewrite orb_true_r|now rewrite orb_false_r].
Qed.

(** X11.  The option object of a returned request.  The objective is [minmax]
    only when the caller asks for it (the rule for a route-only problem
    with several vehicles never applies, such a problem having at most
    one driver); the time limit is the caller's when that is a non-zero
    number, else 10, 15, 20 or 30; the large-problem algorithm is on for
    more than 1000 orders or more than 50 drivers, and unassigned visits
    are then allowed unless the caller says otherwise. *)
Theorem transform_option_bag :
  forall drivers orders depots options warnings request,
    transformToOmeletRequest today dateValue drivers orders depots options
    = (warnings, Ok request) ->
    exists o,
      Request.option request = Some o
      /\ objective_type o = default minsum (options ≫= Options.objective)
      /\ (truthy (Number (options ≫= Options.timeLimit)) = true ->
          timelimit o = Number (options ≫= Options.timeLimit))
      /\ (truthy (Number (options ≫= Options.timeLimit)) = false ->
          timelimit o ∈ [num 10; num 15; num 20; num 30])
      /\ use_large_size_optimization_algorithm o
         = (1000 <? length orders)%nat || (50 <? length drivers)%nat
      /\ allow_unassigned_visits o
         = default (use_large_size_optimization_algorithm o)
                   (options ≫= Options.allowUnassignedVisits)
      /\ distance_type o = default euclidean (options ≫= Options.distanceType).
Proof.
  intros drivers orders depots options warnings request Hrun.
  destruct (transform_success _ _ _ _ _ _ Hrun)
    as (_ & _ & _ & _ & _ & Hopt & _). cbv zeta in Hopt.
  set (pa := initialAnalysis drivers orders depots options) in *.
  set (pa' := if Analysis.hasWorkingHours pa
              then Analysis.set_hasTimeWindows true pa else pa) in *.
  assert (Htype : Analysis.type pa' = Analysis.type pa)
    by (unfold pa'; destruct (Analysis.hasWorkingHours pa); reflexivity).
  assert (Hlarge : Analysis.isLargeProblem pa'
                   = (1000 <? length orders)%nat || (50 <? length drivers)%nat)
    by (unfold pa'; destruct (Analysis.hasWorkingHours pa); reflexivity).
  eexists. split; [exact Hopt|].
  unfold buildApiOptions.
  cbn [objective_type timelimit use_large_size_optimization_algorithm
       allow_unassigned_visits distance_type].
  rewrite Htype, Hlarge.
  assert (Hsame : forall A (f : Options.t -> option A),
             f Options.none = None ->
             (forall opts, f (optionsWithCapacity drivers orders opts)
                           = f (default Options.none opts)) ->
             Some (optionsWithCapacity drivers orders options) ≫= f
             = options ≫= f).
  { intros A f Hnone Hf. cbn [mbind option_bind]. rewrite Hf.
    destruct options as [o|]; [reflexivity|exact Hnone]. }
  rewrite !Hsame by reflexivity.
  split; [|split; [|split; [|repeat split]]].
  - destruct (Analysis.type pa) eqn:Ht;
      try (destruct (options ≫= Options.objective) as [[]|]; reflexivity).
    apply (TSP_at_most_one_driver drivers orders depots
             (Some (optionsWithCapacity drivers orders options))) in Ht.
    destruct (Nat.ltb_spec 1 (length drivers)); [lia|].
    destruct (options ≫= Options.objective) as [[]|]; reflexivity.
  - destruct (options ≫= Options.timeLimit) as [t|]; cbn [Number];
      [|discriminate].
    now intros ->.
  - destruct (options ≫= Options.timeLimit) as [t|]; cbn [Number].
    + intros ->. destruct (Analysis.type pa);
        repeat first [apply list_elem_of_here | apply list_elem_of_further].
    + intros _. destruct (Analysis.type pa);
        repeat first [apply list_elem_of_here | apply list_elem_of_further].
Qed.

(** X12.  A returned request with the large-problem algorithm switched on is
    always sent by the solve tool through the asynchronous calls. *)
Theorem large_request_goes_async :
  forall drivers orders depots options warnings request o,
    transformToOmeletRequest today dateValue drivers orders depots options
    = (warnings, Ok request) ->
    Request.option request = Some o ->
    use_large_size_optimization_algorithm o = true ->
    SolveOptimization.handleSolveOptimization_call request = optimizeRoutesLong.
Proof.
  intros drivers orders depots options warnings request o Hrun Ho Hlarge.
  destruct (transform_success _ _ _ _ _ _ Hrun)
    as (_ & _ & _ & Hvisits & Hveh & Hopt & _). cbv zeta in *.
  set (pa := initialAnalysis drivers orders depots options) in *.
  rewrite Hopt in Ho. injection Ho as <-.
  unfold buildApiOptions in Hlarge.
  cbn [use_large_size_optimization_algorithm] in Hlarge.
  assert (Hl : (1000 <? length orders)%nat || (50 <? length drivers)%nat = true).
  { destruct (existsb _ drivers) in Hlarge; exact Hlarge. }
  apply buildVisits_length in Hvisits.
  pose proof (buildVehicles_flags today drivers pa) as (_ & _ & _ & _ & Hlen).
  rewrite <- Hveh in Hlen.
  unfold SolveOptimization.handleSolveOptimization_call,
    SolveOptimization.isLargeProblem.
  rewrite Hvisits, Hlen.
  apply orb_true_iff in Hl. destruct Hl as [Hl|Hl]; apply Nat.ltb_lt in Hl.
  - assert ((50 <? length orders)%nat = true) as -> by (apply Nat.ltb_lt; lia).
    reflexivity.
  - assert ((5 <? length drivers)%nat = true) as -> by (apply Nat.ltb_lt; lia).
    now rewrite orb_true_r.
Qed.

Lemma transform_option_bag_large drivers orders depots options warnings request :
  transformToOmeletRequest today dateValue drivers orders depots options
  = (warnings, Ok request) ->
  exists o, Request.option request = Some o
            /\ use_large_size_optimization_algorithm o
               = (1000 <? length orders)%nat || (50 <? length drivers)%nat.
Proof.
  intros Hrun.
  destruct (transform_success _ _ _ _ _ _ Hrun)
    as (_ & _ & _ & _ & _ & Hopt & _). cbv zeta in Hopt.
  eexists. split; [exact Hopt|].
  unfold buildApiOptions. cbn [use_large_size_optimization_algorithm].
  destruct (Analysis.hasWorkingHours _); reflexivity.
Qed.

End Pipeline.

(** * Further properties of the solve tool *)

Section ToolOptions.

Import JS ApiClient SolveTool.

Variable today : string.
Variable dateValue : string -> number.

Lemma getTimeLimit_truthy (intensity : Intensity) :
  truthy (getTimeLimit intensity) = true.
Proof. destruct intensity; reflexivity. Qed.

(** X13.  The classification the builder works with when it is called by the
    solve tool.  The capacity switch is the session's [vehicle_capacity]
    setting (on when there is no setting), whatever the data holds: the
    detection from the data never decides.  With the time-window setting
    on (or absent) [hasTimeWindows] is on; with both on the problem is
    always [CVRPTW]; and it is [TSP] or [Multi_Objective_CVRP] only when
    the configuration switches [vehicle_capacity] off. *)
Theorem tool_classification :
  forall (config : option OptimizationConfig)
         (optimization_intensity : option Intensity)
         (time_limit : option number) (now : string)
         (drivers : list Driver.t) (orders : list Order.t)
         (depots : list Depot.t),
    let options :=
      Some (optimizationOptions config optimization_intensity time_limit now) in
    let a := initialAnalysis drivers orders depots options in
    Analysis.hasCapacity a = default true (vehicle_capacity <$> config)
    /\ finalCapacityConstraint drivers orders options
       = default true (vehicle_capacity <$> config)
    /\ (default true (time_windows <$> config) = true ->
        Analysis.hasTimeWindows a = true)
    /\ (default true (vehicle_capacity <$> config) = true ->
        default true (time_windows <$> config) = true ->
        Analysis.type a = CVRPTW)
    /\ (Analysis.type a = TSP \/ Analysis.type a = Multi_Objective_CVRP ->
        exists c, config = Some c /\ vehicle_capacity c = false).
Proof.
  intros config intensity time_limit now drivers orders depots options a.
  assert (Hcap : Analysis.hasCapacity a = default true (vehicle_capacity <$> config))
    by reflexivity.
  assert (Htw : default true (time_windows <$> config) = true ->
                Analysis.hasTimeWindows a = true).
  { intros H. unfold a, initialAnalysis, analyzeProblemType.
    cbn [Analysis.hasTimeWindows]. cbn [mbind option_bind optionsWithCapacity
      options optimizationOptions Options.enableTimeWindowConstraint default
      from_option id]. now rewrite H. }
  pose proof (type_by_flags drivers orders depots
                (Some (optionsWithCapacity drivers orders options))) as Ht.
  cbv zeta in Ht. fold (initialAnalysis drivers orders depots options) in Ht.
  fold a in Ht. clearbody a.
  split; [exact Hcap|]. split; [reflexivity|]. split; [exact Htw|]. split.
  - intros Hc Hw. rewrite Hcap, Hc, (Htw Hw) in Ht.
    rewrite andb_false_r in Ht. cbn in Ht. now injection Ht as -> _.
  - intros Htype.
    assert (Hoff : Analysis.hasCapacity a = false).
    { destruct (Analysis.hasCapacity a); [exfalso|reflexivity].
      destruct (length drivers =? 1)%nat, (1 <? length drivers)%nat,
        (Analysis.hasTimeWindows a), (Analysis.hasWorkingHours a),
        (Analysis.hasPreferences a), (Analysis.hasDiverseVehicleTypes a),
        (Analysis.hasMultiObjective a);
        cbn in Ht; injection Ht as Ht _; destruct Htype; congruence. }
    rewrite Hoff in Hcap.
    destruct config as [c|]; [|discriminate]. exists c. split; [reflexivity|].
    cbn in Hcap. congruence.
Qed.

(** X14.  The option object of a request built for the solve tool: the
    objective is always [minsum], unassigned visits are never allowed
    (also for a large problem), the distance is euclidean, and the time
    limit is the caller's [time_limit] when that is a non-zero number and
    otherwise 30, 60 or 120 by intensity (60 without one); the builder's
    own table by problem type never applies. *)
Theorem tool_request_options :
  forall (config : option OptimizationConfig)
         (optimization_intensity : option Intensity)
         (time_limit : option number) (now : string)
         (drivers : list Driver.t) (orders : list Order.t)
         (depots : list Depot.t) (warnings : list Warning) (request : Request.t),
    transformToOmeletRequest today dateValue drivers orders depots
      (Some (optimizationOptions config optimization_intensity time_limit now))
    = (warnings, Ok request) ->
    exists o,
      Request.option request = Some o
      /\ objective_type o = minsum
      /\ allow_unassigned_visits o = false
      /\ distance_type o = euclidean
      /\ timelimit o
         = (if truthy (Number time_limit) then Number time_limit
            else getTimeLimit (default balanced optimization_intensity))
      /\ (truthy (Number time_limit) = false ->
          timelimit o ∈ [num 30; num 60; num 120]).
Proof.
  intros config intensity time_limit now drivers orders depots warnings request
         Hrun.
  destruct (transform_success _ _ _ _ _ _ _ _ Hrun)
    as (_ & _ & _ & _ & _ & Hopt & _). cbv zeta in Hopt.
  set (options := Some (optimizationOptions config intensity time_limit now)) in *.
  set (pa := initialAnalysis drivers orders depots options) in *.
  set (pa' := if Analysis.hasWorkingHours pa
              then Analysis.set_hasTimeWindows true pa else pa) in *.
  assert (Htype : Analysis.type pa' = Analysis.type pa)
    by (unfold pa'; destruct (Analysis.hasWorkingHours pa); reflexivity).
  clearbody pa'.
  assert (Hlimit : truthy (or_else (Number time_limit)
                             (getTimeLimit (default balanced intensity))) = true).
  { unfold or_else. destruct (truthy (Number time_limit)) eqn:E; [exact E|].
    apply getTimeLimit_truthy. }
  eexists. split; [exact Hopt|].
  unfold buildApiOptions.
  cbn [objective_type timelimit allow_unassigned_visits distance_type
       mbind option_bind optionsWithCapacity options optimizationOptions
       Options.objective Options.timeLimit Options.allowUnassignedVisits
       Options.distanceType default from_option id].
  rewrite Hlimit, Htype.
  split; [|split; [reflexivity|split; [reflexivity|split]]].
  - destruct (Analysis.type pa) eqn:Ht; try reflexivity.
    apply (TSP_at_most_one_driver drivers orders depots
             (Some (optionsWithCapacity drivers orders options))) in Ht.
    destruct (Nat.ltb_spec 1 (length drivers)); [lia|reflexivity].
  - reflexivity.
  - intros E. unfold or_else. rewrite E.
    destruct intensity as [[]|]; cbn;
      repeat first [apply list_elem_of_here | apply list_elem_of_further].
Qed.

End ToolOptions.

(** * Further properties of the remote calls *)

Section RemoteCalls.

Import JS ApiClient OmeletAPIClient SolveTool.



Lemma waitForCompletion_skip (maxWaitTime : number) poll rest :
  still_processing maxWaitTime poll ->
  waitForCompletion maxWaitTime (poll :: rest)
  = waitForCompletion maxWaitTime rest.
Proof.
  destruct poll as [elapsed reply]. intros [Ht (s & out & Hr & Hs)].
  cbn in Ht, Hr. subst reply. cbn. now rewrite Ht, Hs.
Qed.

Lemma waitForCompletion_prefix (maxWaitTime : number) :
  forall polls n,
    (forall k poll, (k < n)%nat -> polls !! k = Some poll ->
                    still_processing maxWaitTime poll) ->
    waitForCompletion maxWaitTime polls
    = waitForCompletion maxWaitTime (drop n polls).
Proof.
  induction polls as [|poll rest IH]; intros n Hpre.
  - now rewrite drop_nil.
  - destruct n as [|n]; [reflexivity|].
    rewrite waitForCompletion_skip by (apply (Hpre 0%nat); [lia|reflexivity]).
    cbn [drop]. apply IH. intros k poll' Hk Hl.
    apply (Hpre (S k)); [lia|exact Hl].
Qed.

(** X16.  [waitForCompletion] returns a result exactly when, after turns all
    answered "processing" before the deadline, a turn before the deadline
    is answered "completed" with a result; that result is returned
    transformed, an infeasible one included.  It ends with TIMEOUT at the
    first turn at or after the deadline that is reached, without asking
    the server again; so it ends as soon as the clock passes the
    deadline, and at once when [maxWaitTime] is NaN. *)
Theorem waitForCompletion_outcome :
  forall (maxWaitTime : number)
         (polls : list (number * Reply CheckRoutingEngineOutput)),
    (forall p,
        waitForCompletion maxWaitTime polls = Some (Ok p)
        <-> exists n elapsed s out r,
              polls !! n = Some (elapsed, Replied s out)
              /\ lt elapsed maxWaitTime = true
              /\ check_status out = completed
              /\ check_result out = Some r
              /\ p = transformOmeletResponse r
              /\ forall k poll, (k < n)%nat -> polls !! k = Some poll ->
                                still_processing maxWaitTime poll)
    /\ (forall n elapsed reply,
           polls !! n = Some (elapsed, reply) ->
           lt elapsed maxWaitTime = false ->
           (forall k poll, (k < n)%nat -> polls !! k = Some poll ->
                           still_processing maxWaitTime poll) ->
           waitForCompletion maxWaitTime polls = Some (throw "TIMEOUT"))
    /\ (Exists (fun poll => lt poll.1 maxWaitTime = false) polls ->
        waitForCompletion maxWaitTime polls <> None)
    /\ (isNaN maxWaitTime = true -> polls <> [] ->
        waitForCompletion maxWaitTime polls = Some (throw "TIMEOUT")).
Proof.
  intros maxWaitTime polls. split; [|split; [|split]].
  - intros p. split.
    + induction polls as [|[elapsed reply] rest IH]; [discriminate|].
      cbn. destruct (lt elapsed maxWaitTime) eqn:Ht; [|discriminate].
      destruct reply as [s out|error]; cbn; [|discriminate].
      destruct (check_status out) eqn:Hs.
      * intros H. destruct (IH H) as (n & e & s' & out' & r & Hn & Hrest).
        exists (S n), e, s', out', r. split; [exact Hn|].
        destruct Hrest as (? & ? & ? & ? & Hpre).
        do 4 (split; [assumption|]).
        intros [|k] poll Hk Hl.
        -- injection Hl as <-. split; [exact Ht|eauto].
        -- apply (Hpre k); [lia|exact Hl].
      * destruct (check_result out) as [r|] eqn:Hr; [|discriminate].
        intros [= <-]. exists 0%nat, elapsed, s, out, r.
        do 5 (split; [reflexivity || assumption|]). intros; lia.
      * discriminate.
    + intros (n & elapsed & s & out & r & Hn & Ht & Hs & Hr & -> & Hpre).
      rewrite (waitForCompletion_prefix maxWaitTime polls n Hpre).
      rewrite (drop_S _ _ _ Hn). cbn. now rewrite Ht, Hs, Hr.
  - intros n elapsed reply Hn Ht Hpre.
    rewrite (waitForCompletion_prefix maxWaitTime polls n Hpre).
    rewrite (drop_S _ _ _ Hn). cbn. now rewrite Ht.
  - induction 1 as [[elapsed reply] rest Hlate|[elapsed reply] rest _ IH]; cbn.
    + cbn in Hlate. now rewrite Hlate.
    + destruct (lt elapsed maxWaitTime); [|discriminate].
      destruct reply as [s out|error]; cbn; [|discriminate].
      destruct (check_status out); [exact IH| |discriminate].
      destruct (check_result out); discriminate.
  - intros Hnan Hne. destruct polls as [|[elapsed reply] rest]; [congruence|].
    cbn. destruct maxWaitTime; try discriminate.
    assert (lt elapsed NaN = false) as -> by (destruct elapsed; reflexivity).
    reflexivity.
Qed.


(** X18.  Validating a transformed response never finds an issue.  There is
    one warning for the status "feasible with unassigned visits" (it
    quotes the number of unassigned names of the raw response) or "time
    limit exceeded", and one more, the last, when the raw response has no
    route: at most two, and none for any other status with a route. *)
Theorem validateResponse_of_transform :
  forall response : Response.t,
    let v := validateResponse (transformOmeletResponse response) in
    let raw := Response.routing_engine_result response in
    isValid v = true /\ issues v = []
    /\ length (warnings v)
       = ((match Response.status response with
           | feasible_with_unassigned_visits | time_limit_exceeded => 1
           | _ => 0
           end)
          + (match EngineResult.routes raw with [] => 1 | _ => 0 end))%nat
    /\ (Response.status response = feasible_with_unassigned_visits ->
        head (warnings v)
        = Some (pretty (length (EngineResult.unassigned_visit_names raw))
                ++ "개의 주문이 할당되지 않았습니다"))
    /\ (Response.status response = time_limit_exceeded ->
        head (warnings v) = Some "시간 제한으로 인해 최적이 아닐 수 있습니다")
    /\ (EngineResult.routes raw = [] ->
        last (warnings v) = Some "생성된 경로가 없습니다")
    /\ (warnings v = []
        <-> Response.status response <> feasible_with_unassigned_visits
            /\ Response.status response <> time_limit_exceeded
            /\ EngineResult.routes raw <> []).
Proof.
  intros response v raw. subst v raw.
  unfold validateResponse, transformOmeletResponse.
  cbn [isValid issues warnings Processed.status Processed.routes
       Processed.unassigned_visits].
  rewrite length_map.
  destruct (EngineResult.routes (Response.routing_engine_result response))
    as [|route routes]; cbn [length Nat.eqb];
    destruct (Response.status response); cbn [app length Nat.add head last];
    (split; [reflexivity|]); (split; [reflexivity|]); (split; [reflexivity|]);
    (split; [intros; reflexivity || discriminate|]);
    (split; [intros; reflexivity || discriminate|]);
    (split; [intros; reflexivity || discriminate|]);
    (split; [discriminate || (intros _; repeat split; discriminate)
            |intros (? & ? & ?); reflexivity || congruence]).
Qed.

End RemoteCalls.

(** * Further properties of the configuration *)

Section Configuration.

Import ApiConfig SolveOptimization.

(** X19.  The timeout follows the order count alone, the endpoint also the
    vehicle count: the long timeout always comes with the long endpoint,
    but 20 or more vehicles with fewer than 100 orders get the long
    endpoint with the standard timeout.  Whatever [selectEndpoint] would
    send to the long endpoint, the solve tool sends through its
    asynchronous calls. *)
Theorem selectTimeout_selectEndpoint :
  forall orderCount vehicleCount : Z,
    (selectTimeout orderCount = LONG_RUNNING <-> (100 <= orderCount)%Z)
    /\ (selectTimeout orderCount = LONG_RUNNING ->
        selectEndpoint orderCount vehicleCount = VRP_LONG)
    /\ (selectEndpoint orderCount vehicleCount = VRP_LONG
        /\ selectTimeout orderCount = STANDARD
        <-> (orderCount < 100)%Z /\ (20 <= vehicleCount)%Z)
    /\ (forall omeletRequest : Request.t,
           orderCount = Z.of_nat (length (Request.visits omeletRequest)) ->
           vehicleCount = Z.of_nat (length (Request.vehicles omeletRequest)) ->
           selectEndpoint orderCount vehicleCount = VRP_LONG ->
           handleSolveOptimization_call omeletRequest
           = ApiClient.optimizeRoutesLong).
Proof.
  intros orderCount vehicleCount. unfold selectTimeout, selectEndpoint.
  unfold LONG_RUNNING, STANDARD, VRP_LONG, VRP.
  split; [|split; [|split]].
  - destruct (Z.leb_spec 100 orderCount) as [Ho|Ho]; split; intros H;
      try reflexivity; try assumption; try discriminate H; lia.
  - destruct (Z.leb_spec 100 orderCount) as [Ho|Ho]; [reflexivity|discriminate].
  - destruct (Z.leb_spec 100 orderCount) as [Ho|Ho],
             (Z.leb_spec 20 vehicleCount) as [Hv|Hv];
      cbn [orb]; split; intros [H1 H2];
      try discriminate H1; try discriminate H2; try lia;
      split; reflexivity || assumption.
  - intros omeletRequest -> -> H. apply tool_dispatch_large.
    destruct (Z.leb_spec 100 (Z.of_nat (length (Request.visits omeletRequest))))
      as [Ho|Ho]; [lia|].
    destruct (Z.leb_spec 20 (Z.of_nat (length (Request.vehicles omeletRequest))))
      as [Hv|Hv]; [lia|discriminate H].
Qed.

End Configuration.

(** * Further properties of the session manager *)

Section SessionStore.

Import ProjectSession SessionManager.

Lemma saveSession_insert (now : string) (s : ProjectSession.t)
    (files : gmap string ProjectSession.t) :
  saveSession now s files = <[id s := saved_at now s]> files.
Proof. reflexivity. Qed.

(** X20.  Saving and loading.  A saved session is loaded back as it was, with
    [updated_at] set to the time of the save; the other sessions are not
    touched; saving at the same instant what was loaded back changes
    nothing; and a well-formed directory stays well-formed when a
    coherent session is saved. *)
Theorem session_save_load :
  forall (now : string) (s : ProjectSession.t)
         (files : gmap string ProjectSession.t),
    loadSession (id s) (saveSession now s files) = Some (saved_at now s)
    /\ (forall k, k <> id s ->
                  loadSession k (saveSession now s files) = loadSession k files)
    /\ saveSession now (saved_at now s) (saveSession now s files)
       = saveSession now s files
    /\ (store_ok files -> consistent s -> store_ok (saveSession now s files)).
Proof.
  intros now s files. rewrite !saveSession_insert. unfold loadSession.
  split; [apply lookup_insert_eq|].
  split; [intros k Hk; now apply lookup_insert_ne|].
  split; [apply insert_insert_eq|].
  intros Hok Hs k s' Hl.
  destruct (decide (k = id s)) as [->|Hk].
  - rewrite lookup_insert_eq in Hl. injection Hl as <-. split; [reflexivity|].
    exact Hs.
  - rewrite lookup_insert_ne in Hl by congruence. now apply Hok.
Qed.

(** X21.  [deleteSession] reports whether there was a session to delete.
    Afterwards that session cannot be loaded, deleting it again reports
    false, completing one of its steps fails, and every other session is
    still there. *)
Theorem deleteSession_outcome :
  forall (now : string) (k : string) (step : WorkflowStep)
         (files : gmap string ProjectSession.t),
    let files' := (deleteSession k files).2 in
    ((deleteSession k files).1 = true <-> is_Some (loadSession k files))
    /\ loadSession k files' = None
    /\ (deleteSession k files').1 = false
    /\ completeStep now k step files' = None
    /\ (forall k', k' <> k -> loadSession k' files' = loadSession k' files)
    /\ (store_ok files -> store_ok files').
Proof.
  intros now k step files files'. subst files'.
  unfold deleteSession, completeStep, loadSession.
  destruct (files !! k) as [s|] eqn:Hk; cbn [fst snd].
  - rewrite lookup_delete_eq. split; [split; eauto|].
    do 3 (split; [reflexivity|]).
    split; [intros k' Hk'; now apply lookup_delete_ne|].
    intros Hok k' s' Hl. destruct (decide (k' = k)) as [->|Hne].
    + now rewrite lookup_delete_eq in Hl.
    + rewrite lookup_delete_ne in Hl by congruence. now apply Hok.
  - rewrite Hk. split; [split; [discriminate|intros [? ?]; discriminate]|].
    do 3 (split; [reflexivity|]). split; [reflexivity|auto].
Qed.

Lemma indexOf_keys_range (step : WorkflowStep) :
  (0 <= indexOf keys step <= 6)%Z.
Proof. destruct step; vm_compute; split; discriminate. Qed.

(** The session [completeStep] writes. *)
Lemma completeStep_writes (now k : string) (step : WorkflowStep)
    (files : gmap string ProjectSession.t) (s : ProjectSession.t) :
  files !! k = Some s ->
  exists s',
    completeStep now k step files = Some (<[id s := s']> files)
    /\ id s' = id s /\ name s' = name s /\ created_at s' = created_at s
    /\ updated_at s' = now /\ data_status s' = data_status s
    /\ config s' = config s /\ last_result s' = last_result s
    /\ files_processed s' = files_processed s
    /\ steps_completed s'
       = (if bool_decide (step ∈ steps_completed s) then steps_completed s
          else steps_completed s ++ [step])%list
    /\ current_step s' = Z.max (current_step s) (indexOf keys step + 1).
Proof.
  intros Hk. unfold completeStep, loadSession. rewrite Hk.
  generalize (indexOf keys step) as stepIndex. intros stepIndex.
  eexists. split; [reflexivity|].
  cbn [id name created_at updated_at data_status config last_result
       files_processed steps_completed current_step].
  repeat split.
  destruct (Z.leb_spec (current_step s) stepIndex); lia.
Qed.

(** X22.  [completeStep] fails exactly when the session cannot be loaded.
    Otherwise it rewrites that one session file and no other: the step is
    recorded, the steps completed before are kept in their order with at
    most one added at the end, [updated_at] is the time of the call, and
    the name, the creation time, the data status, the configuration, the
    last result and the processed files are unchanged. *)
Theorem completeStep_frame :
  forall (now k : string) (step : WorkflowStep)
         (files : gmap string ProjectSession.t),
    (completeStep now k step files = None <-> loadSession k files = None)
    /\ forall s,
         files !! k = Some s -> id s = k ->
         exists s',
           completeStep now k step files = Some (<[k := s']> files)
           /\ id s' = k /\ name s' = name s /\ created_at s' = created_at s
           /\ updated_at s' = now /\ data_status s' = data_status s
           /\ config s' = config s /\ last_result s' = last_result s
           /\ files_processed s' = files_processed s
           /\ step ∈ steps_completed s'
           /\ steps_completed s `prefix_of` steps_completed s'
           /\ (length (steps_completed s')
               <= S (length (steps_completed s)))%nat.
Proof.
  intros now k step files. split.
  - unfold completeStep, loadSession.
    destruct (files !! k); split; congruence.
  - intros s Hk Hid.
    destruct (completeStep_writes now k step files s Hk)
      as (s' & Hrun & Hi & Hn & Hc & Hu & Hd & Hco & Hl & Hf & Hs & _).
    rewrite Hid in Hrun, Hi. exists s'.
    do 9 (split; [assumption|]). rewrite Hs.
    destruct (bool_decide (step ∈ steps_completed s)) eqn:E.
    + apply bool_decide_eq_true_1 in E. split; [exact E|]. split; [|lia].
      reflexivity.
    + split; [apply elem_of_app; right; apply list_elem_of_here|].
      split; [now apply prefix_app_r|]. rewrite length_app. cbn. lia.
Qed.

(** X23.  Completing the same step a second time at the same instant changes
    nothing in the session directory. *)
Theorem completeStep_idempotent :
  forall (now k : string) (step : WorkflowStep)
         (files files' : gmap string ProjectSession.t) (s : ProjectSession.t),
    files !! k = Some s -> id s = k ->
    completeStep now k step files = Some files' ->
    completeStep now k step files' = Some files'.
Proof.
  intros now k step files files' s Hk Hid Hrun.
  destruct (completeStep_writes now k step files s Hk)
    as (s' & Hrun' & Hi & Hn & Hc & Hu & Hd & Hco & Hl & Hf & Hs & Hcur).
  rewrite Hrun in Hrun'. injection Hrun' as ->. rewrite Hid.
  assert (Hin : step ∈ steps_completed s').
  { rewrite Hs. destruct (bool_decide (step ∈ steps_completed s)) eqn:E.
    - now apply bool_decide_eq_true_1 in E.
    - apply elem_of_app. right. apply list_elem_of_here. }
  unfold completeStep, loadSession. rewrite lookup_insert_eq.
  rewrite (bool_decide_eq_true_2 _ Hin).
  destruct (Z.leb_spec (current_step s') (indexOf keys step)) as [Hle|Hgt];
    [lia|].
  rewrite saveSession_insert. cbn [id]. rewrite Hi, Hid, insert_insert_eq.
  do 2 f_equal. unfold saved_at.
  clear Hrun Hn Hc Hd Hco Hl Hf Hs Hcur Hin Hgt Hk.
  destruct s'; cbn in *; subst; reflexivity.
Qed.

Lemma consistent_after_step (now k : string) (step : WorkflowStep)
    (files : gmap string ProjectSession.t) (s : ProjectSession.t) :
  files !! k = Some s -> consistent s ->
  exists s',
    completeStep now k step files = Some (<[id s := s']> files)
    /\ id s' = id s /\ consistent s'.
Proof.
  intros Hk (Hnd & Hidx & Hcur).
  destruct (completeStep_writes now k step files s Hk)
    as (s' & Hrun & Hi & _ & _ & _ & _ & _ & _ & _ & Hs & Hc).
  exists s'. split; [exact Hrun|]. split; [exact Hi|].
  pose proof (indexOf_keys_range step) as Hr.
  unfold consistent. rewrite Hs, Hc. split; [|split; [|lia]].
  - destruct (bool_decide (step ∈ steps_completed s)) eqn:E; [exact Hnd|].
    apply bool_decide_eq_false_1 in E. apply NoDup_app.
    split; [exact Hnd|]. split; [|apply NoDup_singleton].
    intros x Hx Hx'. apply list_elem_of_singleton in Hx'. now subst x.
  - intros st Hst.
    assert (Hcase : st ∈ steps_completed s \/ st = step).
    { destruct (bool_decide (step ∈ steps_completed s)); [now left|].
      apply elem_of_app in Hst. destruct Hst as [Hst|Hst]; [now left|].
      right. now apply list_elem_of_singleton in Hst. }
    destruct Hcase as [Hst'| ->]; [specialize (Hidx st Hst')|]; lia.
Qed.

(** X24.  Coherence is an invariant of the session directory.  A new session
    is coherent, and creating a session, completing a step and deleting a
    session each take a well-formed directory to a well-formed one. *)
Theorem store_invariant :
  forall (files : gmap string ProjectSession.t),
    store_ok files ->
    (forall uuid name localDate createdAt now active,
        let created :=
          createSession uuid name localDate createdAt now
            {| session_files := files; activeSessionId := active |} in
        consistent created.1 /\ store_ok (session_files created.2))
    /\ (forall now k step files',
           completeStep now k step files = Some files' -> store_ok files')
    /\ (forall k, store_ok (deleteSession k files).2).
Proof.
  intros files Hok. split; [|split].
  - intros uuid name localDate createdAt now active created. subst created.
    assert (Hnew : forall t, consistent
              (mk uuid (ApiClient.str_or name ("프로젝트_" ++ localDate))
                  createdAt t 0 []
                  {| drivers_loaded := false; orders_loaded := false;
                     depots_loaded := false; validation_passed := false |}
                  None None [])).
    { intros t. split; [constructor|]. split; [|cbn; lia].
      intros st Hst. now apply not_elem_of_nil in Hst. }
    split; [apply Hnew|].
    unfold createSession. cbn [snd session_files setActiveSession].
    rewrite saveSession_insert. cbn [id]. intros k s Hl.
    destruct (decide (k = uuid)) as [->|Hne].
    + rewrite lookup_insert_eq in Hl. injection Hl as <-.
      split; [reflexivity|apply Hnew].
    + rewrite lookup_insert_ne in Hl by congruence. now apply Hok.
  - intros now k step files' Hrun.
    destruct (files !! k) as [s|] eqn:Hk.
    + destruct (Hok k s Hk) as [Hid Hs].
      destruct (consistent_after_step now k step files s Hk Hs)
        as (s' & Hrun' & Hi & Hs').
      rewrite Hrun in Hrun'. injection Hrun' as ->.
      intros k' s'' Hl. destruct (decide (k' = id s)) as [->|Hne].
      * rewrite lookup_insert_eq in Hl. injection Hl as <-. auto.
      * rewrite lookup_insert_ne in Hl by congruence. now apply Hok.
    + unfold completeStep, loadSession in Hrun. rewrite Hk in Hrun.
      discriminate.
  - intros k. unfold deleteSession.
    destruct (files !! k) as [s|] eqn:Hk; cbn [snd]; [|exact Hok].
    intros k' s' Hl. destruct (decide (k' = k)) as [->|Hne].
    + now rewrite lookup_delete_eq in Hl.
    + rewrite lookup_delete_ne in Hl by congruence. now apply Hok.
Qed.

Lemma current_step_cases (s : ProjectSession.t) :
  (0 <= current_step s <= 7)%Z ->
  exists i : nat, (i <= 7)%nat /\ current_step s = Z.of_nat i.
Proof. intros H. exists (Z.to_nat (current_step s)). lia. Qed.

(** X25.  The step a coherent session advertises as next is the one at its
    current position and is never a step the session has completed;
    there is none exactly when the current position is past the last
    step, which is the case once [export_results] is completed. *)
Theorem getNextStep_of_consistent :
  forall s : ProjectSession.t,
    consistent s ->
    (forall g, getNextStep s = Some g ->
               indexOf keys (step g) = current_step s
               /\ (step g ∉ steps_completed s)
               /\ guide (step g) = Some g)
    /\ (getNextStep s = None <-> current_step s = 7%Z)
    /\ (export_results ∈ steps_completed s -> getNextStep s = None).
Proof.
  intros s (Hnd & Hidx & Hcur).
  destruct (current_step_cases s Hcur) as (i & Hi & Hc).
  rewrite (getNextStep_at s i Hc).
  assert (Hstep : forall g, (if (7 <=? i)%nat then None
                             else snd <$> WORKFLOW_GUIDES !! i) = Some g ->
                            indexOf keys (step g) = Z.of_nat i
                            /\ guide (step g) = Some g).
  { do 7 (destruct i as [|i]; [intros g [= <-]; split; reflexivity|]).
    destruct i; [discriminate|lia]. }
  split; [|split].
  - intros g Hg. destruct (Hstep g Hg) as [Hix Hgd]. rewrite Hc.
    split; [exact Hix|]. split; [|exact Hgd].
    intros Hin. specialize (Hidx _ Hin). lia.
  - rewrite Hc. do 7 (destruct i as [|i]; [split; [discriminate|lia]|]).
    destruct i; [split; reflexivity|lia].
  - intros Hin. specialize (Hidx _ Hin).
    change (indexOf keys export_results) with 6%Z in Hidx.
    assert (i = 7%nat) as -> by lia. reflexivity.
Qed.

Lemma all_steps_are_keys (st : WorkflowStep) : st ∈ keys.
Proof.
  destruct st; cbn;
    repeat first [apply list_elem_of_here | apply list_elem_of_further].
Qed.

Lemma NoDup_keys : NoDup keys.
Proof. apply (bool_decide_unpack _). vm_compute. exact I. Qed.

(** X26.  Progress of a session without repeated steps: at most 7 of 7 steps,
    a percentage between 0 and 100, 100 exactly when every step is
    completed and 0 exactly when none is. *)
Theorem getProgress_bounds :
  forall s : ProjectSession.t,
    NoDup (steps_completed s) ->
    let p := getProgress s in
    total p = 7%nat /\ (completed p <= total p)%nat
    /\ JS.ge (percentage p) (JS.num 0) = true
    /\ JS.ge (JS.num 100) (percentage p) = true
    /\ (percentage p = JS.num 100 <-> forall st, st ∈ steps_completed s)
    /\ (percentage p = JS.num 0 <-> steps_completed s = []).
Proof.
  intros s Hnd p. subst p. unfold getProgress.
  cbn [total completed percentage].
  assert (Hsub : steps_completed s ⊆+ keys).
  { apply NoDup_submseteq; [exact Hnd|]. intros st _. apply all_steps_are_keys. }
  pose proof (submseteq_length _ _ Hsub) as Hlen.
  change (length keys) with 7%nat in *.
  assert (Hall : length (steps_completed s) = 7%nat
                 <-> forall st, st ∈ steps_completed s).
  { split.
    - intros H7 st.
      assert (Hp : steps_completed s ≡ₚ keys)
        by (apply submseteq_length_Permutation; [exact Hsub|]; cbn; lia).
      rewrite Hp. apply all_steps_are_keys.
    - intros Hin.
      assert (Hsup : keys ⊆+ steps_completed s)
        by (apply NoDup_submseteq; [apply NoDup_keys|]; intros st _; apply Hin).
      apply submseteq_length in Hsup. cbn in Hsup. lia. }
  assert (Hnone : length (steps_completed s) = 0%nat <-> steps_completed s = []).
  { destruct (steps_completed s); cbn; split; congruence. }
  rewrite <- Hall, <- Hnone.
  destruct (length (steps_completed s)) as [|[|[|[|[|[|[|[|n]]]]]]]]; [..|lia];
    (split; [reflexivity|]); (split; [lia|]);
    (split; [reflexivity|]); (split; [reflexivity|]);
    split; split; intros H; try discriminate H; try reflexivity; try lia.
Qed.

(** X27.  The active session.  Creating a session makes it the active one,
    and [getActiveSession] then returns it as it was saved; clearing
    leaves no active session; a session made active is found only when
    its file exists, so after the active session is deleted
    [getActiveSession] returns nothing although the marker still names
    it; and creating a session leaves the files of the others alone. *)
Theorem active_session :
  forall (store : Store),
    (forall uuid name localDate createdAt now,
        uuid <> "" ->
        let created := createSession uuid name localDate createdAt now store in
        getActiveSession created.2 = Some created.1
        /\ id created.1 = uuid
        /\ forall k, k <> uuid ->
                     session_files created.2 !! k = session_files store !! k)
    /\ getActiveSession (clearActiveSession store) = None
    /\ (forall k, k <> "" ->
                  getActiveSession (setActiveSession k store)
                  = loadSession k (session_files store))
    /\ (forall k,
           getActiveSession
             {| session_files := (deleteSession k (session_files store)).2;
                activeSessionId := Some k |} = None).
Proof.
  intros store. split; [|split; [reflexivity|split]].
  - intros uuid name localDate createdAt now Hne created. subst created.
    unfold createSession, getActiveSession.
    cbn [fst snd setActiveSession activeSessionId session_files id].
    apply String.eqb_neq in Hne. rewrite Hne, saveSession_insert.
    cbn [id]. rewrite lookup_insert_eq.
    split; [reflexivity|]. split; [reflexivity|].
    intros k Hk. now apply lookup_insert_ne.
  - intros k Hk. unfold getActiveSession, setActiveSession.
    cbn [activeSessionId session_files].
    apply String.eqb_neq in Hk. now rewrite Hk.
  - intros k. unfold getActiveSession. cbn [activeSessionId session_files].
    destruct (String.eqb k ""); [reflexivity|].
    unfold deleteSession. destruct (session_files store !! k) eqn:Hk; cbn [snd].
    + apply lookup_delete_eq.
    + exact Hk.
Qed.

End SessionStore.

Section ToolSession.

Import ProjectSession SessionManager SolveTool.

(** X28.  Storing the result of a run.  For a session loaded from the
    directory, [storeResult] rewrites that session file alone: the
    result becomes its [last_result], [solve_optimization] is among its
    completed steps, its current step is at least 4, and a session that
    was at step 4 or before is told to analyze the results next. *)
Theorem storeResult_outcome :
  forall (now k : string) (s : ProjectSession.t) (result : Processed.t)
         (files : gmap string ProjectSession.t),
    files !! k = Some s -> id s = k ->
    exists s',
      storeResult now k s result files = Some (<[k := s']> files)
      /\ last_result s' = Some result
      /\ solve_optimization ∈ steps_completed s'
      /\ current_step s' = Z.max (current_step s) 4
      /\ updated_at s' = now
      /\ config s' = config s /\ data_status s' = data_status s
      /\ ((0 <= current_step s <= 4)%Z ->
          getNextStep s' = guide analyze_results).
Proof.
  intros now k s result files Hk Hid. unfold storeResult.
  rewrite saveSession_insert. cbn [id]. rewrite Hid.
  set (s1 := saved_at now _).
  destruct (completeStep_writes now k solve_optimization
              (<[k := s1]> files) s1 (lookup_insert_eq _ _ _))
    as (s' & Hrun & Hi & _ & _ & Hu & Hd & Hco & Hl & _ & Hs & Hc).
  exists s'. change (id s1) with k in Hrun.
  rewrite insert_insert_eq in Hrun.
  split; [exact Hrun|]. split; [exact Hl|]. split.
  { rewrite Hs. destruct (bool_decide _) eqn:E.
    - now apply bool_decide_eq_true_1 in E.
    - apply elem_of_app. right. apply list_elem_of_here. }
  split; [exact Hc|]. split; [exact Hu|]. split; [exact Hco|].
  split; [exact Hd|].
  intros Hcur. change (current_step s1) with (current_step s) in Hc.
  change (indexOf keys solve_optimization + 1)%Z with 4%Z in Hc.
  rewrite (getNextStep_at s' 4); [reflexivity|]. lia.
Qed.

End ToolSession.

(** * Further properties of the vehicles and of the capacity warning *)

Section VehicleShifts.

Import JS ApiClient.

Variable today : string.

Lemma includes_append (a b sub : string) :
  String.prefix sub b = true -> includes (a ++ b) sub = true.
Proof.
  intros H. induction a as [|c a IH].
  - change ("" ++ b) with b. destruct b; cbn [includes]; now rewrite H.
  - change (String c a ++ b) with (String c (a ++ b)). cbn [includes].
    rewrite IH. apply orb_true_r.
Qed.

Lemma work_time_marked (bound : option string) (t : string) :
  work_time today bound = Some t ->
  includes t "T" || includes t "+" || includes t "Z" = true.
Proof.
  unfold work_time. destruct bound as [b|]; [|discriminate].
  destruct (truthy_str (Some b)); [|discriminate].
  destruct (includes b "+" || includes b "Z") eqn:Ez.
  - intros [= <-]. apply orb_true_iff in Ez.
    destruct Ez as [-> | ->]; [now rewrite orb_true_r|apply orb_true_r].
  - destruct (includes b "T") eqn:Et; intros [= <-].
    + now rewrite Et.
    + rewrite includes_append; [reflexivity|].
      change ("T" ++ b ++ ":00Z") with (String "T" (b ++ ":00Z")).
      destruct (b ++ ":00Z"); reflexivity.
Qed.

Lemma work_time_defined (bound : option string) :
  defined (work_time today bound) = truthy_str bound.
Proof.
  unfold work_time. destruct bound as [b|]; [|reflexivity].
  destruct (truthy_str (Some b)); [|reflexivity].
  destruct (includes b "+" || includes b "Z"); [reflexivity|].
  destruct (includes b "T"); reflexivity.
Qed.

(** X29.  Working hours and preferences of a built vehicle.  Without the
    working-hours flag a vehicle has no work times; with it a work time
    is present exactly when the driver has a non-empty bound, and it
    always holds a [T], a [+] or a [Z] (a bare time of day is prefixed
    with today's date).  A preference list is only given under the
    preference flag, holds between one and four numbers, and is left out
    rather than given empty. *)
Theorem buildVehicles_shifts_and_preferences :
  forall (drivers : list Driver.t) (pa : Analysis.t) (j : nat)
         (d : Driver.t) (v : Vehicle.t),
    drivers !! j = Some d ->
    (buildVehicles today drivers pa).1 !! j = Some v ->
    (if Analysis.hasWorkingHours pa
     then defined (Vehicle.work_start_time v)
          = truthy_str (Driver.working_hours_start d)
          /\ defined (Vehicle.work_end_time v)
             = truthy_str (Driver.working_hours_end d)
          /\ (forall t,
                 Vehicle.work_start_time v = Some t
                 \/ Vehicle.work_end_time v = Some t ->
                 includes t "T" || includes t "+" || includes t "Z" = true)
     else Vehicle.work_start_time v = None /\ Vehicle.work_end_time v = None)
    /\ (forall ps, Vehicle.visit_preference v = Some ps ->
                   Analysis.hasPreferences pa = true
                   /\ (1 <= length ps <= 4)%nat)
    /\ (Vehicle.visit_preference v = None ->
        Analysis.hasPreferences pa = false
        \/ (Driver.visit_preference_1 d = None
            /\ Driver.visit_preference_2 d = None
            /\ Driver.visit_preference_3 d = None
            /\ Driver.visit_preference_4 d = None)).
Proof.
  intros drivers pa j d v Hd Hv.
  rewrite buildVehicles_lookup, Hd in Hv. injection Hv as <-.
  unfold buildVehicle.
  cbn [fst Vehicle.work_start_time Vehicle.work_end_time
       Vehicle.visit_preference].
  split; [|split].
  - destruct (Analysis.hasWorkingHours pa); [|auto].
    split; [apply work_time_defined|]. split; [apply work_time_defined|].
    intros t [Ht|Ht]; eapply work_time_marked; exact Ht.
  - intros ps.
    assert (Hps : Analysis.hasPreferences
                    (if Analysis.hasWorkingHours pa
                     then Analysis.set_hasTimeWindows true pa else pa)
                  = Analysis.hasPreferences pa)
      by (destruct (Analysis.hasWorkingHours pa); reflexivity).
    rewrite Hps. destruct (Analysis.hasPreferences pa); [|discriminate].
    destruct (Driver.visit_preference_1 d), (Driver.visit_preference_2 d),
      (Driver.visit_preference_3 d), (Driver.visit_preference_4 d);
      cbn; intros [= <-]; cbn; (split; [reflexivity|lia]).
  - assert (Hps : Analysis.hasPreferences
                    (if Analysis.hasWorkingHours pa
                     then Analysis.set_hasTimeWindows true pa else pa)
                  = Analysis.hasPreferences pa)
      by (destruct (Analysis.hasWorkingHours pa); reflexivity).
    rewrite Hps. destruct (Analysis.hasPreferences pa); [|auto].
    destruct (Driver.visit_preference_1 d), (Driver.visit_preference_2 d),
      (Driver.visit_preference_3 d), (Driver.visit_preference_4 d);
      cbn; intros H; try discriminate H. auto.
Qed.

End VehicleShifts.

Section CapacityWarning.

Import JS ApiClient.

Variable today : string.
Variable dateValue : string -> number.

Lemma add_nonneg (a b : number) :
  ge a (num 0) = true -> ge b (num 0) = true -> ge (add a b) (num 0) = true.
Proof.
  destruct a as [| |p|], b as [| |q|]; try discriminate; try reflexivity.
  unfold num. rewrite !ge_Fin. cbn [add]. rewrite ge_Fin.
  intros Hp Hq. change (inject_Z 0) with (0 + 0)%Q.
  now apply Qplus_le_compat.
Qed.

Lemma sum_nonneg {A} (f : A -> number) (l : list A) :
  forall acc,
    ge acc (num 0) = true ->
    Forall (fun x => ge (f x) (num 0) = true) l ->
    ge (fold_left (fun sum x => add sum (f x)) l acc) (num 0) = true.
Proof.
  induction l as [|x l IH]; intros acc Hacc Hl; [exact Hacc|].
  cbn [fold_left]. apply IH.
  - apply add_nonneg; [exact Hacc|]. now apply Forall_inv in Hl.
  - now apply Forall_inv_tail in Hl.
Qed.

Lemma sum_zero {A} (f : A -> number) (l : list A) :
  forall acc,
    ge (num 0) acc = true ->
    Forall (fun x => f x = num 0) l ->
    ge (num 0) (fold_left (fun sum x => add sum (f x)) l acc) = true.
Proof.
  induction l as [|x l IH]; intros acc Hacc Hl; [exact Hacc|].
  cbn [fold_left]. apply IH; [|now apply Forall_inv_tail in Hl].
  apply Forall_inv in Hl. rewrite Hl.
  destruct acc as [| |p|]; try discriminate; try reflexivity.
  unfold num in *. rewrite ge_Fin in Hacc. cbn [add]. rewrite ge_Fin.
  rewrite Qplus_0_r. exact Hacc.
Qed.

Lemma not_above (demand capacity : number) :
  ge (num 0) demand = true -> ge capacity (num 0) = true ->
  gt demand capacity = false.
Proof.
  destruct demand as [| |d|], capacity as [| |c|];
    try discriminate; try reflexivity.
  unfold num. rewrite !ge_Fin. intros Hd Hc.
  destruct (gt (Fin d) (Fin c)) eqn:E; [|reflexivity].
  apply lt_Fin in E. exfalso.
  apply (Qlt_irrefl c). eapply Qlt_le_trans; [exact E|].
  eapply Qle_trans; eassumption.
Qed.

Lemma weight_without_demand (w : number) :
  gt w (num 0) = false ->
  Math_max (num 0) (or_else w (num 0)) = num 0.
Proof.
  intros Hw. unfold or_else.
  destruct w as [| |q|]; try reflexivity; try discriminate.
  cbn [truthy]. destruct (Qeq_bool q 0) eqn:Ez; cbn [negb]; [reflexivity|].
  unfold Math_max, num. cbn [cmp].
  destruct (Qcompare_spec (inject_Z 0) q) as [E|E|E]; try reflexivity.
  apply lt_Fin in E. unfold gt, num in Hw. congruence.
Qed.

Lemma demand_zero orders pa visits :
  buildVisits today orders pa = Ok visits ->
  Analysis.hasCapacity pa = true ->
  Forall (fun o => positive (Order.weight o) = false) orders ->
  Forall (fun v => or_else (Number (Visit.weight v)) (num 0) = num 0) visits.
Proof.
  intros Hb Hcap Hnone. apply map_indexed_Forall2 in Hb.
  induction Hb as [|o v os vs [j Hv] _ IH]; constructor.
  - apply Forall_inv in Hnone. unfold buildVisit in Hv.
    destruct (invalid_coordinates _ _); [discriminate|].
    injection Hv as <-. cbn [Visit.weight]. rewrite Hcap.
    cbn [Number]. now rewrite weight_without_demand.
  - apply IH. now apply Forall_inv_tail in Hnone.
Qed.

Lemma capacity_nonneg drivers pa :
  Analysis.hasCapacity pa = true ->
  Forall (fun v => ge (or_else (Number (Vehicle.weight_capacity v)) (num 0))
                      (num 0) = true)
         (buildVehicles today drivers pa).1.
Proof.
  intros Hcap. apply Forall_lookup. intros j v Hv.
  rewrite buildVehicles_lookup in Hv.
  destruct (drivers !! j) as [d|]; [|discriminate]. injection Hv as <-.
  unfold buildVehicle. cbn [fst Vehicle.weight_capacity]. rewrite Hcap.
  cbn [Number].
  pose proof (floor_at_one (Number (Driver.capacity d))) as H1.
  cbn [at_least] in H1.
  unfold or_else at 1. destruct (truthy _); [|reflexivity].
  revert H1. generalize (Math_max (num 1)
                           (or_else (Number (Driver.capacity d)) (num 1000))).
  intros [| |q|]; try discriminate; [|reflexivity].
  unfold num. rewrite !ge_Fin. intros H.
  eapply Qle_trans; [|exact H]. discriminate.
Qed.

(** X30.  The overload warning needs a declared demand: when no order has a
    weight above 0, a run that returns a request prints no warning,
    whatever the capacities of the drivers are. *)
Theorem no_weight_no_warning :
  forall drivers orders depots options warnings request,
    transformToOmeletRequest today dateValue drivers orders depots options
    = (warnings, Ok request) ->
    Forall (fun o => positive (Order.weight o) = false) orders ->
    warnings = [].
Proof.
  intros drivers orders depots options warnings request Hrun Hnone.
  destruct (transform_success _ _ _ _ _ _ _ _ Hrun)
    as (_ & _ & _ & Hvisits & Hveh & _ & _ & Hw & _). cbv zeta in *.
  rewrite Hw.
  destruct (Analysis.hasCapacity (initialAnalysis drivers orders depots options))
    eqn:Hcap; [|reflexivity].
  rewrite not_above; [reflexivity| |].
  - unfold totalDemand. apply sum_zero; [reflexivity|].
    eapply demand_zero; eassumption.
  - unfold totalCapacity. apply sum_nonneg; [reflexivity|].
    rewrite Hveh. now apply capacity_nonneg.
Qed.

End CapacityWarning.

(** * Instances of the further properties *)

Section FurtherInstances.

Import JS ApiClient.

Lemma buildDepot_outcome_witness :
  buildDepot [sample_depot; sample_depot] [] = buildDepot [sample_depot] []
  /\ (exists depot, buildDepot [sample_depot] [] = Ok depot
                    /\ in_range (depot_coordinate depot) = true)
  /\ buildDepot [] [] = throw "INSUFFICIENT_DATA".
Proof.
  split; [|split].
  - apply (proj1 (buildDepot_outcome [sample_depot; sample_depot] [])
             sample_depot [sample_depot] []). reflexivity.
  - eexists. split; [reflexivity|].
    apply (proj1 (proj2 (buildDepot_outcome [sample_depot] []))). reflexivity.
  - apply (proj2 (proj2 (buildDepot_outcome [] []))). split; reflexivity.
Defined.

Lemma buildVisits_outcome_witness :
  let pa := initialAnalysis [sample_driver None] [sample_order None None] [] None in
  buildVisits "2026-11-03" [sample_order None None; misplaced_order] pa
  = throw "INVALID_COORDINATES"
  /\ exists v, buildVisits "2026-11-03" [sample_order None None] pa = Ok [v]
               /\ Visit.name v = "O001"
               /\ in_range (Visit.coordinate v) = true.
Proof.
  cbv zeta.
  set (pa := initialAnalysis [sample_driver None] [sample_order None None] [] None).
  split.
  - apply (proj1 (buildVisits_outcome "2026-11-03"
                    [sample_order None None; misplaced_order] pa)).
    right. left. reflexivity.
  - destruct (buildVisits "2026-11-03" [sample_order None None] pa)
      as [[|v [|v' vs]]|e] eqn:Hb; try (vm_compute in Hb; discriminate).
    exists v. split; [reflexivity|].
    destruct (proj2 (proj2 (buildVisits_outcome "2026-11-03"
                              [sample_order None None] pa)) [v] Hb)
      as [_ Hfields].
    destruct (Hfields 0%nat (sample_order None None) v eq_refl eq_refl)
      as (_ & Hrange & Hname).
    split; [exact Hname|exact Hrange].
Defined.

Lemma visit_demand_clamped_witness :
  let orders := [sample_order (Some (num (-5))) None] in
  let pa := initialAnalysis [sample_driver (Some (num 1000))] orders [] None in
  exists v, buildVisits "2026-11-03" orders pa = Ok [v]
            /\ at_least 0 (Visit.weight v) = true
            /\ at_least 0 (Visit.volume v) = true.
Proof.
  cbv zeta.
  set (orders := [sample_order (Some (num (-5))) None]).
  set (pa := initialAnalysis [sample_driver (Some (num 1000))] orders [] None).
  destruct (buildVisits "2026-11-03" orders pa)
    as [[|v [|v' vs]]|e] eqn:Hb; try (vm_compute in Hb; discriminate).
  exists v. split; [reflexivity|].
  pose proof (visit_demand_clamped "2026-11-03" orders pa [v] Hb) as H.
  apply Forall_inv in H. exact H.
Defined.

Lemma buildVehicles_capacity_witness :
  let drivers := [sample_driver (Some (num 0))] in
  let pa :=
    initialAnalysis drivers [sample_order (Some (num 100)) None] [] None in
  exists v, (buildVehicles "2026-11-03" drivers pa).1 = [v]
            /\ Vehicle.name v = "D001"
            /\ Vehicle.weight_capacity v = Some (num 1000).
Proof.
  cbv zeta.
  set (drivers := [sample_driver (Some (num 0))]).
  set (pa := initialAnalysis drivers [sample_order (Some (num 100)) None] [] None).
  destruct (buildVehicles "2026-11-03" drivers pa).1 as [|v [|v' vs]] eqn:Hb;
    try (vm_compute in Hb; discriminate).
  exists v. split; [reflexivity|].
  destruct (proj2 (buildVehicles_capacity "2026-11-03" drivers pa)
              0%nat (sample_driver (Some (num 0))) v eq_refl)
    as (Hname & _ & Hcap).
  - rewrite Hb. reflexivity.
  - split; [exact Hname|].
    change (Analysis.hasCapacity pa) with true in Hcap.
    destruct Hcap as (_ & _ & Hvalue). apply Hvalue. reflexivity.
Defined.

Lemma classification_consequences_witness :
  let drivers := [sample_driver (Some (num 0))] in
  let orders := replicate 5 (sample_order None None) in
  Analysis.hasCapacity (analyzeProblemType drivers orders [] None) = false
  /\ (length drivers <= 1)%nat.
Proof.
  apply (proj1 (classification_consequences
                  [sample_driver (Some (num 0))]
                  (replicate 5 (sample_order None None)) [] None)).
  reflexivity.
Defined.

Lemma transform_success_shape_witness :
  exists warnings request,
    transformToOmeletRequest "2026-11-03" IsoDate.dateValue
      [sample_driver (Some (num 1000))] [sample_order (Some (num 100)) None]
      [] None = (warnings, Ok request)
    /\ length (Request.visits request) = 1%nat
    /\ length (Request.vehicles request) = 1%nat
    /\ in_range (depot_coordinate (Request.depot request)) = true
    /\ (length warnings <= 1)%nat.
Proof.
  destruct (transformToOmeletRequest "2026-11-03" IsoDate.dateValue
              [sample_driver (Some (num 1000))]
              [sample_order (Some (num 100)) None] [] None)
    as [warnings [request|e]] eqn:Hrun; [|vm_compute in Hrun; discriminate].
  exists warnings, request. split; [reflexivity|].
  destruct (transform_success_shape "2026-11-03" IsoDate.dateValue
              _ _ _ _ _ _ Hrun)
    as (_ & _ & Hv & Hc & Hd & _ & _ & _ & Hw).
  repeat split; assumption.
Defined.

Lemma transform_failure_codes_witness :
  transformToOmeletRequest "2026-11-03" IsoDate.dateValue
    [] [] [sample_depot] None = ([], throw "NO_VISITS")
  /\ transformToOmeletRequest "2026-11-03" IsoDate.dateValue
       [] [sample_order None None] [sample_depot] None
     = ([], throw "NO_VEHICLES")
  /\ transformToOmeletRequest "2026-11-03" IsoDate.dateValue
       [sample_driver None] [misplaced_order] [sample_depot] None
     = ([], throw "INVALID_COORDINATES").
Proof.
  split; [|split].
  - apply (proj2 (proj2 (transform_failure_codes "2026-11-03"
                           IsoDate.dateValue [] [] [sample_depot] None))
             _ eq_refl). reflexivity.
  - apply (proj2 (proj2 (transform_failure_codes "2026-11-03"
                           IsoDate.dateValue [] [sample_order None None]
                           [sample_depot] None))
             _ eq_refl).
    + repeat constructor.
    + discriminate.
    + reflexivity.
  - apply (proj2 (proj2 (transform_failure_codes "2026-11-03"
                           IsoDate.dateValue [sample_driver None]
                           [misplaced_order] [sample_depot] None))
             _ eq_refl).
    left. reflexivity.
Defined.

Lemma transform_capacity_fields_witness :
  exists warnings request,
    transformToOmeletRequest "2026-11-03" IsoDate.dateValue
      [sample_driver (Some (num 1000))] [sample_order (Some (num 100)) None]
      [] (Some (Options.mk None None (Some false) None None None None))
    = (warnings, Ok request)
    /\ Forall (fun v => defined (Visit.weight v) = false
                        /\ defined (Visit.volume v) = false)
              (Request.visits request)
    /\ Forall (fun v => defined (Vehicle.weight_capacity v) = false
                        /\ defined (Vehicle.volume_capacity v) = false)
              (Request.vehicles request).
Proof.
  destruct (transformToOmeletRequest "2026-11-03" IsoDate.dateValue
              [sample_driver (Some (num 1000))]
              [sample_order (Some (num 100)) None] []
              (Some (Options.mk None None (Some false) None None None None)))
    as [warnings [request|e]] eqn:Hrun; [|vm_compute in Hrun; discriminate].
  exists warnings, request. split; [reflexivity|].
  destruct (transform_capacity_fields "2026-11-03" IsoDate.dateValue
              _ _ _ _ _ _ Hrun) as (Hv & Hc & _).
  split; [exact Hv|exact Hc].
Defined.

Lemma transform_delivery_start_time_witness :
  exists warnings request,
    transformToOmeletRequest "2026-11-03" IsoDate.dateValue
      [shift_driver "09:00" "18:00"] [sample_order None None] []
      (Some (Options.mk None None None None None None
                        (Some "2026-11-03T08:00:00Z")))
    = (warnings, Ok request)
    /\ Request.delivery_start_time request = Some "2026-11-03T08:00:00Z".
Proof.
  destruct (transformToOmeletRequest "2026-11-03" IsoDate.dateValue
              [shift_driver "09:00" "18:00"] [sample_order None None] []
              (Some (Options.mk None None None None None None
                                (Some "2026-11-03T08:00:00Z"))))
    as [warnings [request|e]] eqn:Hrun; [|vm_compute in Hrun; discriminate].
  exists warnings, request. split; [reflexivity|].
  exact (transform_delivery_start_time "2026-11-03" IsoDate.dateValue
           _ _ _ _ _ _ Hrun).
Defined.

Lemma transform_option_bag_witness :
  exists warnings request o,
    transformToOmeletRequest "2026-11-03" IsoDate.dateValue
      [sample_driver (Some (num 1000))] [sample_order (Some (num 100)) None]
      [] None = (warnings, Ok request)
    /\ Request.option request = Some o
    /\ objective_type o = minsum
    /\ timelimit o ∈ [num 10; num 15; num 20; num 30]
    /\ use_large_size_optimization_algorithm o = false.
Proof.
  destruct (transformToOmeletRequest "2026-11-03" IsoDate.dateValue
              [sample_driver (Some (num 1000))]
              [sample_order (Some (num 100)) None] [] None)
    as [warnings [request|e]] eqn:Hrun; [|vm_compute in Hrun; discriminate].
  destruct (transform_option_bag "2026-11-03" IsoDate.dateValue
              _ _ _ _ _ _ Hrun)
    as (o & Ho & Hobj & _ & Hlimit & Hlarge & _).
  exists warnings, request, o. split; [reflexivity|].
  split; [exact Ho|]. split; [exact Hobj|].
  split; [apply Hlimit; reflexivity|exact Hlarge].
Defined.

Lemma large_request_goes_async_witness :
  exists warnings request,
    transformToOmeletRequest "2026-11-03" IsoDate.dateValue
      (replicate 51 (sample_driver (Some (num 1000))))
      [sample_order (Some (num 100)) None] [] None = (warnings, Ok request)
    /\ SolveOptimization.handleSolveOptimization_call request
       = optimizeRoutesLong.
Proof.
  destruct (transformToOmeletRequest "2026-11-03" IsoDate.dateValue
              (replicate 51 (sample_driver (Some (num 1000))))
              [sample_order (Some (num 100)) None] [] None)
    as [warnings [request|e]] eqn:Hrun; [|vm_compute in Hrun; discriminate].
  exists warnings, request. split; [reflexivity|].
  destruct (transform_option_bag_large _ _ _ _ _ _ _ _ Hrun)
    as (o & Ho & Hlarge).
  exact (large_request_goes_async "2026-11-03" IsoDate.dateValue
           _ _ _ _ _ _ o Hrun Ho Hlarge).
Defined.

Lemma tool_classification_witness :
  Analysis.type
    (initialAnalysis [sample_driver None] (replicate 5 (sample_order None None))
       []
       (Some (SolveTool.optimizationOptions None None None
                "2026-11-03T08:00:00.000Z")))
  = CVRPTW.
Proof.
  apply (proj1 (proj2 (proj2 (proj2
           (tool_classification None None None "2026-11-03T08:00:00.000Z"
              [sample_driver None] (replicate 5 (sample_order None None))
              []))))); reflexivity.
Defined.

Lemma tool_request_options_witness :
  exists warnings request o,
    transformToOmeletRequest "2026-11-03" IsoDate.dateValue
      [sample_driver None] [sample_order None None] []
      (Some (SolveTool.optimizationOptions None (Some SolveTool.fast) None
               "2026-11-03T08:00:00.000Z"))
    = (warnings, Ok request)
    /\ Request.option request = Some o
    /\ objective_type o = minsum
    /\ allow_unassigned_visits o = false
    /\ timelimit o = num 30.
Proof.
  destruct (transformToOmeletRequest "2026-11-03" IsoDate.dateValue
              [sample_driver None] [sample_order None None] []
              (Some (SolveTool.optimizationOptions None (Some SolveTool.fast)
                       None "2026-11-03T08:00:00.000Z")))
    as [warnings [request|e]] eqn:Hrun; [|vm_compute in Hrun; discriminate].
  destruct (tool_request_options "2026-11-03" IsoDate.dateValue
              _ _ _ _ _ _ _ _ _ Hrun)
    as (o & Ho & Hobj & Hallow & _ & Hlimit & _).
  exists warnings, request, o. split; [reflexivity|].
  repeat split; assumption.
Defined.

Lemma no_weight_no_warning_witness :
  exists request,
    transformToOmeletRequest "2026-11-03" IsoDate.dateValue
      [sample_driver (Some (num 1000))] [sample_order None None] [] None
    = ([], Ok request).
Proof.
  destruct (transformToOmeletRequest "2026-11-03" IsoDate.dateValue
              [sample_driver (Some (num 1000))] [sample_order None None]
              [] None)
    as [warnings [request|e]] eqn:Hrun; [|vm_compute in Hrun; discriminate].
  exists request.
  rewrite (no_weight_no_warning "2026-11-03" IsoDate.dateValue
             _ _ _ _ _ _ Hrun); [reflexivity|].
  repeat constructor.
Defined.


Lemma waitForCompletion_outcome_witness :
  let processing_reply :=
    OmeletAPIClient.Replied 200
      {| OmeletAPIClient.check_status := OmeletAPIClient.processing;
         OmeletAPIClient.check_result := None;
         OmeletAPIClient.check_message := None |} in
  let completed_reply :=
    OmeletAPIClient.Replied 200
      {| OmeletAPIClient.check_status := OmeletAPIClient.completed;
         OmeletAPIClient.check_result := Some (sample_response optimal);
         OmeletAPIClient.check_message := None |} in
  OmeletAPIClient.waitForCompletion OmeletAPIClient.defaultMaxWaitTime
    [(num 0, processing_reply); (num 5000, completed_reply)]
  = Some (Ok (transformOmeletResponse (sample_response optimal)))
  /\ OmeletAPIClient.waitForCompletion OmeletAPIClient.defaultMaxWaitTime
       [(num 0, processing_reply); (num 300000, completed_reply)]
     = Some (throw "TIMEOUT").
Proof.
  cbv zeta. split.
  - apply (proj1 (waitForCompletion_outcome _ _)).
    eexists 1%nat, _, _, _, _. split; [reflexivity|].
    do 4 (split; [reflexivity|]).
    intros [|k] poll Hk Hl; [|lia]. injection Hl as <-.
    split; [reflexivity|]. eexists _, _. split; reflexivity.
  - eapply (proj1 (proj2 (waitForCompletion_outcome _ _)) 1%nat);
      [reflexivity|reflexivity|].
    intros [|k] poll Hk Hl; [|lia]. injection Hl as <-.
    split; [reflexivity|]. eexists _, _. split; reflexivity.
Defined.


Lemma validateResponse_of_transform_witness :
  head (OmeletAPIClient.warnings
          (OmeletAPIClient.validateResponse
             (transformOmeletResponse (sample_response time_limit_exceeded))))
  = Some "시간 제한으로 인해 최적이 아닐 수 있습니다".
Proof.
  apply (validateResponse_of_transform (sample_response time_limit_exceeded)).
  reflexivity.
Defined.

Lemma selectTimeout_selectEndpoint_witness :
  ApiConfig.selectEndpoint 99 20 = ApiConfig.VRP_LONG
  /\ ApiConfig.selectTimeout 99 = ApiConfig.STANDARD.
Proof.
  apply (proj2 (proj1 (proj2 (proj2 (selectTimeout_selectEndpoint 99 20))))).
  split; lia.
Defined.

Lemma sample_session_consistent : consistent (sample_session 1).
Proof.
  split; [|split].
  - apply (bool_decide_unpack _). vm_compute. exact I.
  - intros st Hst. apply list_elem_of_singleton in Hst. subst st.
    vm_compute. reflexivity.
  - cbn. lia.
Qed.

Lemma sample_files_ok : store_ok sample_files.
Proof.
  intros k s Hl. unfold sample_files in Hl.
  apply lookup_singleton_Some in Hl. destruct Hl as [<- <-].
  split; [reflexivity|apply sample_session_consistent].
Qed.

Lemma sample_files_lookup : sample_files !! "s1" = Some (sample_session 1).
Proof. unfold sample_files. apply lookup_singleton_eq. Qed.

Lemma session_save_load_witness :
  store_ok (SessionManager.saveSession "2026-11-03T10:00:00.000Z"
              (sample_session 1) sample_files).
Proof.
  apply (session_save_load "2026-11-03T10:00:00.000Z" (sample_session 1)
           sample_files).
  - exact sample_files_ok.
  - exact sample_session_consistent.
Defined.

Lemma deleteSession_outcome_witness :
  (SessionManager.deleteSession "s1" sample_files).1 = true
  /\ store_ok (SessionManager.deleteSession "s1" sample_files).2.
Proof.
  destruct (deleteSession_outcome "2026-11-03T10:00:00.000Z" "s1"
              start_project sample_files)
    as (Hret & _ & _ & _ & _ & Hok).
  split.
  - apply Hret. exists (sample_session 1). exact sample_files_lookup.
  - apply Hok. exact sample_files_ok.
Defined.

Lemma completeStep_frame_witness :
  exists s',
    SessionManager.completeStep "2026-11-03T10:00:00.000Z" "s1" prepare_data
      sample_files = Some (<["s1" := s']> sample_files)
    /\ ProjectSession.updated_at s' = "2026-11-03T10:00:00.000Z"
    /\ prepare_data ∈ ProjectSession.steps_completed s'.
Proof.
  destruct (proj2 (completeStep_frame "2026-11-03T10:00:00.000Z" "s1"
                     prepare_data sample_files)
              (sample_session 1) sample_files_lookup eq_refl)
    as (s' & Hrun & _ & _ & _ & Hu & _ & _ & _ & _ & Hin & _).
  exists s'. repeat split; assumption.
Defined.

Lemma completeStep_idempotent_witness :
  exists files',
    SessionManager.completeStep "2026-11-03T10:00:00.000Z" "s1" prepare_data
      sample_files = Some files'
    /\ SessionManager.completeStep "2026-11-03T10:00:00.000Z" "s1"
         prepare_data files' = Some files'.
Proof.
  destruct (SessionManager.completeStep "2026-11-03T10:00:00.000Z" "s1"
              prepare_data sample_files) as [files'|] eqn:Hrun.
  - exists files'. split; [reflexivity|].
    exact (completeStep_idempotent _ _ _ _ _ _ sample_files_lookup eq_refl
             Hrun).
  - apply (proj1 (completeStep_frame _ _ _ _)) in Hrun.
    unfold SessionManager.loadSession in Hrun.
    rewrite sample_files_lookup in Hrun. discriminate.
Defined.

Lemma store_invariant_witness :
  store_ok (SessionManager.deleteSession "s1" sample_files).2
  /\ consistent
       (SessionManager.createSession "s2" None "2026. 11. 3."
          "2026-11-03T09:00:00.000Z" "2026-11-03T09:00:00.001Z"
          {| SessionManager.session_files := sample_files;
             SessionManager.activeSessionId := None |}).1.
Proof.
  destruct (store_invariant sample_files sample_files_ok)
    as (Hcreate & _ & Hdelete).
  split; [apply Hdelete|].
  apply (Hcreate "s2" None "2026. 11. 3." "2026-11-03T09:00:00.000Z"
           "2026-11-03T09:00:00.001Z" None).
Defined.

Lemma getNextStep_of_consistent_witness :
  exists g,
    SessionManager.getNextStep (sample_session 1) = Some g
    /\ step g ∉ ProjectSession.steps_completed (sample_session 1).
Proof.
  destruct (SessionManager.getNextStep (sample_session 1)) as [g|] eqn:Hg;
    [|vm_compute in Hg; discriminate].
  exists g. split; [reflexivity|].
  apply (proj1 (getNextStep_of_consistent (sample_session 1)
                  sample_session_consistent) g Hg).
Defined.

Lemma getProgress_bounds_witness :
  SessionManager.total (SessionManager.getProgress (sample_session 1)) = 7%nat
  /\ ge (num 100)
        (SessionManager.percentage
           (SessionManager.getProgress (sample_session 1))) = true.
Proof.
  destruct (getProgress_bounds (sample_session 1)) as (Ht & _ & _ & Hp & _).
  - apply (bool_decide_unpack _). vm_compute. exact I.
  - split; [exact Ht|exact Hp].
Defined.

Lemma active_session_witness :
  let created :=
    SessionManager.createSession "s2" None "2026. 11. 3."
      "2026-11-03T09:00:00.000Z" "2026-11-03T09:00:00.001Z"
      {| SessionManager.session_files := sample_files;
         SessionManager.activeSessionId := None |} in
  SessionManager.getActiveSession created.2 = Some created.1
  /\ SessionManager.session_files created.2 !! "s1"
     = Some (sample_session 1).
Proof.
  cbv zeta.
  destruct (proj1 (active_session
                     {| SessionManager.session_files := sample_files;
                        SessionManager.activeSessionId := None |})
              "s2" None "2026. 11. 3." "2026-11-03T09:00:00.000Z"
              "2026-11-03T09:00:00.001Z")
    as (Hactive & _ & Hothers); [discriminate|].
  split; [exact Hactive|].
  rewrite (Hothers "s1") by discriminate. exact sample_files_lookup.
Defined.

Lemma storeResult_outcome_witness :
  exists s',
    SolveTool.storeResult "2026-11-03T10:00:00.000Z" "s1" (sample_session 1)
      (transformOmeletResponse (sample_response optimal)) sample_files
    = Some (<["s1" := s']> sample_files)
    /\ ProjectSession.last_result s'
       = Some (transformOmeletResponse (sample_response optimal))
    /\ ProjectSession.current_step s' = 4%Z
    /\ SessionManager.getNextStep s' = SessionManager.guide analyze_results.
Proof.
  destruct (storeResult_outcome "2026-11-03T10:00:00.000Z" "s1"
              (sample_session 1)
              (transformOmeletResponse (sample_response optimal))
              sample_files sample_files_lookup eq_refl)
    as (s' & Hrun & Hl & _ & Hc & _ & _ & _ & Hnext).
  exists s'. split; [exact Hrun|]. split; [exact Hl|].
  split; [exact Hc|]. apply Hnext. cbn. lia.
Defined.

Lemma buildVehicles_shifts_and_preferences_witness :
  let drivers := [shift_driver "09:00" "18:00"] in
  let pa := initialAnalysis drivers [sample_order None None] [] None in
  exists v, (buildVehicles "2026-11-03" drivers pa).1 = [v]
            /\ defined (Vehicle.work_start_time v) = true
            /\ Vehicle.visit_preference v = None.
Proof.
  cbv zeta.
  set (drivers := [shift_driver "09:00" "18:00"]).
  set (pa := initialAnalysis drivers [sample_order None None] [] None).
  destruct (buildVehicles "2026-11-03" drivers pa).1 as [|v [|v' vs]] eqn:Hb;
    try (vm_compute in Hb; discriminate).
  exists v. split; [reflexivity|].
  destruct (buildVehicles_shifts_and_preferences "2026-11-03" drivers pa
              0%nat (shift_driver "09:00" "18:00") v eq_refl)
    as (Hwork & Hpref & _).
  - rewrite Hb. reflexivity.
  - change (Analysis.hasWorkingHours pa) with true in Hwork.
    destruct Hwork as (Hstart & _). split; [exact Hstart|].
    destruct (Vehicle.visit_preference v) as [ps|]; [|reflexivity].
    destruct (Hpref ps eq_refl) as [Hflag _]. discriminate Hflag.
Defined.

End FurtherInstances.
